(** * Trajectory evaluator of the lattice planner

    A shallow embedding of
    [modules/planning/lattice/trajectory_generation/trajectory_evaluator.cc]
    and the properties of its ranking, filtering and cost functions.

    Number model.  A C++ [double] is represented by a rational ([Q]).
    The counters of the sampling loops ([t += step]) are accumulated as
    the source accumulates them, with the binary64 rounding of every
    addition ([double_add]), so the sampled times and the number of rounds
    are those of the program.  The arithmetic of the cost terms is the
    corresponding exact operation.  Infinities and NaN are outside this
    model; a quotient whose divisor is zero has no meaning here, and the
    statements below that depend on the value of a quotient assume its
    divisor is not zero. *)

From Stdlib Require Import QArith Qabs Qminmax Qround Qpower Lqa Lia ZArith.
From Stdlib Require Import List Bool Permutation Sorted.
Import ListNotations.
Open Scope Q_scope.

(** ** Numbers *)

Definition double := Q.

(** [x < y] and [x > y] on doubles, as booleans. *)
Definition dlt (x y : double) : bool := negb (Qle_bool y x).
Definition dgt (x y : double) : bool := dlt y x.

Infix "<?" := dlt (at level 70, no associativity) : Q_scope.
Infix ">?" := dgt (at level 70, no associativity) : Q_scope.

(** [std::numeric_limits<double>::max()], the largest finite binary64
    value, (2 - 2^-52) * 2^1023. *)
Definition DBL_MAX : double := inject_Z (2 ^ 1024 - 2 ^ 971).

(** [std::vector::empty] *)
Definition vector_empty {A : Type} (v : list A) : bool :=
  match v with
  | [] => true
  | _ :: _ => false
  end.

(** Conversion of a [std::size_t] loop index to [double]. *)
Definition to_double (i : nat) : double := inject_Z (Z.of_nat i).

(** ** Addition of doubles

    [round64] rounds a rational to the nearest binary64 value, ties to the
    even significand: a significand of 53 bits above the exponent -1074 of
    the least subnormal (overflow to infinity is not modelled).
    [double_add] is the addition of two doubles. *)

(** The integer nearest to [N / D], the even one of two equally near. *)
Definition round_half_even (N : Z) (D : positive) : Z :=
  let q := (N / Zpos D)%Z in
  let r := (N mod Zpos D)%Z in
  match (2 * r ?= Zpos D)%Z with
  | Lt => q
  | Gt => (q + 1)%Z
  | Eq => if Z.even q then q else (q + 1)%Z
  end.

Definition pow2 (e : Z) : Q := Qpower 2 e.

(** The multiple of [2^e] nearest to [a]. *)
Definition round_at (e : Z) (a : Q) : Q :=
  let scaled := a / pow2 e in
  inject_Z (round_half_even (Qnum scaled) (Qden scaled)) * pow2 e.

(** The exponent of the unit in the last place of a positive [a]:
    [2^52 <= a / 2^e < 2^53], and -1074 for the subnormal range. *)
Definition exponent (a : Q) : Z :=
  let e0 := (Z.log2 (Qnum a) - Z.log2 (Zpos (Qden a)) - 52)%Z in
  let e := if a / pow2 e0 <? pow2 52 then (e0 - 1)%Z else e0 in
  Z.max e (-1074).

Definition round64 (q : Q) : double :=
  if q <? 0 then Qred (- round_at (exponent (- q)) (- q))
  else if 0 <? q then Qred (round_at (exponent q) q)
  else 0.

Definition double_add (x y : double) : double := round64 (x + y).

(** The step is not absorbed below the bound: every addition of [step]
    to a counter in [0, bound) moves it by at least half a step (the
    rounding error of the sum is at most half a unit in the last
    place). *)
Definition counter_advances (bound step : double) : Prop :=
  0 < step /\ bound + step <= pow2 52 * step /\ pow2 (-1074) <= step.

(** ** Loops over a double counter

    [for (double x = x0; x < bound; x += step) acc = body x acc;]
    The loop of the source has no bound on its number of rounds (a step
    that is not positive never reaches [bound]), so the model takes fuel
    and answers [None] when the fuel is spent while the loop condition
    still holds. *)
Fixpoint for_double {A : Type} (fuel : nat) (x bound step : double)
    (body : double -> A -> A) (acc : A) : option A :=
  if x <? bound then
    match fuel with
    | O => None
    | S fuel' =>
        for_double fuel' (double_add x step) bound step body (body x acc)
    end
  else Some acc.

(** The values the loop counter takes, in order. *)
Fixpoint samples (fuel : nat) (x bound step : double) : option (list double) :=
  if x <? bound then
    match fuel with
    | O => None
    | S fuel' =>
        option_map (cons x) (samples fuel' (double_add x step) bound step)
    end
  else Some [].

(** [ts] are the values the counter takes in a loop that starts at [x]
    and comes to its end. *)
Inductive counter_values (bound step : double)
    : double -> list double -> Prop :=
| counter_stops : forall x,
    bound <= x -> counter_values bound step x []
| counter_steps : forall x ts,
    x < bound ->
    counter_values bound step (double_add x step) ts ->
    counter_values bound step x (x :: ts).

Definition bind {A B : Type} (m : option A) (k : A -> option B) : option B :=
  match m with
  | Some a => k a
  | None => None
  end.

Notation "x <- m ;; k" := (bind m (fun x => k))
  (at level 61, m at next level, right associativity).

(** ** Results of operations guarded by [CHECK]

    [CHECK(c)] aborts the process when [c] is false.  Reading
    [top()] of an empty [std::priority_queue] is undefined behaviour. *)
Inductive outcome (A : Type) : Type :=
| Returns (a : A)
| CheckFailure
| UndefinedBehaviour.

Arguments Returns {A} a.
Arguments CheckFailure {A}.
Arguments UndefinedBehaviour {A}.

(** ** Configuration flags ([planning_gflags]) read by the evaluator *)
Record Flags : Type := {
  FLAGS_trajectory_time_length : double;
  FLAGS_trajectory_time_resolution : double;
  FLAGS_trajectory_space_resolution : double;
  FLAGS_decision_horizon : double;
  FLAGS_enable_auto_tuning : bool;
  FLAGS_weight_lon_travel : double;
  FLAGS_weight_lon_jerk : double;
  FLAGS_weight_lon_collision : double;
  FLAGS_weight_lat_offset : double;
  FLAGS_weight_lat_comfort : double;
  FLAGS_lat_offset_bound : double;
  FLAGS_weight_opposite_side_offset : double;
  FLAGS_weight_same_side_offset : double;
  FLAGS_lattice_epsilon : double;
  FLAGS_longitudinal_jerk_upper_bound : double;
  FLAGS_weight_target_speed : double;
  FLAGS_weight_dist_travelled : double;
  FLAGS_lon_collision_cost_std : double;
  FLAGS_lon_collision_yield_buffer : double;
  FLAGS_lon_collision_overtake_buffer : double;
  FLAGS_longitudinal_acceleration_lower_bound : double;
  FLAGS_comfort_acceleration_factor : double
}.

(** ** Evaluable curves ([Curve1d]): value of the derivative of a given
    order at a parameter, and the length of the parameter domain. *)
Module Curve1d.
Record t : Type := {
  Evaluate : nat -> double -> double;
  ParamLength : double
}.
End Curve1d.

Definition Trajectory1d := Curve1d.t.

(** ** Planning target: cruise speed and an optional stop point *)
Module PlanningTarget.
Record StopPoint : Type := { s : double }.
Record t : Type := {
  cruise_speed : double;
  stop_point : option StopPoint
}.
Definition has_stop_point (p : t) : bool :=
  match stop_point p with
  | Some _ => true
  | None => false
  end.
End PlanningTarget.

(** ** Obstacle map: blocked [s]-intervals per time slice *)
Module PathTimeGraph.
Record t : Type := {
  GetPathBlockingIntervals :
    double -> double -> double -> list (list (double * double))
}.
End PathTimeGraph.

(** ** [std::priority_queue]

    The container is modelled by its contents and the contract of the
    standard: [top] is an element that no other element is ordered after
    by the comparator, [pop] removes it.  Among several such elements the
    one pushed first is taken; the standard leaves that choice open, and
    nothing below depends on it. *)
Module PriorityQueue.
Section Queue.
Context {A : Type} (comp : A -> A -> bool).

Definition empty (q : list A) : bool :=
  match q with
  | [] => true
  | _ :: _ => false
  end.

Definition size (q : list A) : nat := length q.

Definition push (x : A) (q : list A) : list A := q ++ [x].

(** The top element together with the remaining contents. *)
Fixpoint extract (q : list A) : option (A * list A) :=
  match q with
  | [] => None
  | x :: rest =>
      match extract rest with
      | None => Some (x, [])
      | Some (y, rest') =>
          if comp x y then Some (y, x :: rest') else Some (x, rest)
      end
  end.

Definition top (q : list A) : option A := option_map fst (extract q).

Definition pop (q : list A) : list A :=
  match extract q with
  | Some (_, q') => q'
  | None => q
  end.
End Queue.
End PriorityQueue.

(** ** The guide profile class

    Modelled from the spec: [ConstantAccelerationTrajectory1d] (file
    [piecewise_acceleration_trajectory1d]) is not part of the sources at
    hand.  The specification calls it a piecewise-constant-acceleration
    profile: it is created at a start position and a start speed, each
    appended segment holds one acceleration for one duration, its domain
    length is the sum of the durations, and its derivative of order 1 at
    time [t] is the speed reached at [t]. *)
Module ConstantAccelerationTrajectory1d.
Record t : Type := {
  start_s : double;
  start_v : double;
  segments : list (double * double)
}.

Definition make (s0 v0 : double) : t :=
  {| start_s := s0; start_v := v0; segments := [] |}.

Definition AppendSegment (a t_duration : double) (c : t) : t :=
  {| start_s := start_s c;
     start_v := start_v c;
     segments := segments c ++ [(a, t_duration)] |}.

Definition ParamLength (c : t) : double :=
  fold_left (fun acc seg => acc + snd seg) (segments c) 0.

(** Position, speed and acceleration at time [t], counted from the
    start of the first segment of [segs]. *)
Fixpoint state_at (s0 v0 : double) (segs : list (double * double))
    (t : double) : double * double * double :=
  match segs with
  | [] => (s0, v0, 0)
  | (a, d) :: rest =>
      if d <? t
      then state_at (s0 + v0 * d + a * d * d * (1 # 2)) (v0 + a * d)
                    rest (t - d)
      else (s0 + v0 * t + a * t * t * (1 # 2), v0 + a * t, a)
  end.

Definition Evaluate (order : nat) (param : double) (c : t) : double :=
  let '(pos, vel, acc) := state_at (start_s c) (start_v c) (segments c) param in
  match order with
  | 0%nat => pos
  | 1%nat => vel
  | 2%nat => acc
  | _ => 0
  end.
End ConstantAccelerationTrajectory1d.

(** ** The evaluator *)
Module TrajectoryEvaluator.

Definition Pair : Type := (Trajectory1d * Trajectory1d)%type.
Definition PairCost : Type := (Pair * double)%type.
Definition PairCostWithComponents : Type :=
  (Pair * (list double * double))%type.

(** Modelled from the spec: the comparators of the two queues are
    declared in the header, which is not part of the sources at hand.
    The specification orders the store ascending by total cost, the
    lowest cost retrieved first, through an inverted comparison: an
    entry of larger cost is ordered before one of smaller cost. *)
Definition CostComparator (left right : PairCost) : bool :=
  snd left >? snd right.

(** Modelled from the spec: the comparator of the queue with
    components, declared in the same header; the same inverted order, on
    the total cost of the entry. *)
Definition CostComponentComparator
    (left right : PairCostWithComponents) : bool :=
  snd (snd left) >? snd (snd right).

Record t : Type := {
  path_time_graph_ : PathTimeGraph.t;
  init_s_ : double * double * double;
  path_time_intervals_ : list (list (double * double));
  cost_queue_ : list PairCost;
  cost_queue_with_components_ : list PairCostWithComponents
}.

Definition set_cost_queue (q : list PairCost) (self : t) : t :=
  {| path_time_graph_ := path_time_graph_ self;
     init_s_ := init_s_ self;
     path_time_intervals_ := path_time_intervals_ self;
     cost_queue_ := q;
     cost_queue_with_components_ := cost_queue_with_components_ self |}.

Definition set_cost_queue_with_components
    (q : list PairCostWithComponents) (self : t) : t :=
  {| path_time_graph_ := path_time_graph_ self;
     init_s_ := init_s_ self;
     path_time_intervals_ := path_time_intervals_ self;
     cost_queue_ := cost_queue_ self;
     cost_queue_with_components_ := q |}.

(** [init_s_[0]], [init_s_[1]], [init_s_[2]] *)
Definition at0 (a : double * double * double) : double := fst (fst a).
Definition at1 (a : double * double * double) : double := snd (fst a).
Definition at2 (a : double * double * double) : double := snd a.

Section WithFlags.
Variable flags : Flags.
(** [std::exp] *)
Variable exp : double -> double.
(** [ConstraintChecker1d::IsValidLongitudinalTrajectory] *)
Variable IsValidLongitudinalTrajectory : Trajectory1d -> bool.

(** *** Guide velocity

    [guide_profile] is the first half of
    [ComputeLongitudinalGuideVelocity]: the profile [lon_traj] as it
    stands when the sampling loop starts. *)
Definition guide_profile (self : t) (planning_target : PlanningTarget.t)
    : ConstantAccelerationTrajectory1d.t :=
  let comfort_a :=
    FLAGS_longitudinal_acceleration_lower_bound flags *
    FLAGS_comfort_acceleration_factor flags in
  let cruise_s_dot := PlanningTarget.cruise_speed planning_target in
  let lon_traj :=
    ConstantAccelerationTrajectory1d.make (at0 (init_s_ self)) cruise_s_dot in
  match PlanningTarget.stop_point planning_target with
  | None =>
      ConstantAccelerationTrajectory1d.AppendSegment
        0 (FLAGS_trajectory_time_length flags) lon_traj
  | Some stop =>
      let stop_a := FLAGS_longitudinal_acceleration_lower_bound flags in
      let stop_s := PlanningTarget.s stop in
      let dist := stop_s - at0 (init_s_ self) in
      let stop_a :=
        if dist >? FLAGS_lattice_epsilon flags
        then - cruise_s_dot * cruise_s_dot * (1 # 2) / dist
        else stop_a in
      let lon_traj :=
        if stop_a >? comfort_a then
          let stop_t := cruise_s_dot / (- comfort_a) in
          let stop_dist := cruise_s_dot * stop_t * (1 # 2) in
          let cruise_t := (dist - stop_dist) / cruise_s_dot in
          ConstantAccelerationTrajectory1d.AppendSegment comfort_a stop_t
            (ConstantAccelerationTrajectory1d.AppendSegment 0 cruise_t
               lon_traj)
        else
          let stop_t := cruise_s_dot / (- stop_a) in
          ConstantAccelerationTrajectory1d.AppendSegment stop_a stop_t
            lon_traj in
      if ConstantAccelerationTrajectory1d.ParamLength lon_traj
         <? FLAGS_trajectory_time_length flags
      then
        ConstantAccelerationTrajectory1d.AppendSegment 0
          (FLAGS_trajectory_time_length flags -
           ConstantAccelerationTrajectory1d.ParamLength lon_traj)
          lon_traj
      else lon_traj
  end.

Definition ComputeLongitudinalGuideVelocity (fuel : nat) (self : t)
    (planning_target : PlanningTarget.t) : option (list double) :=
  let lon_traj := guide_profile self planning_target in
  for_double fuel 0 (FLAGS_trajectory_time_length flags)
    (FLAGS_trajectory_time_resolution flags)
    (fun t reference_s_dot =>
       reference_s_dot ++
       [ConstantAccelerationTrajectory1d.Evaluate 1 t lon_traj])
    [].

(** *** Lateral costs *)
Fixpoint LatOffsetCost_loop (lat_trajectory : Trajectory1d)
    (lat_offset_start : double) (s_values : list double)
    (sums : double * double) : double * double :=
  match s_values with
  | [] => sums
  | s :: rest =>
      let '(cost_sqr_sum, cost_abs_sum) := sums in
      let lat_offset := Curve1d.Evaluate lat_trajectory 0 s in
      let cost := lat_offset / FLAGS_lat_offset_bound flags in
      if lat_offset * lat_offset_start <? 0 then
        LatOffsetCost_loop lat_trajectory lat_offset_start rest
          (cost_sqr_sum +
             cost * cost * FLAGS_weight_opposite_side_offset flags,
           cost_abs_sum +
             Qabs cost * FLAGS_weight_opposite_side_offset flags)
      else
        LatOffsetCost_loop lat_trajectory lat_offset_start rest
          (cost_sqr_sum +
             cost * cost * FLAGS_weight_same_side_offset flags,
           cost_abs_sum +
             Qabs cost * FLAGS_weight_same_side_offset flags)
  end.

Definition LatOffsetCost (lat_trajectory : Trajectory1d)
    (s_values : list double) : double :=
  let lat_offset_start := Curve1d.Evaluate lat_trajectory 0 0 in
  let '(cost_sqr_sum, cost_abs_sum) :=
    LatOffsetCost_loop lat_trajectory lat_offset_start s_values (0, 0) in
  cost_sqr_sum / (cost_abs_sum + FLAGS_lattice_epsilon flags).

Definition LatComfortCost (fuel : nat)
    (lon_trajectory lat_trajectory : Trajectory1d) : option double :=
  for_double fuel 0 (FLAGS_trajectory_time_length flags)
    (FLAGS_trajectory_time_resolution flags)
    (fun t max_cost =>
       let s := Curve1d.Evaluate lon_trajectory 0 t in
       let s_dot := Curve1d.Evaluate lon_trajectory 1 t in
       let s_dotdot := Curve1d.Evaluate lon_trajectory 2 t in
       let l_prime := Curve1d.Evaluate lat_trajectory 1 s in
       let l_primeprime := Curve1d.Evaluate lat_trajectory 2 s in
       let cost := l_primeprime * s_dot * s_dot + l_prime * s_dotdot in
       Qmax max_cost (Qabs cost))
    0.

(** *** Longitudinal costs *)
Definition LonComfortCost (fuel : nat) (lon_trajectory : Trajectory1d)
    : option double :=
  sums <- for_double fuel 0 (FLAGS_trajectory_time_length flags)
            (FLAGS_trajectory_time_resolution flags)
            (fun t (sums : double * double) =>
               let jerk := Curve1d.Evaluate lon_trajectory 3 t in
               let cost :=
                 jerk / FLAGS_longitudinal_jerk_upper_bound flags in
               (fst sums + cost * cost, snd sums + Qabs cost))
            (0, 0) ;;
  Some (fst sums / (snd sums + FLAGS_lattice_epsilon flags)).

Fixpoint LonObjectiveCost_loop (lon_trajectory : Trajectory1d)
    (i : nat) (ref_s_dots : list double) (sums : double * double)
    : double * double :=
  match ref_s_dots with
  | [] => sums
  | ref_s_dot :: rest =>
      let '(speed_cost_sqr_sum, speed_cost_weight_sum) := sums in
      let t := to_double i * FLAGS_trajectory_time_resolution flags in
      let cost := ref_s_dot - Curve1d.Evaluate lon_trajectory 1 t in
      LonObjectiveCost_loop lon_trajectory (S i) rest
        (speed_cost_sqr_sum + t * t * Qabs cost,
         speed_cost_weight_sum + t * t)
  end.

(** The locals [speed_cost] and [dist_travelled_cost] of
    [LonObjectiveCost]. *)
Definition speed_cost (lon_trajectory : Trajectory1d)
    (ref_s_dots : list double) : double :=
  let '(speed_cost_sqr_sum, speed_cost_weight_sum) :=
    LonObjectiveCost_loop lon_trajectory 0 ref_s_dots (0, 0) in
  speed_cost_sqr_sum /
  (speed_cost_weight_sum + FLAGS_lattice_epsilon flags).

Definition dist_travelled_cost (lon_trajectory : Trajectory1d) : double :=
  let t_max := Curve1d.ParamLength lon_trajectory in
  let dist_s :=
    Curve1d.Evaluate lon_trajectory 0 t_max -
    Curve1d.Evaluate lon_trajectory 0 0 in
  1 / (1 + dist_s).

Definition LonObjectiveCost (lon_trajectory : Trajectory1d)
    (planning_target : PlanningTarget.t) (ref_s_dots : list double)
    : double :=
  (speed_cost lon_trajectory ref_s_dots *
     FLAGS_weight_target_speed flags +
   dist_travelled_cost lon_trajectory *
     FLAGS_weight_dist_travelled flags) /
  (FLAGS_weight_target_speed flags + FLAGS_weight_dist_travelled flags).

Fixpoint LonCollisionCost_intervals (traj_s sigma : double)
    (pt_interval : list (double * double)) (sums : double * double)
    : double * double :=
  match pt_interval with
  | [] => sums
  | m :: rest =>
      let '(cost_sqr_sum, cost_abs_sum) := sums in
      let dist :=
        if traj_s <? fst m - FLAGS_lon_collision_yield_buffer flags
        then fst m - FLAGS_lon_collision_yield_buffer flags - traj_s
        else if traj_s >? snd m + FLAGS_lon_collision_overtake_buffer flags
        then traj_s - snd m - FLAGS_lon_collision_overtake_buffer flags
        else 0 in
      let cost := exp (- dist * dist / (2 * sigma * sigma)) in
      LonCollisionCost_intervals traj_s sigma rest
        (cost_sqr_sum + cost * cost, cost_abs_sum + cost)
  end.

Fixpoint LonCollisionCost_loop (lon_trajectory : Trajectory1d) (i : nat)
    (path_time_intervals : list (list (double * double)))
    (sums : double * double) : double * double :=
  match path_time_intervals with
  | [] => sums
  | pt_interval :: rest =>
      if vector_empty pt_interval then
        LonCollisionCost_loop lon_trajectory (S i) rest sums
      else
        let t := to_double i * FLAGS_trajectory_time_resolution flags in
        let traj_s := Curve1d.Evaluate lon_trajectory 0 t in
        let sigma := FLAGS_lon_collision_cost_std flags in
        LonCollisionCost_loop lon_trajectory (S i) rest
          (LonCollisionCost_intervals traj_s sigma pt_interval sums)
  end.

Definition LonCollisionCost (self : t) (lon_trajectory : Trajectory1d)
    : double :=
  let '(cost_sqr_sum, cost_abs_sum) :=
    LonCollisionCost_loop lon_trajectory 0 (path_time_intervals_ self)
      (0, 0) in
  cost_sqr_sum / (cost_abs_sum + FLAGS_lattice_epsilon flags).

(** *** Total cost of a pair

    [cost_components] is the optional output vector: [None] for a null
    pointer, otherwise the vector the four components are pushed to. *)
Definition Evaluate (fuel : nat) (self : t)
    (planning_target : PlanningTarget.t)
    (lon_trajectory lat_trajectory : Trajectory1d)
    (cost_components : option (list double))
    : option (double * option (list double)) :=
  reference_s_dot <-
    ComputeLongitudinalGuideVelocity fuel self planning_target ;;
  let lon_objective_cost :=
    LonObjectiveCost lon_trajectory planning_target reference_s_dot in
  lon_jerk_cost <- LonComfortCost fuel lon_trajectory ;;
  let lon_collision_cost := LonCollisionCost self lon_trajectory in
  let evaluation_horizon :=
    Qmin (FLAGS_decision_horizon flags)
         (Curve1d.Evaluate lon_trajectory 0
            (Curve1d.ParamLength lon_trajectory)) in
  s_values <-
    for_double fuel 0 evaluation_horizon
      (FLAGS_trajectory_space_resolution flags)
      (fun s s_values => s_values ++ [s]) [] ;;
  let lat_offset_cost := LatOffsetCost lat_trajectory s_values in
  lat_comfort_cost <- LatComfortCost fuel lon_trajectory lat_trajectory ;;
  let cost_components :=
    match cost_components with
    | Some v =>
        Some ((((v ++ [lon_objective_cost]) ++ [lon_jerk_cost])
                 ++ [lon_collision_cost]) ++ [lat_offset_cost])
    | None => None
    end in
  Some (lon_objective_cost * FLAGS_weight_lon_travel flags +
        lon_jerk_cost * FLAGS_weight_lon_jerk flags +
        lon_collision_cost * FLAGS_weight_lon_collision flags +
        lat_offset_cost * FLAGS_weight_lat_offset flags +
        lat_comfort_cost * FLAGS_weight_lat_comfort flags,
        cost_components).

(** *** Construction *)

(** The inner loop of the constructor, over the lateral candidates. *)
Fixpoint construct_lat (fuel : nat) (planning_target : PlanningTarget.t)
    (lon_trajectory : Trajectory1d) (lat_trajectories : list Trajectory1d)
    (self : t) : option t :=
  match lat_trajectories with
  | [] => Some self
  | lat_trajectory :: rest =>
      if negb (FLAGS_enable_auto_tuning flags) then
        r <- Evaluate fuel self planning_target lon_trajectory
               lat_trajectory None ;;
        let cost := fst r in
        construct_lat fuel planning_target lon_trajectory rest
          (set_cost_queue
             (PriorityQueue.push
                ((lon_trajectory, lat_trajectory), cost)
                (cost_queue_ self))
             self)
      else
        r <- Evaluate fuel self planning_target lon_trajectory
               lat_trajectory (Some []) ;;
        let cost := fst r in
        let cost_components :=
          match snd r with
          | Some v => v
          | None => []
          end in
        construct_lat fuel planning_target lon_trajectory rest
          (set_cost_queue_with_components
             (PriorityQueue.push
                ((lon_trajectory, lat_trajectory), (cost_components, cost))
                (cost_queue_with_components_ self))
             self)
  end.

(** The outer loop of the constructor, over the longitudinal
    candidates. *)
Fixpoint construct_lon (fuel : nat) (planning_target : PlanningTarget.t)
    (end_time stop_point : double)
    (lon_trajectories lat_trajectories : list Trajectory1d)
    (self : t) : option t :=
  match lon_trajectories with
  | [] => Some self
  | lon_trajectory :: rest =>
      let lon_end_s := Curve1d.Evaluate lon_trajectory 0 end_time in
      if lon_end_s >? stop_point then
        construct_lon fuel planning_target end_time stop_point rest
          lat_trajectories self
      else if negb (IsValidLongitudinalTrajectory lon_trajectory) then
        construct_lon fuel planning_target end_time stop_point rest
          lat_trajectories self
      else
        self' <- construct_lat fuel planning_target lon_trajectory
                   lat_trajectories self ;;
        construct_lon fuel planning_target end_time stop_point rest
          lat_trajectories self'
  end.

(** [TrajectoryEvaluator::TrajectoryEvaluator] *)
Definition create (fuel : nat) (init_s : double * double * double)
    (planning_target : PlanningTarget.t)
    (lon_trajectories lat_trajectories : list Trajectory1d)
    (path_time_graph : PathTimeGraph.t) : option t :=
  let start_time := 0 in
  let end_time := FLAGS_trajectory_time_length flags in
  let self :=
    {| path_time_graph_ := path_time_graph;
       init_s_ := init_s;
       path_time_intervals_ :=
         PathTimeGraph.GetPathBlockingIntervals path_time_graph
           start_time end_time (FLAGS_trajectory_time_resolution flags);
       cost_queue_ := [];
       cost_queue_with_components_ := [] |} in
  let stop_point :=
    match PlanningTarget.stop_point planning_target with
    | Some stop => PlanningTarget.s stop
    | None => DBL_MAX
    end in
  construct_lon fuel planning_target end_time stop_point
    lon_trajectories lat_trajectories self.

(** *** The ranked store *)
Definition has_more_trajectory_pairs (self : t) : bool :=
  if negb (FLAGS_enable_auto_tuning flags)
  then negb (PriorityQueue.empty (cost_queue_ self))
  else negb (PriorityQueue.empty (cost_queue_with_components_ self)).

Definition num_of_trajectory_pairs (self : t) : nat :=
  if negb (FLAGS_enable_auto_tuning flags)
  then PriorityQueue.size (cost_queue_ self)
  else PriorityQueue.size (cost_queue_with_components_ self).

Definition next_top_trajectory_pair (self : t) : outcome (Pair * t) :=
  if negb (Bool.eqb (has_more_trajectory_pairs self) true)
  then CheckFailure
  else if negb (FLAGS_enable_auto_tuning flags) then
    match PriorityQueue.top CostComparator (cost_queue_ self) with
    | Some top =>
        Returns (fst top,
                 set_cost_queue
                   (PriorityQueue.pop CostComparator (cost_queue_ self))
                   self)
    | None => UndefinedBehaviour
    end
  else
    match PriorityQueue.top CostComponentComparator
            (cost_queue_with_components_ self) with
    | Some top =>
        Returns (fst top,
                 set_cost_queue_with_components
                   (PriorityQueue.pop CostComponentComparator
                      (cost_queue_with_components_ self))
                   self)
    | None => UndefinedBehaviour
    end.

Definition top_trajectory_pair_cost (self : t) : outcome double :=
  if negb (FLAGS_enable_auto_tuning flags) then
    match PriorityQueue.top CostComparator (cost_queue_ self) with
    | Some top => Returns (snd top)
    | None => UndefinedBehaviour
    end
  else
    match PriorityQueue.top CostComponentComparator
            (cost_queue_with_components_ self) with
    | Some top => Returns (snd (snd top))
    | None => UndefinedBehaviour
    end.

Definition top_trajectory_pair_component_cost (self : t)
    : outcome (list double) :=
  if negb (FLAGS_enable_auto_tuning flags) then CheckFailure
  else
    match PriorityQueue.top CostComponentComparator
            (cost_queue_with_components_ self) with
    | Some top => Returns (fst (snd top))
    | None => UndefinedBehaviour
    end.
End WithFlags.
End TrajectoryEvaluator.

(** ** Callers' view of the store *)
Module Store.
Import TrajectoryEvaluator.

(** The pairs still in the store with their total costs: the contents
    of the queue the flag selects. *)
Definition entries (flags : Flags) (self : t) : list (Pair * double) :=
  if negb (FLAGS_enable_auto_tuning flags)
  then cost_queue_ self
  else map (fun e => (fst e, snd (snd e))) (cost_queue_with_components_ self).

(** The caller's retrieval loop, at most [n] rounds: read the cost of
    the best remaining pair, then take the pair. *)
Fixpoint retrieve (flags : Flags) (n : nat) (self : t)
    : list (Pair * double) :=
  match n with
  | O => []
  | S n' =>
      match top_trajectory_pair_cost flags self,
            next_top_trajectory_pair flags self with
      | Returns c, Returns (p, self') => (p, c) :: retrieve flags n' self'
      | _, _ => []
      end
  end.

(** [self'] is reached from [self] by some number of successful calls
    of [next_top_trajectory_pair]. *)
Inductive reaches (flags : Flags) : t -> t -> Prop :=
| reaches_refl : forall self, reaches flags self self
| reaches_step : forall self p self' self'',
    next_top_trajectory_pair flags self = Returns (p, self') ->
    reaches flags self' self'' ->
    reaches flags self self''.
End Store.

(** ** What a cost record holds

    [four] are the components and [total] the total cost of the pair
    [(lon, lat)]: the four reported terms in their order, and the sum of
    the five terms under the five weights. *)
Module CostRecord.
Definition describes (flags : Flags) (exp : double -> double) (fuel : nat)
    (self : TrajectoryEvaluator.t) (planning_target : PlanningTarget.t)
    (lon_trajectory lat_trajectory : Trajectory1d)
    (four : list double) (total : double) : Prop :=
  exists reference_s_dot lon_jerk_cost s_values lat_comfort_cost,
    TrajectoryEvaluator.ComputeLongitudinalGuideVelocity flags fuel self
      planning_target = Some reference_s_dot /\
    TrajectoryEvaluator.LonComfortCost flags fuel lon_trajectory
      = Some lon_jerk_cost /\
    for_double fuel 0
      (Qmin (FLAGS_decision_horizon flags)
         (Curve1d.Evaluate lon_trajectory 0
            (Curve1d.ParamLength lon_trajectory)))
      (FLAGS_trajectory_space_resolution flags)
      (fun s' s_values => s_values ++ [s']) [] = Some s_values /\
    TrajectoryEvaluator.LatComfortCost flags fuel lon_trajectory
      lat_trajectory = Some lat_comfort_cost /\
    let lon_objective_cost :=
      TrajectoryEvaluator.LonObjectiveCost flags lon_trajectory
        planning_target reference_s_dot in
    let lon_collision_cost :=
      TrajectoryEvaluator.LonCollisionCost flags exp self lon_trajectory in
    let lat_offset_cost :=
      TrajectoryEvaluator.LatOffsetCost flags lat_trajectory s_values in
    four = [lon_objective_cost; lon_jerk_cost; lon_collision_cost;
            lat_offset_cost] /\
    total =
      lon_objective_cost * FLAGS_weight_lon_travel flags +
      lon_jerk_cost * FLAGS_weight_lon_jerk flags +
      lon_collision_cost * FLAGS_weight_lon_collision flags +
      lat_offset_cost * FLAGS_weight_lat_offset flags +
      lat_comfort_cost * FLAGS_weight_lat_comfort flags.

(** The store entry [e] holds the components and the total of its pair,
    as computed by an evaluator with the inputs of [self]. *)
Definition recorded (flags : Flags) (exp : double -> double) (fuel : nat)
    (planning_target : PlanningTarget.t) (self : TrajectoryEvaluator.t)
    (e : TrajectoryEvaluator.PairCostWithComponents) : Prop :=
  describes flags exp fuel self planning_target
    (fst (fst e)) (snd (fst e)) (fst (snd e)) (snd (snd e)).
End CostRecord.

(** ** The lateral offset cost, as a weighted ratio

    The cost in which the sample at position [s] carries the weight
    [w s]: the weighted sum of the squared normalised offsets over the
    weighted sum of their absolute values plus epsilon. *)
Module WeightedOffset.
Definition cost (flags : Flags) (lat_trajectory : Trajectory1d)
    (w : double -> double) (s_values : list double) : double :=
  let normalised s' :=
    Curve1d.Evaluate lat_trajectory 0 s' / FLAGS_lat_offset_bound flags in
  fold_left (fun acc s' => acc + normalised s' * normalised s' * w s')
    s_values 0 /
  (fold_left (fun acc s' => acc + Qabs (normalised s') * w s') s_values 0 +
   FLAGS_lattice_epsilon flags).

(** The weight [LatOffsetCost] gives to the sample at [s]. *)
Definition side_weight (flags : Flags) (lat_trajectory : Trajectory1d)
    (s' : double) : double :=
  if Curve1d.Evaluate lat_trajectory 0 s' *
     Curve1d.Evaluate lat_trajectory 0 0 <? 0
  then FLAGS_weight_opposite_side_offset flags
  else FLAGS_weight_same_side_offset flags.
End WeightedOffset.

(** ** A small planning cycle, used to run the definitions *)
Module Scenario.
Import TrajectoryEvaluator.

Definition flags (auto_tuning : bool) : Flags := {|
  FLAGS_trajectory_time_length := 2;
  FLAGS_trajectory_time_resolution := 1;
  FLAGS_trajectory_space_resolution := 1;
  FLAGS_decision_horizon := 3;
  FLAGS_enable_auto_tuning := auto_tuning;
  FLAGS_weight_lon_travel := 6;
  FLAGS_weight_lon_jerk := 1;
  FLAGS_weight_lon_collision := 2;
  FLAGS_weight_lat_offset := 2;
  FLAGS_weight_lat_comfort := 10;
  FLAGS_lat_offset_bound := 3;
  FLAGS_weight_opposite_side_offset := 10;
  FLAGS_weight_same_side_offset := 1;
  FLAGS_lattice_epsilon := 1 # 1000000;
  FLAGS_longitudinal_jerk_upper_bound := 4;
  FLAGS_weight_target_speed := 1;
  FLAGS_weight_dist_travelled := 10;
  FLAGS_lon_collision_cost_std := 1 # 2;
  FLAGS_lon_collision_yield_buffer := 1;
  FLAGS_lon_collision_overtake_buffer := 5;
  FLAGS_longitudinal_acceleration_lower_bound := - (6);
  FLAGS_comfort_acceleration_factor := 1 # 2
|}.

(** A stand-in for [std::exp] and a feasibility check that accepts
    every candidate. *)
Definition exp (x : double) : double := 1.
Definition accept_all (c : Trajectory1d) : bool := true.

(** A longitudinal candidate moving at constant speed [v] from [s = 0],
    and a lateral candidate at constant offset [l]. *)
Definition constant_speed (v : double) : Trajectory1d :=
  {| Curve1d.Evaluate := fun order t =>
       match order with
       | 0%nat => v * t
       | 1%nat => v
       | _ => 0
       end;
     Curve1d.ParamLength := 2 |}.

Definition constant_offset (l : double) : Trajectory1d :=
  {| Curve1d.Evaluate := fun order s' =>
       match order with
       | 0%nat => l
       | _ => 0
       end;
     Curve1d.ParamLength := 2 |}.

(** A longitudinal candidate that backs up two units over its domain. *)
Definition backing_up : Trajectory1d :=
  {| Curve1d.Evaluate := fun order t =>
       match order with
       | 0%nat => - t
       | 1%nat => - (1)
       | _ => 0
       end;
     Curve1d.ParamLength := 2 |}.

(** A lateral candidate that starts on the reference line and moves to
    the left: offset [s] at position [s]. *)
Definition drifting_left : Trajectory1d :=
  {| Curve1d.Evaluate := fun order s' =>
       match order with
       | 0%nat => s'
       | 1%nat => 1
       | _ => 0
       end;
     Curve1d.ParamLength := 2 |}.

Definition no_obstacles : PathTimeGraph.t :=
  {| PathTimeGraph.GetPathBlockingIntervals := fun _ _ _ => [[]; []] |}.

Definition stop_at (s0 : double) : PlanningTarget.t :=
  {| PlanningTarget.cruise_speed := 10;
     PlanningTarget.stop_point := Some {| PlanningTarget.s := s0 |} |}.

Definition cruise : PlanningTarget.t :=
  {| PlanningTarget.cruise_speed := 10;
     PlanningTarget.stop_point := None |}.

Definition init_s : double * double * double := (0, 5, 0).

(** An evaluator holding the given store and nothing else. *)
Definition holding (q : list PairCost) (qc : list PairCostWithComponents)
    : t :=
  {| path_time_graph_ := no_obstacles;
     init_s_ := init_s;
     path_time_intervals_ := [[]; []];
     cost_queue_ := q;
     cost_queue_with_components_ := qc |}.

Definition lons : list Trajectory1d :=
  [constant_speed 3; constant_speed 10; constant_speed 4].
Definition lats : list Trajectory1d :=
  [constant_offset 0; constant_offset 1].

(** The evaluator constructed for a stop at [s = 10]: the candidate of
    speed 10 ends at [s = 20] and is filtered out. *)
Definition constructed (auto_tuning : bool) : option t :=
  create (flags auto_tuning) exp accept_all 10 init_s (stop_at 10)
    lons lats no_obstacles.
End Scenario.

(** ** Admissible candidates

    The two filters of the constructor, as one test on a longitudinal
    candidate, and the pairs the constructor evaluates. *)
Module Admissible.
Import TrajectoryEvaluator.

Definition stop_cutoff (planning_target : PlanningTarget.t) : double :=
  match PlanningTarget.stop_point planning_target with
  | Some stop => PlanningTarget.s stop
  | None => DBL_MAX
  end.

Definition passes (flags : Flags)
    (IsValidLongitudinalTrajectory : Trajectory1d -> bool)
    (planning_target : PlanningTarget.t) (lon : Trajectory1d) : bool :=
  negb (Curve1d.Evaluate lon 0 (FLAGS_trajectory_time_length flags)
        >? stop_cutoff planning_target)
  && IsValidLongitudinalTrajectory lon.

Definition pairs (flags : Flags)
    (IsValidLongitudinalTrajectory : Trajectory1d -> bool)
    (planning_target : PlanningTarget.t)
    (lon_trajectories lat_trajectories : list Trajectory1d) : list Pair :=
  flat_map (fun lon => map (pair lon) lat_trajectories)
    (filter (passes flags IsValidLongitudinalTrajectory planning_target)
       lon_trajectories).
End Admissible.

(** ** The same flags with component tracking switched on or off *)
Definition with_auto_tuning (auto_tuning : bool) (flags : Flags) : Flags :=
  {| FLAGS_trajectory_time_length := FLAGS_trajectory_time_length flags;
     FLAGS_trajectory_time_resolution :=
       FLAGS_trajectory_time_resolution flags;
     FLAGS_trajectory_space_resolution :=
       FLAGS_trajectory_space_resolution flags;
     FLAGS_decision_horizon := FLAGS_decision_horizon flags;
     FLAGS_enable_auto_tuning := auto_tuning;
     FLAGS_weight_lon_travel := FLAGS_weight_lon_travel flags;
     FLAGS_weight_lon_jerk := FLAGS_weight_lon_jerk flags;
     FLAGS_weight_lon_collision := FLAGS_weight_lon_collision flags;
     FLAGS_weight_lat_offset := FLAGS_weight_lat_offset flags;
     FLAGS_weight_lat_comfort := FLAGS_weight_lat_comfort flags;
     FLAGS_lat_offset_bound := FLAGS_lat_offset_bound flags;
     FLAGS_weight_opposite_side_offset :=
       FLAGS_weight_opposite_side_offset flags;
     FLAGS_weight_same_side_offset := FLAGS_weight_same_side_offset flags;
     FLAGS_lattice_epsilon := FLAGS_lattice_epsilon flags;
     FLAGS_longitudinal_jerk_upper_bound :=
       FLAGS_longitudinal_jerk_upper_bound flags;
     FLAGS_weight_target_speed := FLAGS_weight_target_speed flags;
     FLAGS_weight_dist_travelled := FLAGS_weight_dist_travelled flags;
     FLAGS_lon_collision_cost_std := FLAGS_lon_collision_cost_std flags;
     FLAGS_lon_collision_yield_buffer :=
       FLAGS_lon_collision_yield_buffer flags;
     FLAGS_lon_collision_overtake_buffer :=
       FLAGS_lon_collision_overtake_buffer flags;
     FLAGS_longitudinal_acceleration_lower_bound :=
       FLAGS_longitudinal_acceleration_lower_bound flags;
     FLAGS_comfort_acceleration_factor :=
       FLAGS_comfort_acceleration_factor flags |}.

(** ** The fields the loops of the constructor do not write

    [self'] has the inputs of [self], and the queue that the flag does
    not select is the one of [self]. *)
Definition same_frame (flags : Flags) (self self' : TrajectoryEvaluator.t)
    : Prop :=
  TrajectoryEvaluator.init_s_ self' = TrajectoryEvaluator.init_s_ self /\
  TrajectoryEvaluator.path_time_intervals_ self'
  = TrajectoryEvaluator.path_time_intervals_ self /\
  TrajectoryEvaluator.path_time_graph_ self'
  = TrajectoryEvaluator.path_time_graph_ self /\
  (FLAGS_enable_auto_tuning flags = false ->
   TrajectoryEvaluator.cost_queue_with_components_ self'
   = TrajectoryEvaluator.cost_queue_with_components_ self) /\
  (FLAGS_enable_auto_tuning flags = true ->
   TrajectoryEvaluator.cost_queue_ self'
   = TrajectoryEvaluator.cost_queue_ self).

(** ** Two runs of the constructor, with and without component tracking

    Both runs returned with the same inputs and the same entries, or
    neither returned. *)
Definition in_step (flags : Flags) (a b : option TrajectoryEvaluator.t)
    : Prop :=
  match a, b with
  | Some self1, Some self2 =>
      TrajectoryEvaluator.init_s_ self1 = TrajectoryEvaluator.init_s_ self2 /\
      TrajectoryEvaluator.path_time_intervals_ self1
      = TrajectoryEvaluator.path_time_intervals_ self2 /\
      Store.entries (with_auto_tuning true flags) self1
      = Store.entries (with_auto_tuning false flags) self2
  | None, None => True
  | _, _ => False
  end.

(** ** More of the small planning cycle *)
Module ScenarioMore.
(** The flags of the scenario with another time resolution. *)
Definition with_time_resolution (dt : double) (flags : Flags) : Flags :=
  {| FLAGS_trajectory_time_length := FLAGS_trajectory_time_length flags;
     FLAGS_trajectory_time_resolution := dt;
     FLAGS_trajectory_space_resolution :=
       FLAGS_trajectory_space_resolution flags;
     FLAGS_decision_horizon := FLAGS_decision_horizon flags;
     FLAGS_enable_auto_tuning := FLAGS_enable_auto_tuning flags;
     FLAGS_weight_lon_travel := FLAGS_weight_lon_travel flags;
     FLAGS_weight_lon_jerk := FLAGS_weight_lon_jerk flags;
     FLAGS_weight_lon_collision := FLAGS_weight_lon_collision flags;
     FLAGS_weight_lat_offset := FLAGS_weight_lat_offset flags;
     FLAGS_weight_lat_comfort := FLAGS_weight_lat_comfort flags;
     FLAGS_lat_offset_bound := FLAGS_lat_offset_bound flags;
     FLAGS_weight_opposite_side_offset :=
       FLAGS_weight_opposite_side_offset flags;
     FLAGS_weight_same_side_offset := FLAGS_weight_same_side_offset flags;
     FLAGS_lattice_epsilon := FLAGS_lattice_epsilon flags;
     FLAGS_longitudinal_jerk_upper_bound :=
       FLAGS_longitudinal_jerk_upper_bound flags;
     FLAGS_weight_target_speed := FLAGS_weight_target_speed flags;
     FLAGS_weight_dist_travelled := FLAGS_weight_dist_travelled flags;
     FLAGS_lon_collision_cost_std := FLAGS_lon_collision_cost_std flags;
     FLAGS_lon_collision_yield_buffer :=
       FLAGS_lon_collision_yield_buffer flags;
     FLAGS_lon_collision_overtake_buffer :=
       FLAGS_lon_collision_overtake_buffer flags;
     FLAGS_longitudinal_acceleration_lower_bound :=
       FLAGS_longitudinal_acceleration_lower_bound flags;
     FLAGS_comfort_acceleration_factor :=
       FLAGS_comfort_acceleration_factor flags |}.

(** The flags of the scenario with the sampling of the defaults: horizon
    8.0 at resolution 0.1, decision horizon 200 at resolution 1.0. *)
Definition default_sampling : Flags :=
  {| FLAGS_trajectory_time_length := 8;
     FLAGS_trajectory_time_resolution := round64 (1 # 10);
     FLAGS_trajectory_space_resolution := 1;
     FLAGS_decision_horizon := 200;
     FLAGS_enable_auto_tuning := false;
     FLAGS_weight_lon_travel := 6;
     FLAGS_weight_lon_jerk := 1;
     FLAGS_weight_lon_collision := 2;
     FLAGS_weight_lat_offset := 2;
     FLAGS_weight_lat_comfort := 10;
     FLAGS_lat_offset_bound := 3;
     FLAGS_weight_opposite_side_offset := 10;
     FLAGS_weight_same_side_offset := 1;
     FLAGS_lattice_epsilon := 1 # 1000000;
     FLAGS_longitudinal_jerk_upper_bound := 4;
     FLAGS_weight_target_speed := 1;
     FLAGS_weight_dist_travelled := 10;
     FLAGS_lon_collision_cost_std := 1 # 2;
     FLAGS_lon_collision_yield_buffer := 1;
     FLAGS_lon_collision_overtake_buffer := 5;
     FLAGS_longitudinal_acceleration_lower_bound := - (6);
     FLAGS_comfort_acceleration_factor := 1 # 2 |}.

(** An evaluator in component-tracking mode holding two entries. *)
Definition tracked : TrajectoryEvaluator.t :=
  Scenario.holding []
    [((Scenario.constant_speed 3, Scenario.constant_offset 0),
      ([1; 2; 3; 4], 7));
     ((Scenario.constant_speed 4, Scenario.constant_offset 1),
      ([1; 1; 1; 1], 5))].

(** One obstacle ahead in each of the two time slices. *)
Definition blocked : TrajectoryEvaluator.t :=
  {| TrajectoryEvaluator.path_time_graph_ := Scenario.no_obstacles;
     TrajectoryEvaluator.init_s_ := Scenario.init_s;
     TrajectoryEvaluator.path_time_intervals_ := [[(20, 25)]; [(22, 27)]];
     TrajectoryEvaluator.cost_queue_ := [];
     TrajectoryEvaluator.cost_queue_with_components_ := [] |}.
End ScenarioMore.

(** * Properties *)

(** ** Comparisons *)

Lemma dlt_true (x y : double) : (x <? y) = true <-> x < y.
Proof.
  unfold dlt. rewrite negb_true_iff.
  split; intro H.
  - apply Qnot_le_lt. intro Hle. apply Qle_bool_iff in Hle. congruence.
  - destruct (Qle_bool y x) eqn:E; [|reflexivity].
    apply Qle_bool_iff in E. exfalso. apply (Qlt_not_le _ _ H E).
Qed.

Lemma dlt_false (x y : double) : (x <? y) = false <-> y <= x.
Proof.
  unfold dlt. rewrite negb_false_iff. apply Qle_bool_iff.
Qed.

Lemma dgt_true (x y : double) : (x >? y) = true <-> y < x.
Proof. apply dlt_true. Qed.

Lemma dgt_false (x y : double) : (x >? y) = false <-> x <= y.
Proof. apply dlt_false. Qed.

(** ** Rounding to binary64 *)

(** The counter of the default flags: horizon 8.0 at resolution 0.1 is
    sampled 81 times, the last time just below 8. *)
Example samples_at_default_resolution :
  option_map (fun ts => (length ts, last ts 0))
    (samples 100 0 8 (round64 (1 # 10)))
  = Some (81%nat, 4503599627370489 # 562949953421312).
Proof. vm_compute. reflexivity. Qed.

Lemma round_half_even_bounds (N : Z) (D : positive) :
  (2 * N - Zpos D <= 2 * Zpos D * round_half_even N D)%Z /\
  (0 <= N -> 0 <= round_half_even N D)%Z.
Proof.
  unfold round_half_even.
  pose proof (Z.div_mod N (Zpos D) ltac:(lia)) as Hdm.
  pose proof (Z.mod_pos_bound N (Zpos D) ltac:(lia)) as Hr.
  set (q := (N / Zpos D)%Z) in *. set (r := (N mod Zpos D)%Z) in *.
  assert (Hq : (0 <= N -> 0 <= q)%Z).
  { intro HN. apply Z.div_pos; lia. }
  destruct (2 * r ?= Zpos D)%Z eqn:C.
  - apply Z.compare_eq in C. destruct (Z.even q); split; nia.
  - rewrite Z.compare_lt_iff in C. split; nia.
  - rewrite Z.compare_gt_iff in C. split; nia.
Qed.

Lemma pow2_pos (e : Z) : 0 < pow2 e.
Proof. apply Qpower_0_lt. reflexivity. Qed.

Lemma round_at_nonneg (e : Z) (a : Q) : 0 <= a -> 0 <= round_at e a.
Proof.
  intro Ha. unfold round_at.
  pose proof (pow2_pos e) as Hp. set (p := pow2 e) in *. clearbody p.
  assert (Hs : 0 <= a / p).
  { apply Qle_shift_div_l; lra. }
  set (s := a / p) in *. clearbody s.
  assert (HN : (0 <= Qnum s)%Z).
  { destruct s as [N D]. unfold Qle in Hs. simpl in *. lia. }
  destruct (round_half_even_bounds (Qnum s) (Qden s)) as [_ Hm].
  specialize (Hm HN).
  assert (0 <= inject_Z (round_half_even (Qnum s) (Qden s))).
  { unfold Qle. simpl. lia. }
  nra.
Qed.

Lemma round_at_lower (e : Z) (a : Q) :
  a - pow2 e * (1 # 2) <= round_at e a.
Proof.
  unfold round_at. pose proof (pow2_pos e) as Hp.
  set (p := pow2 e) in *. clearbody p.
  assert (Hs : a / p * p == a) by (field; lra).
  set (s := a / p) in *. clearbody s.
  destruct (round_half_even_bounds (Qnum s) (Qden s)) as [Hm _].
  set (m := round_half_even (Qnum s) (Qden s)) in *.
  assert (Hsm : s - (1 # 2) <= inject_Z m).
  { clearbody m. destruct s as [N D].
    unfold Qle, Qminus, Qplus, Qopp, inject_Z.
    cbn [Qnum Qden] in *. rewrite Pos2Z.inj_mul. lia. }
  nra.
Qed.

Lemma pow2_nat (z : Z) : (0 <= z)%Z -> pow2 z == inject_Z (2 ^ z).
Proof. intro H. unfold pow2. rewrite Zpower_Qpower by exact H. reflexivity. Qed.

Lemma exponent_bound (a : Q) :
  0 < a ->
  pow2 (exponent a) * pow2 52 <= a \/ exponent a = (-1074)%Z.
Proof.
  intro Ha. unfold exponent.
  set (e0 := (Z.log2 (Qnum a) - Z.log2 (Zpos (Qden a)) - 52)%Z).
  assert (Hfit : pow2 (if a / pow2 e0 <? pow2 52 then (e0 - 1)%Z else e0)
                 * pow2 52 <= a).
  { destruct (a / pow2 e0 <? pow2 52) eqn:E.
    - destruct a as [n d]. cbn [Qnum Qden] in e0.
      assert (Hn : (0 < n)%Z) by (unfold Qlt in Ha; simpl in Ha; lia).
      pose proof (Z.log2_spec n Hn) as [Hln _].
      pose proof (Z.log2_spec (Zpos d) ltac:(lia)) as [_ Hld].
      pose proof (Z.log2_nonneg n) as Hln0.
      pose proof (Z.log2_nonneg (Zpos d)) as Hld0.
      set (ln := Z.log2 n) in *. set (ld := Z.log2 (Zpos d)) in *.
      unfold pow2. rewrite <- Qpower_plus by (intro H; discriminate H).
      assert (He : (e0 - 1 + 52)%Z = (ln - Z.succ ld)%Z).
      { subst e0 ln ld. lia. }
      rewrite He.
      rewrite Qpower_minus by (intro H; discriminate H).
      fold (pow2 ln). fold (pow2 (Z.succ ld)).
      rewrite (pow2_nat ln) by lia. rewrite (pow2_nat (Z.succ ld)) by lia.
      rewrite (Qmake_Qdiv n d).
      assert (H1 : inject_Z (2 ^ ln) <= inject_Z n)
        by (rewrite <- Zle_Qle; exact Hln).
      assert (H2 : inject_Z (Zpos d) <= inject_Z (2 ^ Z.succ ld))
        by (rewrite <- Zle_Qle; lia).
      assert (H3 : 0 < inject_Z (Zpos d))
        by (rewrite <- (Zlt_Qlt 0); lia).
      assert (H4 : 0 < inject_Z (2 ^ ln)).
      { rewrite <- (Zlt_Qlt 0). apply Z.pow_pos_nonneg; lia. }
      apply Qle_shift_div_r; [lra|].
      assert (H5 : inject_Z n / inject_Z (Zpos d) * inject_Z (Zpos d)
                   == inject_Z n) by (field; lra).
      set (u := inject_Z n / inject_Z (Zpos d)) in *.
      assert (0 < u).
      { unfold u. apply Qlt_shift_div_l; lra. }
      nra.
    - apply dlt_false in E. pose proof (pow2_pos e0) as Hp.
      assert (Hs : a / pow2 e0 * pow2 e0 == a) by (field; lra).
      set (s := a / pow2 e0) in *.
      pose proof (pow2_pos 52). nra. }
  destruct (Z.max_spec (if a / pow2 e0 <? pow2 52 then (e0 - 1)%Z else e0)
              (-1074)) as [[_ ->]|[_ ->]].
  - right. reflexivity.
  - left. exact Hfit.
Qed.

Lemma round64_nonneg (q : Q) : 0 <= q -> 0 <= round64 q.
Proof.
  intro Hq. unfold round64.
  destruct (q <? 0) eqn:E1.
  - apply dlt_true in E1. lra.
  - destruct (0 <? q); [|lra].
    rewrite Qred_correct. apply round_at_nonneg, Hq.
Qed.

Lemma round64_nonpos (q : Q) : q <= 0 -> round64 q <= 0.
Proof.
  intro Hq. unfold round64.
  destruct (q <? 0) eqn:E1.
  - rewrite Qred_correct.
    pose proof (round_at_nonneg (exponent (- q)) (- q)). lra.
  - destruct (0 <? q) eqn:E2; [|lra]. apply dlt_true in E2. lra.
Qed.

Lemma round64_lower (q : Q) :
  0 < q ->
  q - q * pow2 (-53) <= round64 q \/ q - pow2 (-1075) <= round64 q.
Proof.
  intro Hq. unfold round64.
  assert (E1 : (q <? 0) = false) by (apply dlt_false; lra).
  assert (E2 : (0 <? q) = true) by (apply dlt_true; exact Hq).
  rewrite E1, E2.
  pose proof (round_at_lower (exponent q) q) as Hlow.
  destruct (exponent_bound q Hq) as [Hfit|Hmin].
  - left. rewrite Qred_correct.
    assert (Hp : pow2 (exponent q) * (1 # 2)
                 == pow2 (exponent q) * pow2 52 * pow2 (-53)).
    { unfold pow2. rewrite <- Qmult_assoc.
      rewrite <- (Qpower_plus 2 52 (-53)) by (intro H; discriminate H).
      reflexivity. }
    assert (0 < pow2 (-53)) by apply pow2_pos.
    rewrite Hp in Hlow. nra.
  - right. rewrite Qred_correct. rewrite Hmin in Hlow |- *.
    assert (Hp : pow2 (-1074) * (1 # 2) == pow2 (-1075)).
    { unfold pow2.
      change (1 # 2) with (2 ^ (-1)).
      rewrite <- (Qpower_plus 2 (-1074) (-1)) by (intro H; discriminate H).
      reflexivity. }
    rewrite Hp in Hlow. exact Hlow.
Qed.

(** Below the bound the counter moves by at least half a step. *)
Lemma double_add_progress (x bound step : double) :
  counter_advances bound step ->
  0 <= x -> x < bound ->
  x + step * (1 # 2) <= double_add x step.
Proof.
  intros [Hstep [Habs Htiny]] Hx Hlt. unfold double_add.
  destruct (round64_lower (x + step)) as [H|H]; [lra| |].
  - assert (Hp : pow2 52 * pow2 (-53) == 1 # 2).
    { unfold pow2.
      rewrite <- (Qpower_plus 2 52 (-53)) by (intro K; discriminate K).
      reflexivity. }
    assert (0 < pow2 (-53)) by apply pow2_pos.
    assert ((x + step) * pow2 (-53) <= pow2 52 * step * pow2 (-53)).
    { apply Qmult_le_compat_r; lra. }
    nra.
  - assert (Hp : pow2 (-1075) == pow2 (-1074) * (1 # 2)).
    { unfold pow2. change (1 # 2) with (2 ^ (-1)).
      rewrite <- (Qpower_plus 2 (-1074) (-1)) by (intro K; discriminate K).
      reflexivity. }
    rewrite Hp in H. lra.
Qed.

(** ** The priority queue under a comparator that inverts a cost *)
Section QueueFacts.
Context {A : Type} (key : A -> double) (comp : A -> A -> bool).
Hypothesis comp_key : forall x y, comp x y = (key x >? key y).

Lemma extract_nil (q : list A) :
  PriorityQueue.extract comp q = None <-> q = [].
Proof.
  destruct q as [|x rest]; simpl.
  - tauto.
  - split; [|discriminate].
    destruct (PriorityQueue.extract comp rest) as [[y rest']|];
      [destruct (comp x y)|]; discriminate.
Qed.

Lemma extract_perm (q : list A) (y : A) (q' : list A) :
  PriorityQueue.extract comp q = Some (y, q') -> Permutation q (y :: q').
Proof.
  revert y q'. induction q as [|x rest IH]; simpl; intros y q' H.
  - discriminate.
  - destruct (PriorityQueue.extract comp rest) as [[z rest']|] eqn:E.
    + specialize (IH _ _ eq_refl).
      destruct (comp x z); inversion H; subst; clear H.
      * rewrite IH. apply perm_swap.
      * reflexivity.
    + apply extract_nil in E. subst rest. inversion H; subst. reflexivity.
Qed.

Lemma extract_least (q : list A) (y : A) (q' : list A) :
  PriorityQueue.extract comp q = Some (y, q') ->
  forall z, In z q -> key y <= key z.
Proof.
  revert y q'. induction q as [|x rest IH]; simpl; intros y q' H z Hz.
  - contradiction.
  - destruct (PriorityQueue.extract comp rest) as [[w rest']|] eqn:E.
    + specialize (IH _ _ eq_refl).
      destruct (comp x w) eqn:C; rewrite comp_key in C;
        inversion H; subst; clear H.
      * apply dgt_true in C. destruct Hz as [<-|Hz].
        -- apply Qlt_le_weak, C.
        -- apply IH, Hz.
      * apply dgt_false in C. destruct Hz as [<-|Hz].
        -- apply Qle_refl.
        -- apply Qle_trans with (key w); [exact C|apply IH, Hz].
    + apply extract_nil in E. subst rest. inversion H; subst.
      destruct Hz as [<-|[]]. apply Qle_refl.
Qed.
End QueueFacts.

(** ** One retrieval *)
Section Retrieval.
Import TrajectoryEvaluator Store.
Variable flags : Flags.

Lemma has_more_entries (self : t) :
  has_more_trajectory_pairs flags self = negb (vector_empty (entries flags self)).
Proof.
  unfold has_more_trajectory_pairs, entries.
  destruct (negb (FLAGS_enable_auto_tuning flags)).
  - destruct (cost_queue_ self); reflexivity.
  - destruct (cost_queue_with_components_ self); reflexivity.
Qed.

(** A successful retrieval returns the pair whose cost
    [top_trajectory_pair_cost] reports, that cost is the least in the
    store, and exactly that entry leaves the store. *)
Lemma next_top_spec (self self' : t) (p : Pair) :
  next_top_trajectory_pair flags self = Returns (p, self') ->
  exists c,
    top_trajectory_pair_cost flags self = Returns c /\
    Permutation (entries flags self) ((p, c) :: entries flags self') /\
    forall e, In e (entries flags self) -> c <= snd e.
Proof.
  unfold next_top_trajectory_pair, top_trajectory_pair_cost, entries,
    has_more_trajectory_pairs, PriorityQueue.top, PriorityQueue.pop.
  destruct (negb (FLAGS_enable_auto_tuning flags)).
  - destruct (PriorityQueue.extract CostComparator (cost_queue_ self))
      as [[[p0 c0] q']|] eqn:E; simpl.
    + destruct (negb (eqb (negb (PriorityQueue.empty (cost_queue_ self))) true));
        [discriminate|].
      intro H. inversion H; subst; clear H. exists c0. simpl.
      split; [reflexivity|]. split.
      * apply (extract_perm _ _ _ _ E).
      * intros e He.
        apply (extract_least snd CostComparator (fun _ _ => eq_refl) _ _ _ E e He).
    + destruct (negb (eqb (negb (PriorityQueue.empty (cost_queue_ self))) true));
        discriminate.
  - destruct (PriorityQueue.extract CostComponentComparator
                (cost_queue_with_components_ self))
      as [[[p0 [v0 c0]] q']|] eqn:E; simpl.
    + destruct (negb (eqb (negb (PriorityQueue.empty
                                   (cost_queue_with_components_ self))) true));
        [discriminate|].
      intro H. inversion H; subst; clear H. exists c0. simpl.
      split; [reflexivity|]. split.
      * apply extract_perm in E.
        apply (Permutation_map (fun e : PairCostWithComponents => (fst e, snd (snd e)))) in E.
        exact E.
      * intros e He. apply in_map_iff in He. destruct He as [e0 [<- He0]].
        apply (extract_least (fun e : PairCostWithComponents => snd (snd e))
                 CostComponentComparator (fun _ _ => eq_refl) _ _ _ E e0 He0).
    + destruct (negb (eqb (negb (PriorityQueue.empty
                                   (cost_queue_with_components_ self))) true));
        discriminate.
Qed.

Lemma retrieve_in (n : nat) (self : t) (e : Pair * double) :
  In e (retrieve flags n self) -> In e (entries flags self).
Proof.
  revert self. induction n as [|n IH]; simpl; intros self H.
  - contradiction.
  - destruct (top_trajectory_pair_cost flags self) as [c| |] eqn:Ec;
      try contradiction.
    destruct (next_top_trajectory_pair flags self) as [[p self']| |] eqn:En;
      try contradiction.
    destruct (next_top_spec _ _ _ En) as [c' [Hc [Hperm _]]].
    rewrite Ec in Hc. inversion Hc; subst c'.
    apply (Permutation_in _ (Permutation_sym Hperm)).
    destruct H as [<-|H]; [left; reflexivity|right; apply IH, H].
Qed.

Lemma retrieve_sorted (n : nat) (self : t) :
  StronglySorted Qle (map snd (retrieve flags n self)).
Proof.
  revert self. induction n as [|n IH]; simpl; intros self.
  - constructor.
  - destruct (top_trajectory_pair_cost flags self) as [c| |] eqn:Ec;
      try constructor.
    destruct (next_top_trajectory_pair flags self) as [[p self']| |] eqn:En;
      try constructor.
    + apply IH.
    + destruct (next_top_spec _ _ _ En) as [c' [Hc [Hperm Hmin]]].
      rewrite Ec in Hc. inversion Hc; subst c'.
      apply Forall_forall. intros x Hx.
      apply in_map_iff in Hx. destruct Hx as [e [<- He]].
      apply Hmin. apply (Permutation_in _ (Permutation_sym Hperm)).
      right. apply (retrieve_in _ _ _ He).
Qed.

Lemma retrieve_length (self : t) :
  length (retrieve flags (num_of_trajectory_pairs flags self) self)
  = num_of_trajectory_pairs flags self.
Proof.
  assert (Hnum : forall s, num_of_trajectory_pairs flags s = length (entries flags s)).
  { intro s. unfold num_of_trajectory_pairs, entries, PriorityQueue.size.
    destruct (negb (FLAGS_enable_auto_tuning flags));
      [reflexivity|symmetry; apply length_map]. }
  rewrite Hnum.
  remember (length (entries flags self)) as n eqn:Hn.
  revert self Hn. induction n as [|n IH]; intros self Hn; simpl.
  - reflexivity.
  - assert (Hnext : exists p self',
               next_top_trajectory_pair flags self = Returns (p, self')).
    { unfold next_top_trajectory_pair, has_more_trajectory_pairs,
        PriorityQueue.top. unfold entries in Hn.
      destruct (negb (FLAGS_enable_auto_tuning flags)).
      - destruct (cost_queue_ self) as [|x q] eqn:Eq; [discriminate|].
        simpl negb. cbv iota.
        destruct (PriorityQueue.extract CostComparator (x :: q)) as [[y q']|] eqn:E.
        + simpl. eauto.
        + apply extract_nil in E. discriminate.
      - destruct (cost_queue_with_components_ self) as [|x q] eqn:Eq;
          [discriminate|].
        simpl negb. cbv iota.
        destruct (PriorityQueue.extract CostComponentComparator (x :: q))
          as [[y q']|] eqn:E.
        + simpl. eauto.
        + apply extract_nil in E. discriminate. }
    destruct Hnext as [p [self' En]].
    destruct (next_top_spec _ _ _ En) as [c [Hc [Hperm _]]].
    rewrite Hc, En. simpl. f_equal. apply IH.
    apply Permutation_length in Hperm. simpl in Hperm. lia.
Qed.
End Retrieval.

(** ** Ranking *)

(** The pairs inserted with costs 3, 1, 2 are retrieved in the order
    1, 2, 3. *)
Example retrieve_3_1_2 :
  let p := (Scenario.constant_speed 3, Scenario.constant_offset 0) in
  map snd
    (Store.retrieve (Scenario.flags false) 5
       (Scenario.holding
          (PriorityQueue.push (p, 2)
             (PriorityQueue.push (p, 1) (PriorityQueue.push (p, 3) [])))
          []))
  = [1; 2; 3].
Proof. reflexivity. Qed.

(** C1.  Whatever the store holds (after construction and after any
    number of earlier retrievals), a successful call of
    [next_top_trajectory_pair] returns a pair of the store whose total cost
    is the least among the pairs still in the store, and removes exactly
    that entry; the costs of the pairs the caller's retrieval loop obtains
    are in non-decreasing order; and the loop run for as many rounds as
    there are pairs retrieves every one of them. *)
Theorem next_top_trajectory_pair_ascending
    (flags : Flags) (self : TrajectoryEvaluator.t) :
  (forall p self',
      TrajectoryEvaluator.next_top_trajectory_pair flags self
        = Returns (p, self') ->
      exists c,
        TrajectoryEvaluator.top_trajectory_pair_cost flags self = Returns c /\
        In (p, c) (Store.entries flags self) /\
        (forall e, In e (Store.entries flags self) -> c <= snd e) /\
        Permutation (Store.entries flags self)
          ((p, c) :: Store.entries flags self')) /\
  (forall n, StronglySorted Qle (map snd (Store.retrieve flags n self))) /\
  length (Store.retrieve flags
            (TrajectoryEvaluator.num_of_trajectory_pairs flags self) self)
    = TrajectoryEvaluator.num_of_trajectory_pairs flags self.
Proof.
  split; [|split].
  - intros p self' H.
    destruct (next_top_spec flags _ _ _ H) as [c [Hc [Hperm Hmin]]].
    exists c. repeat split; auto.
    apply (Permutation_in _ (Permutation_sym Hperm)). left. reflexivity.
  - intro n. apply retrieve_sorted.
  - apply retrieve_length.
Qed.

(** ** Contract violations *)

(** C7.  [next_top_trajectory_pair] ends in a failed [CHECK] exactly when
    no pair remains, and [top_trajectory_pair_component_cost] exactly when
    component tracking ([FLAGS_enable_auto_tuning]) is off; neither has
    a result that reports the violation to the caller. *)
Theorem check_fails_exactly_on_contract_violation
    (flags : Flags) (self : TrajectoryEvaluator.t) :
  (TrajectoryEvaluator.next_top_trajectory_pair flags self = CheckFailure
   <-> Store.entries flags self = []) /\
  (Store.entries flags self = []
   <-> TrajectoryEvaluator.has_more_trajectory_pairs flags self = false) /\
  (TrajectoryEvaluator.top_trajectory_pair_component_cost flags self
     = CheckFailure
   <-> FLAGS_enable_auto_tuning flags = false).
Proof.
  unfold TrajectoryEvaluator.next_top_trajectory_pair,
    TrajectoryEvaluator.top_trajectory_pair_component_cost,
    TrajectoryEvaluator.has_more_trajectory_pairs, Store.entries,
    PriorityQueue.top.
  destruct (FLAGS_enable_auto_tuning flags); simpl.
  - destruct (TrajectoryEvaluator.cost_queue_with_components_ self)
      as [|x q] eqn:Eq; simpl.
    + repeat split; auto; discriminate.
    + destruct (PriorityQueue.extract
                  TrajectoryEvaluator.CostComponentComparator q)
        as [[y q']|];
        [destruct (TrajectoryEvaluator.CostComponentComparator x y)|];
        simpl; repeat split; intros; try discriminate;
        destruct (PriorityQueue.extract _ q); discriminate.
  - destruct (TrajectoryEvaluator.cost_queue_ self) as [|x q] eqn:Eq; simpl.
    + repeat split; auto; discriminate.
    + destruct (PriorityQueue.extract TrajectoryEvaluator.CostComparator q)
        as [[y q']|];
        [destruct (TrajectoryEvaluator.CostComparator x y)|];
        simpl; repeat split; intros; try discriminate; auto.
Qed.

(** C9.  When no pair remains, [top_trajectory_pair_cost] reads the top
    of the empty queue: it has no [CHECK] to fail, whereas
    [next_top_trajectory_pair] stops at its [CHECK] in the same state. *)
Theorem top_trajectory_pair_cost_unchecked
    (flags : Flags) (self : TrajectoryEvaluator.t) :
  TrajectoryEvaluator.has_more_trajectory_pairs flags self = false ->
  TrajectoryEvaluator.top_trajectory_pair_cost flags self
    = UndefinedBehaviour /\
  TrajectoryEvaluator.top_trajectory_pair_cost flags self <> CheckFailure /\
  TrajectoryEvaluator.next_top_trajectory_pair flags self = CheckFailure.
Proof.
  unfold TrajectoryEvaluator.next_top_trajectory_pair,
    TrajectoryEvaluator.top_trajectory_pair_cost,
    TrajectoryEvaluator.has_more_trajectory_pairs, PriorityQueue.top.
  destruct (FLAGS_enable_auto_tuning flags); simpl.
  - destruct (TrajectoryEvaluator.cost_queue_with_components_ self);
      simpl; [|discriminate].
    intros _. repeat split; auto; discriminate.
  - destruct (TrajectoryEvaluator.cost_queue_ self); simpl; [|discriminate].
    intros _. repeat split; auto; discriminate.
Qed.

Lemma top_trajectory_pair_cost_unchecked_witness :
  TrajectoryEvaluator.has_more_trajectory_pairs (Scenario.flags false)
    (Scenario.holding [] []) = false /\
  TrajectoryEvaluator.top_trajectory_pair_cost (Scenario.flags false)
    (Scenario.holding [] []) = UndefinedBehaviour.
Proof.
  split; [reflexivity|].
  apply (top_trajectory_pair_cost_unchecked (Scenario.flags false)
           (Scenario.holding [] [])).
  reflexivity.
Defined.

(** ** Filtering at construction *)
Section Construction.
Import TrajectoryEvaluator Store.
Variable flags : Flags.
Variable exp : double -> double.
Variable IsValidLongitudinalTrajectory : Trajectory1d -> bool.

Lemma entries_push_cost_queue (self : t) (x : PairCost) :
  FLAGS_enable_auto_tuning flags = false ->
  entries flags (set_cost_queue (PriorityQueue.push x (cost_queue_ self)) self)
  = entries flags self ++ [x].
Proof. unfold entries. intros ->. reflexivity. Qed.

Lemma entries_push_with_components (self : t) (x : PairCostWithComponents) :
  FLAGS_enable_auto_tuning flags = true ->
  entries flags
    (set_cost_queue_with_components
       (PriorityQueue.push x (cost_queue_with_components_ self)) self)
  = entries flags self ++ [(fst x, snd (snd x))].
Proof.
  unfold entries. intros ->. simpl. unfold PriorityQueue.push.
  rewrite map_app. reflexivity.
Qed.

(** The inner loop adds pairs of its longitudinal candidate with the
    lateral candidates it is given, and nothing else. *)
Lemma construct_lat_inv (P : Pair -> Prop) (fuel : nat)
    (planning_target : PlanningTarget.t) (lon : Trajectory1d)
    (lats : list Trajectory1d) (self self' : t) :
  (forall lat, In lat lats -> P (lon, lat)) ->
  Forall (fun e => P (fst e)) (entries flags self) ->
  construct_lat flags exp fuel planning_target lon lats self = Some self' ->
  Forall (fun e => P (fst e)) (entries flags self').
Proof.
  revert self. induction lats as [|lat rest IH]; simpl; intros self HP Hinv H.
  - inversion H; subst. exact Hinv.
  - destruct (FLAGS_enable_auto_tuning flags) eqn:Eauto; simpl in H.
    + destruct (Evaluate flags exp fuel self planning_target lon lat (Some []))
        as [r|]; simpl in H; [|discriminate].
      apply IH in H; auto.
      rewrite entries_push_with_components by exact Eauto.
      apply Forall_app; split; [exact Hinv|].
      constructor; [|constructor]. simpl. apply HP. left. reflexivity.
    + destruct (Evaluate flags exp fuel self planning_target lon lat None)
        as [r|]; simpl in H; [|discriminate].
      apply IH in H; auto.
      rewrite entries_push_cost_queue by exact Eauto.
      apply Forall_app; split; [exact Hinv|].
      constructor; [|constructor]. simpl. apply HP. left. reflexivity.
Qed.

(** The outer loop adds pairs only for the longitudinal candidates that
    pass both filters. *)
Lemma construct_lon_inv (P : Pair -> Prop) (fuel : nat)
    (planning_target : PlanningTarget.t) (end_time stop_point : double)
    (lons lats : list Trajectory1d) (self self' : t) :
  (forall lon lat,
      In lon lons -> In lat lats ->
      (Curve1d.Evaluate lon 0 end_time >? stop_point) = false ->
      IsValidLongitudinalTrajectory lon = true ->
      P (lon, lat)) ->
  Forall (fun e => P (fst e)) (entries flags self) ->
  construct_lon flags exp IsValidLongitudinalTrajectory fuel planning_target
    end_time stop_point lons lats self = Some self' ->
  Forall (fun e => P (fst e)) (entries flags self').
Proof.
  revert self. induction lons as [|lon rest IH]; simpl; intros self HP Hinv H.
  - inversion H; subst. exact Hinv.
  - destruct (Curve1d.Evaluate lon 0 end_time >? stop_point) eqn:Eend.
    { apply IH in H; auto. }
    destruct (IsValidLongitudinalTrajectory lon) eqn:Evalid; simpl in H.
    2:{ apply IH in H; auto. }
    destruct (construct_lat flags exp fuel planning_target lon lats self)
      as [self1|] eqn:Elat; simpl in H; [|discriminate].
    apply IH in H; auto.
    apply (construct_lat_inv P _ _ _ _ _ _ (fun lat Hlat =>
             HP lon lat (or_introl eq_refl) Hlat Eend Evalid) Hinv Elat).
Qed.

(** What [create] leaves in the store. *)
Lemma create_entries (fuel : nat) (init_s : double * double * double)
    (planning_target : PlanningTarget.t)
    (lons lats : list Trajectory1d) (ptg : PathTimeGraph.t) (self : t) :
  create flags exp IsValidLongitudinalTrajectory fuel init_s planning_target
    lons lats ptg = Some self ->
  Forall (fun e : Pair * double =>
            In (fst (fst e)) lons /\ In (snd (fst e)) lats /\
            (Curve1d.Evaluate (fst (fst e)) 0
               (FLAGS_trajectory_time_length flags)
             >? match PlanningTarget.stop_point planning_target with
                | Some stop => PlanningTarget.s stop
                | None => DBL_MAX
                end) = false /\
            IsValidLongitudinalTrajectory (fst (fst e)) = true)
         (entries flags self).
Proof.
  unfold create. intro H.
  apply (construct_lon_inv
           (fun p : Pair =>
              In (fst p) lons /\ In (snd p) lats /\
              (Curve1d.Evaluate (fst p) 0 (FLAGS_trajectory_time_length flags)
               >? match PlanningTarget.stop_point planning_target with
                  | Some stop => PlanningTarget.s stop
                  | None => DBL_MAX
                  end) = false /\
              IsValidLongitudinalTrajectory (fst p) = true)) in H.
  - exact H.
  - intros lon lat Hlon Hlat Hend Hvalid. simpl. auto.
  - unfold entries. simpl.
    destruct (negb (FLAGS_enable_auto_tuning flags)); constructor.
Qed.

(** Retrievals only take pairs out of the store. *)
Lemma reaches_entries (self self' : t) :
  reaches flags self self' ->
  forall e, In e (entries flags self') -> In e (entries flags self).
Proof.
  induction 1 as [self|self p self1 self2 Hstep Hreach IH]; intros e He.
  - exact He.
  - destruct (next_top_spec flags _ _ _ Hstep) as [c [_ [Hperm _]]].
    apply (Permutation_in _ (Permutation_sym Hperm)).
    right. apply IH, He.
Qed.
End Construction.

(** C2.  A longitudinal candidate whose position at the end of the
    horizon is strictly beyond the stop position of the planning target,
    or which fails [IsValidLongitudinalTrajectory], contributes no pair to
    the store built by the constructor, and no later retrieval returns a
    pair with it. *)
Theorem rejected_candidates_never_retrieved
    (flags : Flags) (exp : double -> double)
    (IsValidLongitudinalTrajectory : Trajectory1d -> bool)
    (fuel : nat) (init_s : double * double * double)
    (planning_target : PlanningTarget.t)
    (lon_trajectories lat_trajectories : list Trajectory1d)
    (path_time_graph : PathTimeGraph.t)
    (self0 : TrajectoryEvaluator.t) (lon : Trajectory1d) :
  TrajectoryEvaluator.create flags exp IsValidLongitudinalTrajectory fuel
    init_s planning_target lon_trajectories lat_trajectories path_time_graph
    = Some self0 ->
  (exists stop,
      PlanningTarget.stop_point planning_target = Some stop /\
      PlanningTarget.s stop
      < Curve1d.Evaluate lon 0 (FLAGS_trajectory_time_length flags)) \/
  IsValidLongitudinalTrajectory lon = false ->
  (forall e, In e (Store.entries flags self0) -> fst (fst e) <> lon) /\
  (forall self p self',
      Store.reaches flags self0 self ->
      TrajectoryEvaluator.next_top_trajectory_pair flags self
        = Returns (p, self') ->
      fst p <> lon).
Proof.
  intros Hcreate Hrej.
  assert (Hstore : forall e, In e (Store.entries flags self0) ->
                             fst (fst e) <> lon).
  { intros e He Heq.
    pose proof (create_entries _ _ _ _ _ _ _ _ _ _ Hcreate) as Hall.
    rewrite Forall_forall in Hall.
    destruct (Hall e He) as [_ [_ [Hend Hvalid]]].
    rewrite Heq in Hend, Hvalid.
    destruct Hrej as [[stop [Hstop Hlt]]|Hinvalid].
    - rewrite Hstop in Hend. apply dgt_false in Hend.
      apply (Qlt_not_le _ _ Hlt Hend).
    - congruence. }
  split; [exact Hstore|].
  intros self p self' Hreach Hnext.
  destruct (next_top_spec flags _ _ _ Hnext) as [c [_ [Hperm _]]].
  apply (Hstore (p, c)).
  apply (reaches_entries flags _ _ Hreach).
  apply (Permutation_in _ (Permutation_sym Hperm)). left. reflexivity.
Qed.

Lemma rejected_candidates_never_retrieved_witness :
  match Scenario.constructed false with
  | Some self0 =>
      Store.entries (Scenario.flags false) self0 <> [] /\
      forall e, In e (Store.entries (Scenario.flags false) self0) ->
                fst (fst e) <> Scenario.constant_speed 10
  | None => False
  end.
Proof.
  destruct (Scenario.constructed false) as [self0|] eqn:E.
  - split.
    + vm_compute in E. inversion E. discriminate.
    + apply (rejected_candidates_never_retrieved _ _ _ _ _ _ _ _ _ _
               (Scenario.constant_speed 10) E).
      left. exists {| PlanningTarget.s := 10 |}.
      split; [reflexivity|]. reflexivity.
  - vm_compute in E. discriminate E.
Defined.

(** ** Collision cost without obstacles *)

Lemma LonCollisionCost_loop_empty (flags : Flags) (exp : double -> double)
    (lon : Trajectory1d) (slices : list (list (double * double))) :
  Forall (fun pt_interval => pt_interval = []) slices ->
  forall i sums,
    TrajectoryEvaluator.LonCollisionCost_loop flags exp lon i slices sums
    = sums.
Proof.
  induction 1 as [|pt_interval rest Hnil _ IH]; intros i sums; simpl.
  - reflexivity.
  - subst pt_interval. simpl. apply IH.
Qed.

(** C5.  When every time slice of [path_time_intervals_] is empty,
    [LonCollisionCost] of any longitudinal candidate is 0 (the quotient
    [0 / (0 + FLAGS_lattice_epsilon)], for a nonzero epsilon). *)
Theorem LonCollisionCost_no_obstacles
    (flags : Flags) (exp : double -> double)
    (self : TrajectoryEvaluator.t) (lon_trajectory : Trajectory1d) :
  Forall (fun pt_interval => pt_interval = [])
    (TrajectoryEvaluator.path_time_intervals_ self) ->
  ~ FLAGS_lattice_epsilon flags == 0 ->
  TrajectoryEvaluator.LonCollisionCost flags exp self lon_trajectory == 0.
Proof.
  intros Hempty Heps. unfold TrajectoryEvaluator.LonCollisionCost.
  rewrite (LonCollisionCost_loop_empty _ _ _ _ Hempty).
  unfold Qdiv. apply Qmult_0_l.
Qed.

Lemma LonCollisionCost_no_obstacles_witness :
  Forall (fun pt_interval : list (double * double) => pt_interval = [])
    (TrajectoryEvaluator.path_time_intervals_ (Scenario.holding [] [])) /\
  TrajectoryEvaluator.LonCollisionCost (Scenario.flags false) Scenario.exp
    (Scenario.holding [] []) (Scenario.constant_speed 3) == 0.
Proof.
  assert (H : Forall (fun pt_interval : list (double * double) =>
                        pt_interval = [])
                (TrajectoryEvaluator.path_time_intervals_
                   (Scenario.holding [] []))).
  { simpl. repeat constructor. }
  split; [exact H|].
  apply (LonCollisionCost_no_obstacles (Scenario.flags false) Scenario.exp
           (Scenario.holding [] []) (Scenario.constant_speed 3) H).
  simpl. intro E. discriminate E.
Defined.

(** ** Components and total *)

Lemma Evaluate_describes
    (flags : Flags) (exp : double -> double) (fuel : nat)
    (self : TrajectoryEvaluator.t) (planning_target : PlanningTarget.t)
    (lon_trajectory lat_trajectory : Trajectory1d)
    (cost_components : option (list double))
    (total : double) (components : option (list double)) :
  TrajectoryEvaluator.Evaluate flags exp fuel self planning_target
    lon_trajectory lat_trajectory cost_components
    = Some (total, components) ->
  exists four,
    CostRecord.describes flags exp fuel self planning_target
      lon_trajectory lat_trajectory four total /\
    components = option_map (fun v => v ++ four) cost_components.
Proof.
  unfold TrajectoryEvaluator.Evaluate, CostRecord.describes. intro H.
  destruct (TrajectoryEvaluator.ComputeLongitudinalGuideVelocity flags fuel
              self planning_target) as [reference_s_dot|];
    simpl in H; [|discriminate].
  destruct (TrajectoryEvaluator.LonComfortCost flags fuel lon_trajectory)
    as [lon_jerk_cost|]; simpl in H; [|discriminate].
  destruct (for_double fuel 0 _ _ _ []) as [s_values|];
    simpl in H; [|discriminate].
  destruct (TrajectoryEvaluator.LatComfortCost flags fuel lon_trajectory
              lat_trajectory) as [lat_comfort_cost|];
    simpl in H; [|discriminate].
  inversion H; subst; clear H.
  eexists. split.
  - exists reference_s_dot, lon_jerk_cost, s_values, lat_comfort_cost.
    repeat split; reflexivity.
  - destruct cost_components as [v|]; simpl; [|reflexivity].
    repeat rewrite <- app_assoc. reflexivity.
Qed.

(** The evaluation reads [init_s_] and [path_time_intervals_] of the
    evaluator and nothing else. *)
Lemma describes_same_inputs
    (flags : Flags) (exp : double -> double) (fuel : nat)
    (self self' : TrajectoryEvaluator.t) (planning_target : PlanningTarget.t)
    (lon lat : Trajectory1d) (four : list double) (total : double) :
  TrajectoryEvaluator.init_s_ self = TrajectoryEvaluator.init_s_ self' ->
  TrajectoryEvaluator.path_time_intervals_ self
  = TrajectoryEvaluator.path_time_intervals_ self' ->
  CostRecord.describes flags exp fuel self planning_target lon lat four total ->
  CostRecord.describes flags exp fuel self' planning_target lon lat four total.
Proof.
  unfold CostRecord.describes,
    TrajectoryEvaluator.ComputeLongitudinalGuideVelocity,
    TrajectoryEvaluator.guide_profile, TrajectoryEvaluator.LonCollisionCost.
  intros Hs Hp. rewrite Hs, Hp. exact (fun H => H).
Qed.

Section ComponentStore.
Import TrajectoryEvaluator.
Variable flags : Flags.
Variable exp : double -> double.
Variable IsValidLongitudinalTrajectory : Trajectory1d -> bool.
Variable fuel : nat.
Variable planning_target : PlanningTarget.t.
Hypothesis auto_tuning : FLAGS_enable_auto_tuning flags = true.

Local Abbreviation recorded :=
  (CostRecord.recorded flags exp fuel planning_target).

Lemma recorded_same_inputs (self self' : t) (e : PairCostWithComponents) :
  init_s_ self = init_s_ self' ->
  path_time_intervals_ self = path_time_intervals_ self' ->
  recorded self e -> recorded self' e.
Proof.
  intros Hs Hp. unfold CostRecord.recorded.
  exact (describes_same_inputs flags exp fuel self self' planning_target
           _ _ _ _ Hs Hp).
Qed.

Lemma construct_lat_recorded (lon : Trajectory1d) (lats : list Trajectory1d)
    (self self' : t) :
  Forall (recorded self) (cost_queue_with_components_ self) ->
  construct_lat flags exp fuel planning_target lon lats self = Some self' ->
  init_s_ self' = init_s_ self /\
  path_time_intervals_ self' = path_time_intervals_ self /\
  Forall (recorded self') (cost_queue_with_components_ self').
Proof.
  revert self. induction lats as [|lat rest IH]; simpl; intros self Hinv H.
  - inversion H; subst. auto.
  - rewrite auto_tuning in H. simpl in H.
    destruct (Evaluate flags exp fuel self planning_target lon lat (Some []))
      as [[total components]|] eqn:E; simpl in H; [|discriminate].
    destruct (Evaluate_describes _ _ _ _ _ _ _ _ _ _ E) as [four [Hd Hc]].
    simpl in Hc. subst components.
    apply IH in H.
    + destruct H as [Hs [Hp Hall]]. simpl in Hs, Hp. auto.
    + simpl. unfold PriorityQueue.push. apply Forall_app. split.
      * revert Hinv. apply Forall_impl. intro e.
        exact (recorded_same_inputs self _ e eq_refl eq_refl).
      * constructor; [|constructor]. unfold CostRecord.recorded.
        cbn [fst snd].
        exact (describes_same_inputs flags exp fuel self _ planning_target
                 lon lat four total eq_refl eq_refl Hd).
Qed.

Lemma construct_lon_recorded (end_time stop_point : double)
    (lons lats : list Trajectory1d) (self self' : t) :
  Forall (recorded self) (cost_queue_with_components_ self) ->
  construct_lon flags exp IsValidLongitudinalTrajectory fuel planning_target
    end_time stop_point lons lats self = Some self' ->
  init_s_ self' = init_s_ self /\
  path_time_intervals_ self' = path_time_intervals_ self /\
  Forall (recorded self') (cost_queue_with_components_ self').
Proof.
  revert self. induction lons as [|lon rest IH]; simpl; intros self Hinv H.
  - inversion H; subst. auto.
  - destruct (Curve1d.Evaluate lon 0 end_time >? stop_point).
    { apply IH; assumption. }
    destruct (IsValidLongitudinalTrajectory lon); simpl in H.
    2:{ apply IH; assumption. }
    destruct (construct_lat flags exp fuel planning_target lon lats self)
      as [self1|] eqn:Elat; simpl in H; [|discriminate].
    destruct (construct_lat_recorded _ _ _ _ Hinv Elat) as [Hs [Hp Hall]].
    destruct (IH _ Hall H) as [Hs' [Hp' Hall']].
    rewrite Hs', Hp'. auto.
Qed.
End ComponentStore.

(** C6.  An evaluation that is given a component vector returns it
    extended by exactly four entries, in this order: objective cost,
    longitudinal jerk cost, longitudinal collision cost, lateral offset
    cost; the lateral comfort cost is not pushed.  The total it returns
    is the sum of all five costs, each multiplied by its weight.  In
    component-tracking mode the constructor passes an empty vector, so
    every entry of the store it builds holds these four components and
    that total. *)
Theorem Evaluate_components_and_total
    (flags : Flags) (exp : double -> double) (fuel : nat)
    (planning_target : PlanningTarget.t) :
  (forall self lon_trajectory lat_trajectory cost_components total components,
      TrajectoryEvaluator.Evaluate flags exp fuel self planning_target
        lon_trajectory lat_trajectory cost_components
        = Some (total, components) ->
      exists four,
        CostRecord.describes flags exp fuel self planning_target
          lon_trajectory lat_trajectory four total /\
        length four = 4%nat /\
        components = option_map (fun v => v ++ four) cost_components) /\
  (forall IsValidLongitudinalTrajectory init_s lon_trajectories
          lat_trajectories path_time_graph self,
      FLAGS_enable_auto_tuning flags = true ->
      TrajectoryEvaluator.create flags exp IsValidLongitudinalTrajectory fuel
        init_s planning_target lon_trajectories lat_trajectories
        path_time_graph = Some self ->
      Forall
        (fun e : TrajectoryEvaluator.PairCostWithComponents =>
           length (fst (snd e)) = 4%nat /\
           CostRecord.describes flags exp fuel self planning_target
             (fst (fst e)) (snd (fst e)) (fst (snd e)) (snd (snd e)))
        (TrajectoryEvaluator.cost_queue_with_components_ self)).
Proof.
  split.
  - intros self lon lat cost_components total components H.
    destruct (Evaluate_describes _ _ _ _ _ _ _ _ _ _ H) as [four [Hd Hc]].
    exists four. repeat split; try assumption.
    destruct Hd as [r [j [sv [lc [_ [_ [_ [_ [-> _]]]]]]]]]. reflexivity.
  - intros IsValid init_s lons lats ptg self Hauto Hcreate.
    unfold TrajectoryEvaluator.create in Hcreate.
    apply (construct_lon_recorded flags exp IsValid fuel planning_target Hauto)
      in Hcreate.
    + destruct Hcreate as [_ [_ Hall]].
      revert Hall. apply Forall_impl. intros e Hrec.
      split; [|exact Hrec].
      destruct Hrec as [r [j [sv [lc [_ [_ [_ [_ [-> _]]]]]]]]]. reflexivity.
    + constructor.
Qed.

Lemma Evaluate_components_and_total_witness :
  match
    TrajectoryEvaluator.Evaluate (Scenario.flags true) Scenario.exp 10
      (Scenario.holding [] []) (Scenario.stop_at 10)
      (Scenario.constant_speed 3) (Scenario.constant_offset 1) (Some [])
  with
  | Some (total, components) =>
      option_map (@length double) components = Some 4%nat
  | None => False
  end /\
  match Scenario.constructed true with
  | Some self =>
      map (fun e : TrajectoryEvaluator.PairCostWithComponents =>
             length (fst (snd e)))
        (TrajectoryEvaluator.cost_queue_with_components_ self)
      = [4; 4; 4; 4]%nat
  | None => False
  end.
Proof.
  split.
  - destruct (TrajectoryEvaluator.Evaluate (Scenario.flags true) Scenario.exp
                10 (Scenario.holding [] []) (Scenario.stop_at 10)
                (Scenario.constant_speed 3) (Scenario.constant_offset 1)
                (Some [])) as [[total components]|] eqn:E.
    + destruct (proj1 (Evaluate_components_and_total (Scenario.flags true)
                         Scenario.exp 10 (Scenario.stop_at 10))
                  _ _ _ _ _ _ E) as [four [_ [Hlen ->]]].
      simpl. rewrite Hlen. reflexivity.
    + vm_compute in E. discriminate E.
  - destruct (Scenario.constructed true) as [self|] eqn:E.
    + vm_compute in E. inversion E. reflexivity.
    + vm_compute in E. discriminate E.
Defined.

(** ** The distance term of the objective cost *)

(** For the candidate that backs up two units the distance term is
    [1 / (1 + -2) = -1], a negative number. *)
Lemma dist_travelled_cost_negative :
  TrajectoryEvaluator.dist_travelled_cost Scenario.backing_up == - (1) /\
  ~ 0 <= TrajectoryEvaluator.dist_travelled_cost Scenario.backing_up.
Proof.
  split.
  - reflexivity.
  - intro H. vm_compute in H. apply H. reflexivity.
Qed.

(** C8 (amended).  The distance term of [LonObjectiveCost] is
    [1 / (1 + dist_s)], with [dist_s] the displacement of the candidate
    over its parameter domain; it enters the objective cost with the
    weight [FLAGS_weight_dist_travelled].  It is positive whenever the
    displacement is greater than -1, so for every candidate that does not
    end behind its start, and it comes as close to 0 as one likes once
    the displacement is large enough. *)
Theorem dist_travelled_cost_characterisation
    (flags : Flags) (lon_trajectory : Trajectory1d)
    (planning_target : PlanningTarget.t) (ref_s_dots : list double) :
  let dist_s (c : Trajectory1d) :=
    Curve1d.Evaluate c 0 (Curve1d.ParamLength c) - Curve1d.Evaluate c 0 0 in
  TrajectoryEvaluator.dist_travelled_cost lon_trajectory
    = 1 / (1 + dist_s lon_trajectory) /\
  TrajectoryEvaluator.LonObjectiveCost flags lon_trajectory planning_target
    ref_s_dots
    = (TrajectoryEvaluator.speed_cost flags lon_trajectory ref_s_dots *
         FLAGS_weight_target_speed flags +
       1 / (1 + dist_s lon_trajectory) * FLAGS_weight_dist_travelled flags) /
      (FLAGS_weight_target_speed flags + FLAGS_weight_dist_travelled flags) /\
  (- (1) < dist_s lon_trajectory ->
   0 < TrajectoryEvaluator.dist_travelled_cost lon_trajectory) /\
  (forall eps, 0 < eps ->
     exists bound, forall c : Trajectory1d,
       bound <= dist_s c ->
       0 < TrajectoryEvaluator.dist_travelled_cost c < eps).
Proof.
  intro dist_s. split; [reflexivity|]. split; [reflexivity|]. split.
  - intro H. unfold TrajectoryEvaluator.dist_travelled_cost.
    fold (dist_s lon_trajectory).
    apply Qlt_shift_div_l; lra.
  - intros eps Heps. exists (1 / eps). intros c Hc.
    unfold TrajectoryEvaluator.dist_travelled_cost. fold (dist_s c).
    assert (Hinv : 0 < 1 / eps) by (apply Qlt_shift_div_l; lra).
    split.
    + apply Qlt_shift_div_l; lra.
    + apply Qlt_shift_div_r; [lra|].
      assert (Hmul : 1 / eps * eps == 1) by (field; lra).
      assert (Hle : 1 / eps * eps <= dist_s c * eps).
      { apply Qmult_le_compat_r; lra. }
      lra.
Qed.

(** ** Side weights of the lateral offset cost *)

Lemma LatOffsetCost_loop_weighted (flags : Flags) (lat : Trajectory1d)
    (s_values : list double) (sums : double * double) :
  let normalised s' :=
    Curve1d.Evaluate lat 0 s' / FLAGS_lat_offset_bound flags in
  TrajectoryEvaluator.LatOffsetCost_loop flags lat (Curve1d.Evaluate lat 0 0)
    s_values sums
  = (fold_left
       (fun acc s' =>
          acc + normalised s' * normalised s' *
                WeightedOffset.side_weight flags lat s')
       s_values (fst sums),
     fold_left
       (fun acc s' =>
          acc + Qabs (normalised s') * WeightedOffset.side_weight flags lat s')
       s_values (snd sums)).
Proof.
  intro normalised. subst normalised. unfold WeightedOffset.side_weight.
  revert sums.
  induction s_values as [|s' rest IH]; intros [sqr_sum abs_sum];
    cbn [TrajectoryEvaluator.LatOffsetCost_loop fold_left fst snd].
  - reflexivity.
  - destruct (Curve1d.Evaluate lat 0 s' * Curve1d.Evaluate lat 0 0 <? 0);
      rewrite IH; reflexivity.
Qed.

Lemma side_weight_from_the_line (flags : Flags) (lat : Trajectory1d)
    (s' : double) :
  Curve1d.Evaluate lat 0 0 == 0 ->
  WeightedOffset.side_weight flags lat s'
  = FLAGS_weight_same_side_offset flags.
Proof.
  intro H. unfold WeightedOffset.side_weight.
  assert (E : (Curve1d.Evaluate lat 0 s' * Curve1d.Evaluate lat 0 0 <? 0)
              = false).
  { apply dlt_false. rewrite H. lra. }
  rewrite E. reflexivity.
Qed.

Lemma fold_left_weights_ext (f : double -> double) (w w' : double -> double)
    (s_values : list double) (acc : double) :
  (forall s', w s' = w' s') ->
  fold_left (fun acc s' => acc + f s' * w s') s_values acc
  = fold_left (fun acc s' => acc + f s' * w' s') s_values acc.
Proof.
  intro H. revert acc.
  induction s_values as [|s' rest IH]; intro acc; simpl.
  - reflexivity.
  - rewrite H. apply IH.
Qed.

(** C10.  [LatOffsetCost] is the weighted ratio in which a sample
    carries the opposite-side weight when the product of its offset and
    the offset at [s = 0] is strictly negative, and the same-side weight
    otherwise.  For a lateral candidate whose offset at [s = 0] is zero
    the product is never negative: every sample carries the same-side
    weight, on whichever side it lies. *)
Theorem LatOffsetCost_side_weights
    (flags : Flags) (lat_trajectory : Trajectory1d)
    (s_values : list double) :
  TrajectoryEvaluator.LatOffsetCost flags lat_trajectory s_values
  = WeightedOffset.cost flags lat_trajectory
      (fun s' =>
         if Curve1d.Evaluate lat_trajectory 0 s' *
            Curve1d.Evaluate lat_trajectory 0 0 <? 0
         then FLAGS_weight_opposite_side_offset flags
         else FLAGS_weight_same_side_offset flags)
      s_values /\
  (Curve1d.Evaluate lat_trajectory 0 0 == 0 ->
   TrajectoryEvaluator.LatOffsetCost flags lat_trajectory s_values
   = WeightedOffset.cost flags lat_trajectory
       (fun _ => FLAGS_weight_same_side_offset flags) s_values).
Proof.
  assert (Hw : TrajectoryEvaluator.LatOffsetCost flags lat_trajectory s_values
               = WeightedOffset.cost flags lat_trajectory
                   (WeightedOffset.side_weight flags lat_trajectory)
                   s_values).
  { unfold TrajectoryEvaluator.LatOffsetCost.
    rewrite LatOffsetCost_loop_weighted. reflexivity. }
  split; [exact Hw|].
  intro Hstart. rewrite Hw. unfold WeightedOffset.cost.
  rewrite (fold_left_weights_ext _ _
             (fun _ => FLAGS_weight_same_side_offset flags) s_values 0
             (fun s' => side_weight_from_the_line flags lat_trajectory s' Hstart)).
  rewrite (fold_left_weights_ext
             (fun s' => Qabs (Curve1d.Evaluate lat_trajectory 0 s' /
                              FLAGS_lat_offset_bound flags)) _
             (fun _ => FLAGS_weight_same_side_offset flags) s_values 0
             (fun s' => side_weight_from_the_line flags lat_trajectory s' Hstart)).
  reflexivity.
Qed.

(** ** Loops over a double counter *)

Lemma for_double_samples {A : Type} (body : double -> A -> A)
    (fuel : nat) (x bound step : double) (acc : A) :
  for_double fuel x bound step body acc
  = option_map (fun ts => fold_left (fun a t => body t a) ts acc)
      (samples fuel x bound step).
Proof.
  revert x acc. induction fuel as [|fuel IH]; intros x acc; simpl.
  - destruct (x <? bound); reflexivity.
  - destruct (x <? bound); [|reflexivity].
    rewrite IH.
    destruct (samples fuel (double_add x step) bound step); reflexivity.
Qed.

Lemma fold_left_push_back {B : Type} (f : double -> B) (ts : list double)
    (acc : list B) :
  fold_left (fun a t => a ++ [f t]) ts acc = acc ++ map f ts.
Proof.
  revert acc. induction ts as [|t rest IH]; intro acc; simpl.
  - symmetry. apply app_nil_r.
  - rewrite IH, <- app_assoc. reflexivity.
Qed.

Lemma to_double_S (n : nat) : to_double (S n) == to_double n + 1.
Proof.
  unfold to_double. rewrite Nat2Z.inj_succ, <- Z.add_1_r, inject_Z_plus.
  reflexivity.
Qed.

(** With a positive step and fuel for the whole range the loop runs to
    its end. *)
Lemma counter_advances_le (bound bound' step : double) :
  bound' <= bound ->
  counter_advances bound step -> counter_advances bound' step.
Proof.
  intros Hle [H1 [H2 H3]]. repeat split; try assumption. lra.
Qed.

(** With a step that is not absorbed and fuel for twice the number of
    steps of the range, the loop runs to its end. *)
Lemma samples_enough (fuel : nat) (x bound step : double) :
  counter_advances bound step ->
  0 <= x ->
  bound - x <= to_double fuel * (step * (1 # 2)) ->
  exists ts, samples fuel x bound step = Some ts.
Proof.
  intro Hadv. pose proof Hadv as [Hstep _]. revert x.
  induction fuel as [|fuel IH]; intros x Hx Hfuel; simpl.
  - destruct (x <? bound) eqn:E; [|eauto].
    apply dlt_true in E. change (to_double 0) with 0 in Hfuel. lra.
  - destruct (x <? bound) eqn:E; [|eauto].
    apply dlt_true in E.
    pose proof (double_add_progress x bound step Hadv Hx E) as Hp.
    destruct (IH (double_add x step)) as [ts Hts].
    + lra.
    + rewrite to_double_S in Hfuel. lra.
    + rewrite Hts. simpl. eauto.
Qed.

Lemma samples_range (fuel : nat) (x bound step : double) (ts : list double) :
  0 <= x ->
  0 <= step ->
  samples fuel x bound step = Some ts ->
  Forall (fun t => 0 <= t /\ t < bound) ts.
Proof.
  intros Hx Hstep. revert x Hx ts.
  induction fuel as [|fuel IH]; intros x Hx ts; simpl.
  - destruct (x <? bound); [discriminate|].
    intro H. inversion H. constructor.
  - destruct (x <? bound) eqn:E.
    + destruct (samples fuel (double_add x step) bound step) as [ts'|] eqn:Ets;
        simpl; [|discriminate].
      intro H. inversion H; subst; clear H.
      apply dlt_true in E. constructor.
      * split; [exact Hx|exact E].
      * apply IH in Ets; [exact Ets|].
        apply round64_nonneg. lra.
    + intro H. inversion H. constructor.
Qed.

(** The list the model computes is the list of the values of the
    counter. *)
Lemma samples_counter_values (fuel : nat) (x bound step : double)
    (ts : list double) :
  samples fuel x bound step = Some ts -> counter_values bound step x ts.
Proof.
  revert x ts. induction fuel as [|fuel IH]; intros x ts; simpl.
  - destruct (x <? bound) eqn:E; [discriminate|].
    intro H. inversion H. constructor. apply dlt_false, E.
  - destruct (x <? bound) eqn:E.
    + destruct (samples fuel (double_add x step) bound step) as [ts'|] eqn:Ets;
        simpl; [|discriminate].
      intro H. inversion H; subst; clear H.
      constructor; [apply dlt_true, E|apply IH, Ets].
    + intro H. inversion H. constructor. apply dlt_false, E.
Qed.

Lemma samples_first (fuel : nat) (x bound step : double) (ts : list double) :
  x < bound ->
  samples fuel x bound step = Some ts ->
  exists rest, ts = x :: rest.
Proof.
  intros Hlt. apply dlt_true in Hlt.
  destruct fuel as [|fuel]; simpl; rewrite Hlt.
  - discriminate.
  - destruct (samples fuel (double_add x step) bound step) as [ts'|]; simpl;
      [|discriminate].
    intro H. inversion H. eauto.
Qed.

(** The guide velocities are the speeds of the profile at the sampled
    times. *)
Lemma ComputeLongitudinalGuideVelocity_samples (flags : Flags) (fuel : nat)
    (self : TrajectoryEvaluator.t) (planning_target : PlanningTarget.t) :
  TrajectoryEvaluator.ComputeLongitudinalGuideVelocity flags fuel self
    planning_target
  = option_map
      (map (fun t =>
              ConstantAccelerationTrajectory1d.Evaluate 1 t
                (TrajectoryEvaluator.guide_profile flags self planning_target)))
      (samples fuel 0 (FLAGS_trajectory_time_length flags)
         (FLAGS_trajectory_time_resolution flags)).
Proof.
  unfold TrajectoryEvaluator.ComputeLongitudinalGuideVelocity.
  rewrite for_double_samples.
  destruct (samples fuel 0 _ _) as [ts|]; simpl; [|reflexivity].
  rewrite fold_left_push_back. reflexivity.
Qed.

(** ** Guide velocity *)

(** C4.  Without a stop point the profile is one segment of
    acceleration zero over the whole horizon, and the reference speeds are
    one per value of the sampling counter (0, then each time the binary64
    sum of the previous time and the resolution, as long as it is below
    the horizon), each of them equal to the cruise speed of the target.
    The loop comes to its end when the resolution is not absorbed by the
    counter. *)
Theorem guide_velocity_cruise_only
    (flags : Flags) (fuel : nat) (self : TrajectoryEvaluator.t)
    (planning_target : PlanningTarget.t) :
  PlanningTarget.stop_point planning_target = None ->
  counter_advances (FLAGS_trajectory_time_length flags)
    (FLAGS_trajectory_time_resolution flags) ->
  FLAGS_trajectory_time_length flags
    <= to_double fuel * (FLAGS_trajectory_time_resolution flags * (1 # 2)) ->
  ConstantAccelerationTrajectory1d.segments
    (TrajectoryEvaluator.guide_profile flags self planning_target)
    = [(0, FLAGS_trajectory_time_length flags)] /\
  exists ts reference_s_dot,
    counter_values (FLAGS_trajectory_time_length flags)
      (FLAGS_trajectory_time_resolution flags) 0 ts /\
    TrajectoryEvaluator.ComputeLongitudinalGuideVelocity flags fuel self
      planning_target = Some reference_s_dot /\
    Forall2
      (fun t v =>
         t < FLAGS_trajectory_time_length flags /\
         v == PlanningTarget.cruise_speed planning_target)
      ts reference_s_dot /\
    (0 < FLAGS_trajectory_time_length flags -> exists rest, ts = 0 :: rest).
Proof.
  intros Hstop Hadv Hfuel.
  assert (Hseg : ConstantAccelerationTrajectory1d.segments
                   (TrajectoryEvaluator.guide_profile flags self planning_target)
                 = [(0, FLAGS_trajectory_time_length flags)]).
  { unfold TrajectoryEvaluator.guide_profile. rewrite Hstop. reflexivity. }
  split; [exact Hseg|].
  rewrite ComputeLongitudinalGuideVelocity_samples.
  destruct (samples_enough fuel 0 (FLAGS_trajectory_time_length flags)
              (FLAGS_trajectory_time_resolution flags) Hadv) as [ts Hts].
  { lra. }
  { lra. }
  rewrite Hts. cbn [option_map]. exists ts. eexists.
  split; [exact (samples_counter_values _ _ _ _ _ Hts)|].
  split; [reflexivity|]. split.
  - pose proof Hadv as [Hstep _].
    apply samples_range in Hts; [|lra|lra].
    clear Hfuel. induction Hts as [|t rest [_ Hlt] _ IH]; cbn [map].
    + constructor.
    + constructor; [|exact IH]. split; [exact Hlt|].
      unfold ConstantAccelerationTrajectory1d.Evaluate. rewrite Hseg.
      unfold TrajectoryEvaluator.guide_profile. rewrite Hstop.
      cbn [ConstantAccelerationTrajectory1d.start_s
           ConstantAccelerationTrajectory1d.start_v
           ConstantAccelerationTrajectory1d.AppendSegment
           ConstantAccelerationTrajectory1d.make
           ConstantAccelerationTrajectory1d.state_at].
      assert (E : (FLAGS_trajectory_time_length flags <? t) = false).
      { apply dlt_false. lra. }
      rewrite E. lra.
  - intros Hpos. exact (samples_first _ _ _ _ _ Hpos Hts).
Qed.

Lemma guide_velocity_cruise_only_witness :
  exists reference_s_dot,
    TrajectoryEvaluator.ComputeLongitudinalGuideVelocity
      (Scenario.flags false) 4 (Scenario.holding [] []) Scenario.cruise
      = Some reference_s_dot /\
    Forall (fun v => v == 10) reference_s_dot /\
    length reference_s_dot = 2%nat.
Proof.
  destruct (guide_velocity_cruise_only (Scenario.flags false) 4
              (Scenario.holding [] []) Scenario.cruise)
    as [_ [ts [l [_ [Hl [Hall _]]]]]].
  - reflexivity.
  - repeat split; vm_compute; discriminate.
  - vm_compute. discriminate.
  - exists l. split; [exact Hl|]. split.
    + clear Hl. induction Hall as [|t v ts' l' [_ Hv] _ IH];
        constructor; assumption.
    + vm_compute in Hl. inversion Hl. reflexivity.
Defined.

(** The guide velocity reads the start position and never the start
    speed or acceleration of [init_s_]. *)
Lemma guide_velocity_ignores_initial_speed (flags : Flags) (fuel : nat)
    (self self' : TrajectoryEvaluator.t) (planning_target : PlanningTarget.t) :
  TrajectoryEvaluator.at0 (TrajectoryEvaluator.init_s_ self)
  = TrajectoryEvaluator.at0 (TrajectoryEvaluator.init_s_ self') ->
  TrajectoryEvaluator.ComputeLongitudinalGuideVelocity flags fuel self
    planning_target
  = TrajectoryEvaluator.ComputeLongitudinalGuideVelocity flags fuel self'
      planning_target.
Proof.
  intro H.
  unfold TrajectoryEvaluator.ComputeLongitudinalGuideVelocity,
    TrajectoryEvaluator.guide_profile.
  rewrite H. reflexivity.
Qed.

(** In the scenario the start speed is 5 and the cruise speed 10: the
    first guide velocity is 10. *)
Lemma guide_velocity_first_sample_not_initial_speed :
  exists v rest,
    TrajectoryEvaluator.ComputeLongitudinalGuideVelocity
      (Scenario.flags false) 2 (Scenario.holding [] []) (Scenario.stop_at 10)
      = Some (v :: rest) /\
    v == 10 /\
    TrajectoryEvaluator.at1
      (TrajectoryEvaluator.init_s_ (Scenario.holding [] [])) == 5 /\
    ~ v == TrajectoryEvaluator.at1
             (TrajectoryEvaluator.init_s_ (Scenario.holding [] [])).
Proof.
  eexists. eexists. split; [vm_compute; reflexivity|].
  split; [reflexivity|]. split; [reflexivity|].
  intro H. discriminate H.
Qed.

Lemma comfortable_stop_leaves_room (c k dist : double) :
  0 < c -> 0 < k -> 0 < dist ->
  - k < - c * c * (1 # 2) / dist ->
  0 <= (dist - c * (c / k) * (1 # 2)) / c.
Proof.
  intros Hc Hk Hdist H.
  apply Qle_shift_div_l; [exact Hc|].
  assert (Hr : - c * c * (1 # 2) / dist * dist == - c * c * (1 # 2))
    by (field; lra).
  assert (Hq : c / k * k == c) by (field; lra).
  set (r := - c * c * (1 # 2) / dist) in *.
  set (q := c / k) in *.
  assert (H1 : c * c * (1 # 2) < k * dist) by nra.
  assert (H2 : c * q * k == c * c) by nra.
  assert (H3 : 0 <= (dist - c * q * (1 # 2)) * k) by nra.
  nra.
Qed.

(** Under sane flags the first segment of the guide profile has a
    duration that is not negative, and the profile starts at the cruise
    speed. *)
Lemma guide_profile_first_segment (flags : Flags)
    (self : TrajectoryEvaluator.t) (planning_target : PlanningTarget.t) :
  0 < FLAGS_trajectory_time_length flags ->
  0 < PlanningTarget.cruise_speed planning_target ->
  FLAGS_longitudinal_acceleration_lower_bound flags < 0 ->
  0 < FLAGS_comfort_acceleration_factor flags ->
  FLAGS_comfort_acceleration_factor flags <= 1 ->
  0 <= FLAGS_lattice_epsilon flags ->
  ConstantAccelerationTrajectory1d.start_v
    (TrajectoryEvaluator.guide_profile flags self planning_target)
  = PlanningTarget.cruise_speed planning_target /\
  exists a d rest,
    ConstantAccelerationTrajectory1d.segments
      (TrajectoryEvaluator.guide_profile flags self planning_target)
    = (a, d) :: rest /\
    0 <= d.
Proof.
  intros HT Hc Hlower Hfactor Hfactor1 Heps.
  unfold TrajectoryEvaluator.guide_profile.
  destruct (PlanningTarget.stop_point planning_target) as [stop|].
  2:{ split; [reflexivity|]. simpl. do 3 eexists. split; [reflexivity|]. lra. }
  set (c := PlanningTarget.cruise_speed planning_target) in *.
  set (lower := FLAGS_longitudinal_acceleration_lower_bound flags) in *.
  set (factor := FLAGS_comfort_acceleration_factor flags) in *.
  set (dist := PlanningTarget.s stop
               - TrajectoryEvaluator.at0 (TrajectoryEvaluator.init_s_ self)).
  set (stop_a := if dist >? FLAGS_lattice_epsilon flags
                 then - c * c * (1 # 2) / dist else lower).
  assert (Hcomfort : lower * factor < 0) by nra.
  destruct (stop_a >? lower * factor) eqn:E.
  - assert (Hd : 0 <= (dist - c * (c / - (lower * factor)) * (1 # 2)) / c).
    { apply dgt_true in E. subst stop_a.
      destruct (dist >? FLAGS_lattice_epsilon flags) eqn:Edist.
      - apply dgt_true in Edist.
        apply comfortable_stop_leaves_room; lra.
      - exfalso. nra. }
    match goal with
    | |- context [if ?b then _ else _] => destruct b
    end; (split; [reflexivity|]); simpl;
      do 3 eexists; (split; [reflexivity|exact Hd]).
  - assert (Hd : 0 <= c / - stop_a).
    { apply dgt_false in E. apply Qle_shift_div_l; lra. }
    match goal with
    | |- context [if ?b then _ else _] => destruct b
    end; (split; [reflexivity|]); simpl;
      do 3 eexists; (split; [reflexivity|exact Hd]).
Qed.

Lemma Evaluate_speed_in_first_segment
    (c : ConstantAccelerationTrajectory1d.t) (a d : double)
    (rest : list (double * double)) (t : double) :
  ConstantAccelerationTrajectory1d.segments c = (a, d) :: rest ->
  t <= d ->
  ConstantAccelerationTrajectory1d.Evaluate 1 t c
  = ConstantAccelerationTrajectory1d.start_v c + a * t.
Proof.
  intros Hseg Ht. unfold ConstantAccelerationTrajectory1d.Evaluate.
  rewrite Hseg. cbn [ConstantAccelerationTrajectory1d.state_at].
  apply dlt_false in Ht. rewrite Ht. reflexivity.
Qed.

(** C3 (amended).  The guide-velocity profile starts at the cruise speed
    of the planning target; [init_s_[1]] is not read.  With a positive
    horizon, a time resolution that the sampling counter does not absorb,
    a positive cruise speed, a negative lower acceleration bound, a
    comfort factor in (0, 1] and an epsilon that is not negative, the
    first sampled reference speed equals the cruise speed; and in stop
    mode, when the required deceleration [stop_a] is not milder than the
    comfortable one, the first segment decelerates at [stop_a] for
    [cruise_speed / -stop_a] and the speed at its end is zero. *)
Theorem guide_velocity_starts_at_cruise_speed
    (flags : Flags) (fuel : nat) (self : TrajectoryEvaluator.t)
    (planning_target : PlanningTarget.t) :
  0 < FLAGS_trajectory_time_length flags ->
  counter_advances (FLAGS_trajectory_time_length flags)
    (FLAGS_trajectory_time_resolution flags) ->
  FLAGS_trajectory_time_length flags
    <= to_double fuel * (FLAGS_trajectory_time_resolution flags * (1 # 2)) ->
  0 < PlanningTarget.cruise_speed planning_target ->
  FLAGS_longitudinal_acceleration_lower_bound flags < 0 ->
  0 < FLAGS_comfort_acceleration_factor flags ->
  FLAGS_comfort_acceleration_factor flags <= 1 ->
  0 <= FLAGS_lattice_epsilon flags ->
  (exists v rest,
      TrajectoryEvaluator.ComputeLongitudinalGuideVelocity flags fuel self
        planning_target = Some (v :: rest) /\
      v == PlanningTarget.cruise_speed planning_target) /\
  (forall stop,
      PlanningTarget.stop_point planning_target = Some stop ->
      let cruise_s_dot := PlanningTarget.cruise_speed planning_target in
      let dist :=
        PlanningTarget.s stop
        - TrajectoryEvaluator.at0 (TrajectoryEvaluator.init_s_ self) in
      let stop_a :=
        if dist >? FLAGS_lattice_epsilon flags
        then - cruise_s_dot * cruise_s_dot * (1 # 2) / dist
        else FLAGS_longitudinal_acceleration_lower_bound flags in
      (stop_a >? FLAGS_longitudinal_acceleration_lower_bound flags *
                 FLAGS_comfort_acceleration_factor flags) = false ->
      exists rest,
        ConstantAccelerationTrajectory1d.segments
          (TrajectoryEvaluator.guide_profile flags self planning_target)
        = (stop_a, cruise_s_dot / - stop_a) :: rest /\
        ConstantAccelerationTrajectory1d.Evaluate 1 (cruise_s_dot / - stop_a)
          (TrajectoryEvaluator.guide_profile flags self planning_target)
        == 0).
Proof.
  intros HT Hadv Hfuel Hc Hlower Hfactor Hfactor1 Heps.
  destruct (guide_profile_first_segment flags self planning_target
              HT Hc Hlower Hfactor Hfactor1 Heps)
    as [Hstart [a [d [segs [Hseg Hd]]]]].
  split.
  - rewrite ComputeLongitudinalGuideVelocity_samples.
    destruct (samples_enough fuel 0 (FLAGS_trajectory_time_length flags)
                (FLAGS_trajectory_time_resolution flags) Hadv) as [ts Hts].
    { lra. }
    { lra. }
    destruct (samples_first _ _ _ _ _ HT Hts) as [rest ->].
    rewrite Hts. simpl. do 2 eexists. split; [reflexivity|].
    rewrite (Evaluate_speed_in_first_segment _ _ _ _ _ Hseg Hd), Hstart.
    lra.
  - intros stop Hstop cruise_s_dot dist stop_a E.
    assert (Hcomfort : FLAGS_longitudinal_acceleration_lower_bound flags *
                       FLAGS_comfort_acceleration_factor flags < 0) by nra.
    pose proof E as Hle. apply dgt_false in Hle.
    assert (Hsegs : exists rest,
               ConstantAccelerationTrajectory1d.segments
                 (TrajectoryEvaluator.guide_profile flags self planning_target)
               = (stop_a, cruise_s_dot / - stop_a) :: rest).
    { unfold TrajectoryEvaluator.guide_profile. rewrite Hstop.
      fold cruise_s_dot. fold dist. fold stop_a. rewrite E.
      match goal with
      | |- context [if ?b then _ else _] => destruct b
      end; simpl; eexists; reflexivity. }
    destruct Hsegs as [rest Hrest]. exists rest. split; [exact Hrest|].
    rewrite (Evaluate_speed_in_first_segment _ _ _ _ _ Hrest (Qle_refl _)),
      Hstart.
    fold cruise_s_dot. field. lra.
Qed.

Lemma guide_velocity_starts_at_cruise_speed_witness :
  exists v rest,
    TrajectoryEvaluator.ComputeLongitudinalGuideVelocity
      (Scenario.flags false) 4 (Scenario.holding [] []) (Scenario.stop_at 10)
      = Some (v :: rest) /\
    v == 10.
Proof.
  destruct (guide_velocity_starts_at_cruise_speed (Scenario.flags false) 4
              (Scenario.holding [] []) (Scenario.stop_at 10)) as [H _].
  - reflexivity.
  - repeat split; vm_compute; discriminate.
  - vm_compute. discriminate.
  - reflexivity.
  - reflexivity.
  - reflexivity.
  - vm_compute. discriminate.
  - vm_compute. discriminate.
  - exact H.
Defined.

(** * Further properties of the evaluator *)

(** ** Counting the store *)

Lemma num_of_trajectory_pairs_entries (flags : Flags)
    (self : TrajectoryEvaluator.t) :
  TrajectoryEvaluator.num_of_trajectory_pairs flags self
  = length (Store.entries flags self).
Proof.
  unfold TrajectoryEvaluator.num_of_trajectory_pairs, Store.entries,
    PriorityQueue.size.
  destruct (negb (FLAGS_enable_auto_tuning flags));
    [reflexivity|symmetry; apply length_map].
Qed.

Lemma next_top_succeeds (flags : Flags) (self : TrajectoryEvaluator.t) :
  Store.entries flags self <> [] ->
  exists p self',
    TrajectoryEvaluator.next_top_trajectory_pair flags self
    = Returns (p, self').
Proof.
  unfold TrajectoryEvaluator.next_top_trajectory_pair,
    TrajectoryEvaluator.has_more_trajectory_pairs, PriorityQueue.top,
    Store.entries.
  destruct (negb (FLAGS_enable_auto_tuning flags)).
  - destruct (TrajectoryEvaluator.cost_queue_ self) as [|x q] eqn:Eq;
      [intro H; exfalso; apply H; reflexivity|].
    intros _. simpl negb. cbv iota.
    destruct (PriorityQueue.extract TrajectoryEvaluator.CostComparator
                (x :: q)) as [[y q']|] eqn:E.
    + simpl. eauto.
    + apply extract_nil in E. discriminate.
  - destruct (TrajectoryEvaluator.cost_queue_with_components_ self)
      as [|x q] eqn:Eq; [intro H; exfalso; apply H; reflexivity|].
    intros _. simpl negb. cbv iota.
    destruct (PriorityQueue.extract
                TrajectoryEvaluator.CostComponentComparator (x :: q))
      as [[y q']|] eqn:E.
    + simpl. eauto.
    + apply extract_nil in E. discriminate.
Qed.

Lemma next_top_frame (flags : Flags) (self self' : TrajectoryEvaluator.t)
    (p : TrajectoryEvaluator.Pair) :
  TrajectoryEvaluator.next_top_trajectory_pair flags self = Returns (p, self') ->
  TrajectoryEvaluator.init_s_ self' = TrajectoryEvaluator.init_s_ self /\
  TrajectoryEvaluator.path_time_intervals_ self'
  = TrajectoryEvaluator.path_time_intervals_ self /\
  TrajectoryEvaluator.path_time_graph_ self'
  = TrajectoryEvaluator.path_time_graph_ self.
Proof.
  unfold TrajectoryEvaluator.next_top_trajectory_pair.
  destruct (negb (eqb (TrajectoryEvaluator.has_more_trajectory_pairs flags self)
                    true)); [discriminate|].
  destruct (negb (FLAGS_enable_auto_tuning flags)).
  - destruct (PriorityQueue.top _ _); [|discriminate].
    intro H. inversion H; subst. auto.
  - destruct (PriorityQueue.top _ _); [|discriminate].
    intro H. inversion H; subst. auto.
Qed.

(** X1.  [next_top_trajectory_pair] returns a pair exactly when the
    reported number of pairs is positive, and each call that returns
    lowers that number by one and leaves the inputs of the evaluator
    ([init_s_], [path_time_intervals_]) as they were. *)
Theorem next_top_trajectory_pair_counts_down
    (flags : Flags) (self : TrajectoryEvaluator.t) :
  ((0 < TrajectoryEvaluator.num_of_trajectory_pairs flags self)%nat <->
   exists p self',
     TrajectoryEvaluator.next_top_trajectory_pair flags self
     = Returns (p, self')) /\
  (forall p self',
      TrajectoryEvaluator.next_top_trajectory_pair flags self
      = Returns (p, self') ->
      TrajectoryEvaluator.num_of_trajectory_pairs flags self
      = S (TrajectoryEvaluator.num_of_trajectory_pairs flags self') /\
      TrajectoryEvaluator.init_s_ self' = TrajectoryEvaluator.init_s_ self /\
      TrajectoryEvaluator.path_time_intervals_ self'
      = TrajectoryEvaluator.path_time_intervals_ self).
Proof.
  split.
  - rewrite num_of_trajectory_pairs_entries. split.
    + intro Hpos. apply next_top_succeeds.
      destruct (Store.entries flags self); [simpl in Hpos; lia|discriminate].
    + intros [p [self' H]].
      destruct (next_top_spec flags _ _ _ H) as [c [_ [Hperm _]]].
      apply Permutation_length in Hperm. simpl in Hperm. lia.
  - intros p self' H.
    destruct (next_top_spec flags _ _ _ H) as [c [_ [Hperm _]]].
    destruct (next_top_frame flags _ _ _ H) as [Hs [Hp _]].
    repeat rewrite num_of_trajectory_pairs_entries.
    apply Permutation_length in Hperm. simpl in Hperm. auto.
Qed.


(** ** What construction leaves in the evaluator *)
Section ConstructionContents.
Import TrajectoryEvaluator Store.
Variable flags : Flags.
Variable exp : double -> double.
Variable IsValidLongitudinalTrajectory : Trajectory1d -> bool.
Variable fuel : nat.
Variable planning_target : PlanningTarget.t.

Lemma same_frame_refl (self : t) : same_frame flags self self.
Proof. unfold same_frame. auto. Qed.

Lemma same_frame_trans (a b c : t) :
  same_frame flags a b -> same_frame flags b c -> same_frame flags a c.
Proof.
  unfold same_frame.
  intros [H1 [H2 [H3 [H4 H5]]]] [K1 [K2 [K3 [K4 K5]]]].
  repeat split; try congruence.
  - intro E. rewrite (K4 E). auto.
  - intro E. rewrite (K5 E). auto.
Qed.

(** The inner loop appends one entry per lateral candidate, in order. *)
Lemma construct_lat_pairs (lon : Trajectory1d) (lats : list Trajectory1d)
    (self self' : t) :
  construct_lat flags exp fuel planning_target lon lats self = Some self' ->
  map fst (entries flags self')
  = map fst (entries flags self) ++ map (pair lon) lats /\
  same_frame flags self self'.
Proof.
  revert self. induction lats as [|lat rest IH]; simpl; intros self H.
  - inversion H; subst. rewrite app_nil_r. split; [reflexivity|].
    apply same_frame_refl.
  - destruct (FLAGS_enable_auto_tuning flags) eqn:Eauto; simpl in H.
    + destruct (Evaluate flags exp fuel self planning_target lon lat (Some []))
        as [r|]; simpl in H; [|discriminate].
      apply IH in H. destruct H as [Hmap Hframe].
      rewrite entries_push_with_components in Hmap by exact Eauto.
      rewrite map_app, <- app_assoc in Hmap. split; [exact Hmap|].
      refine (same_frame_trans _ _ _ _ Hframe).
      unfold same_frame. simpl. repeat split; auto. congruence.
    + destruct (Evaluate flags exp fuel self planning_target lon lat None)
        as [r|]; simpl in H; [|discriminate].
      apply IH in H. destruct H as [Hmap Hframe].
      rewrite entries_push_cost_queue in Hmap by exact Eauto.
      rewrite map_app, <- app_assoc in Hmap. split; [exact Hmap|].
      refine (same_frame_trans _ _ _ _ Hframe).
      unfold same_frame. simpl. repeat split; auto. congruence.
Qed.

(** The outer loop appends the pairs of the candidates that pass both
    filters, in the order of the two lists. *)
Lemma construct_lon_pairs (lons lats : list Trajectory1d) (self self' : t) :
  construct_lon flags exp IsValidLongitudinalTrajectory fuel planning_target
    (FLAGS_trajectory_time_length flags)
    (Admissible.stop_cutoff planning_target) lons lats self = Some self' ->
  map fst (entries flags self')
  = map fst (entries flags self)
    ++ Admissible.pairs flags IsValidLongitudinalTrajectory planning_target
         lons lats /\
  same_frame flags self self'.
Proof.
  unfold Admissible.pairs.
  revert self. induction lons as [|lon rest IH]; simpl; intros self H.
  - inversion H; subst. rewrite app_nil_r. split; [reflexivity|].
    apply same_frame_refl.
  - unfold Admissible.passes at 1.
    destruct (Curve1d.Evaluate lon 0 (FLAGS_trajectory_time_length flags)
              >? Admissible.stop_cutoff planning_target).
    { simpl. apply IH, H. }
    destruct (IsValidLongitudinalTrajectory lon); simpl in H |- *.
    2:{ apply IH, H. }
    destruct (construct_lat flags exp fuel planning_target lon lats self)
      as [self1|] eqn:Elat; simpl in H; [|discriminate].
    apply construct_lat_pairs in Elat. destruct Elat as [Hmap1 Hframe1].
    apply IH in H. destruct H as [Hmap Hframe].
    rewrite Hmap, Hmap1, <- app_assoc. split; [reflexivity|].
    exact (same_frame_trans _ _ _ Hframe1 Hframe).
Qed.
End ConstructionContents.

(** X2.  The store built by the constructor holds exactly the pairs of
    every longitudinal candidate that passes both filters with every
    lateral candidate, once each and in the order of the two lists; the
    number of pairs is the number of passing longitudinal candidates times
    the number of lateral candidates. *)
Theorem create_stores_every_admissible_pair
    (flags : Flags) (exp : double -> double)
    (IsValidLongitudinalTrajectory : Trajectory1d -> bool)
    (fuel : nat) (init_s : double * double * double)
    (planning_target : PlanningTarget.t)
    (lon_trajectories lat_trajectories : list Trajectory1d)
    (path_time_graph : PathTimeGraph.t) (self : TrajectoryEvaluator.t) :
  TrajectoryEvaluator.create flags exp IsValidLongitudinalTrajectory fuel
    init_s planning_target lon_trajectories lat_trajectories path_time_graph
    = Some self ->
  map fst (Store.entries flags self)
  = flat_map (fun lon => map (pair lon) lat_trajectories)
      (filter
         (fun lon =>
            negb (Curve1d.Evaluate lon 0 (FLAGS_trajectory_time_length flags)
                  >? match PlanningTarget.stop_point planning_target with
                     | Some stop => PlanningTarget.s stop
                     | None => DBL_MAX
                     end)
            && IsValidLongitudinalTrajectory lon)
         lon_trajectories) /\
  TrajectoryEvaluator.num_of_trajectory_pairs flags self
  = (length
       (filter
          (Admissible.passes flags IsValidLongitudinalTrajectory
             planning_target)
          lon_trajectories)
     * length lat_trajectories)%nat.
Proof.
  intro H. unfold TrajectoryEvaluator.create in H.
  apply construct_lon_pairs in H. destruct H as [Hmap _].
  assert (Hnil : Store.entries flags
                   {| TrajectoryEvaluator.path_time_graph_ := path_time_graph;
                      TrajectoryEvaluator.init_s_ := init_s;
                      TrajectoryEvaluator.path_time_intervals_ :=
                        PathTimeGraph.GetPathBlockingIntervals path_time_graph
                          0 (FLAGS_trajectory_time_length flags)
                          (FLAGS_trajectory_time_resolution flags);
                      TrajectoryEvaluator.cost_queue_ := [];
                      TrajectoryEvaluator.cost_queue_with_components_ := [] |}
                 = []).
  { unfold Store.entries. simpl.
    destruct (negb (FLAGS_enable_auto_tuning flags)); reflexivity. }
  rewrite Hnil in Hmap. simpl in Hmap.
  split; [exact Hmap|].
  rewrite num_of_trajectory_pairs_entries, <- (length_map fst), Hmap.
  assert (Hlen : forall l : list Trajectory1d,
             length (flat_map (fun lon => map (pair lon) lat_trajectories) l)
             = (length l * length lat_trajectories)%nat).
  { induction l as [|lon rest IH]; simpl.
    - reflexivity.
    - rewrite length_app, length_map, IH. reflexivity. }
  unfold Admissible.pairs. rewrite Hlen. reflexivity.
Qed.

Lemma create_stores_every_admissible_pair_witness :
  match Scenario.constructed false with
  | Some self =>
      map fst (Store.entries (Scenario.flags false) self)
      = [(Scenario.constant_speed 3, Scenario.constant_offset 0);
         (Scenario.constant_speed 3, Scenario.constant_offset 1);
         (Scenario.constant_speed 4, Scenario.constant_offset 0);
         (Scenario.constant_speed 4, Scenario.constant_offset 1)]
  | None => False
  end.
Proof.
  destruct (Scenario.constructed false) as [self|] eqn:E.
  - rewrite (proj1 (create_stores_every_admissible_pair _ _ _ _ _ _ _ _ _ _ E)).
    reflexivity.
  - vm_compute in E. discriminate E.
Defined.

(** X3.  The constructor stores its inputs and fills only the queue the
    flag selects: [init_s_] is the given initial state,
    [path_time_intervals_] is the answer of the obstacle map for the
    horizon [0 .. FLAGS_trajectory_time_length] at the time resolution,
    and the queue of the other mode stays empty. *)
Theorem create_frame
    (flags : Flags) (exp : double -> double)
    (IsValidLongitudinalTrajectory : Trajectory1d -> bool)
    (fuel : nat) (init_s : double * double * double)
    (planning_target : PlanningTarget.t)
    (lon_trajectories lat_trajectories : list Trajectory1d)
    (path_time_graph : PathTimeGraph.t) (self : TrajectoryEvaluator.t) :
  TrajectoryEvaluator.create flags exp IsValidLongitudinalTrajectory fuel
    init_s planning_target lon_trajectories lat_trajectories path_time_graph
    = Some self ->
  TrajectoryEvaluator.init_s_ self = init_s /\
  TrajectoryEvaluator.path_time_graph_ self = path_time_graph /\
  TrajectoryEvaluator.path_time_intervals_ self
  = PathTimeGraph.GetPathBlockingIntervals path_time_graph 0
      (FLAGS_trajectory_time_length flags)
      (FLAGS_trajectory_time_resolution flags) /\
  (FLAGS_enable_auto_tuning flags = false ->
   TrajectoryEvaluator.cost_queue_with_components_ self = []) /\
  (FLAGS_enable_auto_tuning flags = true ->
   TrajectoryEvaluator.cost_queue_ self = []).
Proof.
  intro H. unfold TrajectoryEvaluator.create in H.
  apply construct_lon_pairs in H.
  destruct H as [_ [H1 [H2 [H3 [H4 H5]]]]]. simpl in *.
  repeat split; auto.
Qed.

Lemma create_frame_witness :
  match Scenario.constructed true with
  | Some self =>
      TrajectoryEvaluator.cost_queue_ self = [] /\
      TrajectoryEvaluator.path_time_intervals_ self = [[]; []]
  | None => False
  end.
Proof.
  destruct (Scenario.constructed true) as [self|] eqn:E.
  - destruct (create_frame _ _ _ _ _ _ _ _ _ _ E) as [_ [_ [Hp [_ Hq]]]].
    split; [apply Hq; reflexivity|]. rewrite Hp. reflexivity.
  - vm_compute in E. discriminate E.
Defined.

(** ** Construction without admissible pairs *)

(** X4.  When there is no lateral candidate, or no longitudinal candidate
    passes the two filters, the constructor evaluates nothing: it returns
    whatever the resolutions and however little fuel, the store is empty,
    [has_more_trajectory_pairs] is false, the count is 0, and a retrieval
    stops at its [CHECK]. *)
Theorem create_without_admissible_pairs
    (flags : Flags) (exp : double -> double)
    (IsValidLongitudinalTrajectory : Trajectory1d -> bool)
    (fuel : nat) (init_s : double * double * double)
    (planning_target : PlanningTarget.t)
    (lon_trajectories lat_trajectories : list Trajectory1d)
    (path_time_graph : PathTimeGraph.t) :
  lat_trajectories = [] \/
  (forall lon, In lon lon_trajectories ->
     (Curve1d.Evaluate lon 0 (FLAGS_trajectory_time_length flags)
      >? match PlanningTarget.stop_point planning_target with
         | Some stop => PlanningTarget.s stop
         | None => DBL_MAX
         end) = true \/
     IsValidLongitudinalTrajectory lon = false) ->
  exists self,
    TrajectoryEvaluator.create flags exp IsValidLongitudinalTrajectory fuel
      init_s planning_target lon_trajectories lat_trajectories path_time_graph
    = Some self /\
    Store.entries flags self = [] /\
    TrajectoryEvaluator.has_more_trajectory_pairs flags self = false /\
    TrajectoryEvaluator.num_of_trajectory_pairs flags self = 0%nat /\
    TrajectoryEvaluator.next_top_trajectory_pair flags self = CheckFailure.
Proof.
  intro Hnone. unfold TrajectoryEvaluator.create.
  set (self0 := {| TrajectoryEvaluator.path_time_graph_ := path_time_graph;
                   TrajectoryEvaluator.init_s_ := init_s;
                   TrajectoryEvaluator.path_time_intervals_ :=
                     PathTimeGraph.GetPathBlockingIntervals path_time_graph
                       0 (FLAGS_trajectory_time_length flags)
                       (FLAGS_trajectory_time_resolution flags);
                   TrajectoryEvaluator.cost_queue_ := [];
                   TrajectoryEvaluator.cost_queue_with_components_ := [] |}).
  exists self0.
  assert (Hrun : forall self,
             TrajectoryEvaluator.construct_lon flags exp
               IsValidLongitudinalTrajectory fuel planning_target
               (FLAGS_trajectory_time_length flags)
               match PlanningTarget.stop_point planning_target with
               | Some stop => PlanningTarget.s stop
               | None => DBL_MAX
               end
               lon_trajectories lat_trajectories self = Some self).
  { induction lon_trajectories as [|lon rest IH]; intro self; simpl.
    - reflexivity.
    - destruct Hnone as [Hlat|Hlon].
      + subst lat_trajectories. simpl.
        rewrite (IH (or_introl eq_refl)).
        destruct (_ >? _); [reflexivity|].
        destruct (negb _); reflexivity.
      + assert (IH' := IH (or_intror (fun l Hl => Hlon l (or_intror Hl)))).
        destruct (Hlon lon (or_introl eq_refl)) as [-> | ->]; simpl.
        * apply IH'.
        * destruct (_ >? _); apply IH'. }
  split; [apply Hrun|].
  unfold Store.entries, TrajectoryEvaluator.has_more_trajectory_pairs,
    TrajectoryEvaluator.num_of_trajectory_pairs,
    TrajectoryEvaluator.next_top_trajectory_pair,
    TrajectoryEvaluator.has_more_trajectory_pairs.
  simpl. destruct (negb (FLAGS_enable_auto_tuning flags)); simpl; auto.
Qed.

Lemma create_without_admissible_pairs_witness :
  exists self,
    TrajectoryEvaluator.create (Scenario.flags false) Scenario.exp
      Scenario.accept_all 0 Scenario.init_s (Scenario.stop_at 10)
      [Scenario.constant_speed 10] Scenario.lats Scenario.no_obstacles
    = Some self /\
    TrajectoryEvaluator.has_more_trajectory_pairs (Scenario.flags false) self
    = false.
Proof.
  destruct (create_without_admissible_pairs (Scenario.flags false)
              Scenario.exp Scenario.accept_all 0 Scenario.init_s
              (Scenario.stop_at 10) [Scenario.constant_speed 10]
              Scenario.lats Scenario.no_obstacles)
    as [self [Hc [_ [Hm _]]]].
  - right. intros lon [<-|[]]. left. reflexivity.
  - exists self. split; [exact Hc|exact Hm].
Defined.

(** ** Termination of the loops over a double counter *)

Lemma for_double_enough {A : Type} (body : double -> A -> A) (fuel : nat)
    (x bound step : double) (acc : A) :
  counter_advances bound step ->
  0 <= x ->
  bound - x <= to_double fuel * (step * (1 # 2)) ->
  exists r, for_double fuel x bound step body acc = Some r.
Proof.
  intros Hadv Hx Hfuel. rewrite for_double_samples.
  destruct (samples_enough fuel x bound step Hadv Hx Hfuel) as [ts ->].
  simpl. eauto.
Qed.

Lemma samples_never_end (fuel : nat) (x bound step : double) :
  step <= 0 -> x <= 0 -> 0 < bound -> samples fuel x bound step = None.
Proof.
  intros Hstep Hx Hbound. revert x Hx.
  induction fuel as [|fuel IH]; intros x Hx; simpl;
    rewrite (proj2 (dlt_true x bound)) by lra.
  - reflexivity.
  - rewrite IH; [reflexivity|]. apply round64_nonpos. lra.
Qed.

Section Termination.
Import TrajectoryEvaluator.
Variable flags : Flags.
Variable exp : double -> double.
Variable IsValidLongitudinalTrajectory : Trajectory1d -> bool.
Variable fuel : nat.
Variable planning_target : PlanningTarget.t.

Hypothesis time_advances :
  counter_advances (FLAGS_trajectory_time_length flags)
    (FLAGS_trajectory_time_resolution flags).
Hypothesis space_advances :
  counter_advances (FLAGS_decision_horizon flags)
    (FLAGS_trajectory_space_resolution flags).
Hypothesis fuel_for_time :
  FLAGS_trajectory_time_length flags
  <= to_double fuel * (FLAGS_trajectory_time_resolution flags * (1 # 2)).
Hypothesis fuel_for_space :
  FLAGS_decision_horizon flags
  <= to_double fuel * (FLAGS_trajectory_space_resolution flags * (1 # 2)).

Lemma Evaluate_returns (self : t) (lon lat : Trajectory1d)
    (cost_components : option (list double)) :
  exists r,
    Evaluate flags exp fuel self planning_target lon lat cost_components
    = Some r.
Proof.
  unfold Evaluate, ComputeLongitudinalGuideVelocity, LonComfortCost,
    LatComfortCost.
  destruct (for_double_enough
              (fun t reference_s_dot =>
                 reference_s_dot ++
                 [ConstantAccelerationTrajectory1d.Evaluate 1 t
                    (guide_profile flags self planning_target)])
              fuel 0 (FLAGS_trajectory_time_length flags)
              (FLAGS_trajectory_time_resolution flags) []
              time_advances) as [r1 ->]; [lra|lra|].
  cbn [bind].
  match goal with
  | |- context [for_double fuel 0 (FLAGS_trajectory_time_length flags)
                  (FLAGS_trajectory_time_resolution flags) ?b (0, 0)] =>
      destruct (for_double_enough b fuel 0
                  (FLAGS_trajectory_time_length flags)
                  (FLAGS_trajectory_time_resolution flags) (0, 0)
                  time_advances) as [r2 ->]; [lra|lra|]
  end.
  cbn [bind].
  pose proof (Q.le_min_l (FLAGS_decision_horizon flags)
                (Curve1d.Evaluate lon 0 (Curve1d.ParamLength lon))) as Hmin.
  match goal with
  | |- context [for_double fuel 0 ?h
                  (FLAGS_trajectory_space_resolution flags) ?b []] =>
      destruct (for_double_enough b fuel 0 h
                  (FLAGS_trajectory_space_resolution flags) []
                  (counter_advances_le _ _ _ Hmin space_advances))
        as [r3 ->]; [lra|lra|]
  end.
  cbn [bind].
  match goal with
  | |- context [for_double fuel 0 (FLAGS_trajectory_time_length flags)
                  (FLAGS_trajectory_time_resolution flags) ?b 0] =>
      destruct (for_double_enough b fuel 0
                  (FLAGS_trajectory_time_length flags)
                  (FLAGS_trajectory_time_resolution flags) 0
                  time_advances) as [r4 ->]; [lra|lra|]
  end.
  cbn [bind]. eauto.
Qed.

Lemma construct_lat_returns (lon : Trajectory1d) (lats : list Trajectory1d)
    (self : t) :
  exists self',
    construct_lat flags exp fuel planning_target lon lats self = Some self'.
Proof.
  revert self. induction lats as [|lat rest IH]; intro self; simpl.
  - eauto.
  - destruct (negb (FLAGS_enable_auto_tuning flags)).
    + destruct (Evaluate_returns self lon lat None) as [r ->]. simpl.
      apply IH.
    + destruct (Evaluate_returns self lon lat (Some [])) as [r ->]. simpl.
      apply IH.
Qed.

Lemma construct_lon_returns (end_time stop_point : double)
    (lons lats : list Trajectory1d) (self : t) :
  exists self',
    construct_lon flags exp IsValidLongitudinalTrajectory fuel planning_target
      end_time stop_point lons lats self = Some self'.
Proof.
  revert self. induction lons as [|lon rest IH]; intro self; simpl.
  - eauto.
  - destruct (_ >? _); [apply IH|].
    destruct (negb _); [apply IH|].
    destruct (construct_lat_returns lon lats self) as [self1 ->]. simpl.
    apply IH.
Qed.
End Termination.

(** X5.  When neither resolution is absorbed by its counter (every
    binary64 addition below the bound advances the counter by at least
    half a step), every sampling loop comes to its end within twice
    bound / step rounds: every evaluation returns a cost and the
    constructor returns an evaluator, for any candidates. *)
Theorem create_terminates
    (flags : Flags) (exp : double -> double)
    (IsValidLongitudinalTrajectory : Trajectory1d -> bool)
    (fuel : nat) (init_s : double * double * double)
    (planning_target : PlanningTarget.t)
    (lon_trajectories lat_trajectories : list Trajectory1d)
    (path_time_graph : PathTimeGraph.t) :
  counter_advances (FLAGS_trajectory_time_length flags)
    (FLAGS_trajectory_time_resolution flags) ->
  counter_advances (FLAGS_decision_horizon flags)
    (FLAGS_trajectory_space_resolution flags) ->
  FLAGS_trajectory_time_length flags
    <= to_double fuel * (FLAGS_trajectory_time_resolution flags * (1 # 2)) ->
  FLAGS_decision_horizon flags
    <= to_double fuel * (FLAGS_trajectory_space_resolution flags * (1 # 2)) ->
  (forall self lon lat cost_components,
      exists r,
        TrajectoryEvaluator.Evaluate flags exp fuel self planning_target
          lon lat cost_components = Some r) /\
  exists self,
    TrajectoryEvaluator.create flags exp IsValidLongitudinalTrajectory fuel
      init_s planning_target lon_trajectories lat_trajectories path_time_graph
    = Some self.
Proof.
  intros Hdt Hds Hft Hfs. split.
  - intros self lon lat cc.
    apply (Evaluate_returns flags exp fuel planning_target Hdt Hds Hft Hfs).
  - unfold TrajectoryEvaluator.create.
    apply (construct_lon_returns flags exp IsValidLongitudinalTrajectory fuel
             planning_target Hdt Hds Hft Hfs).
Qed.

(** At horizon 8.0, decision horizon 200 and resolutions 0.1 and 1.0
    (as doubles) the constructor returns with fuel for 400 rounds. *)
Lemma create_terminates_witness :
  exists self,
    TrajectoryEvaluator.create ScenarioMore.default_sampling Scenario.exp
      Scenario.accept_all 400 Scenario.init_s (Scenario.stop_at 10)
      Scenario.lons Scenario.lats Scenario.no_obstacles
    = Some self.
Proof.
  destruct (create_terminates ScenarioMore.default_sampling Scenario.exp
              Scenario.accept_all 400 Scenario.init_s (Scenario.stop_at 10)
              Scenario.lons Scenario.lats Scenario.no_obstacles)
    as [_ H].
  - repeat split; vm_compute; discriminate.
  - repeat split; vm_compute; discriminate.
  - vm_compute. discriminate.
  - vm_compute. discriminate.
  - exact H.
Defined.

(** X6.  With a time resolution that is not positive and a positive
    horizon the sampling loops never leave their first phase: whatever
    the fuel, the guide velocity, the evaluation of a pair and the
    construction over at least one admissible pair do not return. *)
Theorem non_positive_time_resolution_diverges
    (flags : Flags) (exp : double -> double)
    (IsValidLongitudinalTrajectory : Trajectory1d -> bool)
    (fuel : nat) (planning_target : PlanningTarget.t) :
  FLAGS_trajectory_time_resolution flags <= 0 ->
  0 < FLAGS_trajectory_time_length flags ->
  (forall self,
      TrajectoryEvaluator.ComputeLongitudinalGuideVelocity flags fuel self
        planning_target = None) /\
  (forall self lon lat cost_components,
      TrajectoryEvaluator.Evaluate flags exp fuel self planning_target
        lon lat cost_components = None) /\
  (forall init_s lon_trajectories lat_trajectories path_time_graph lon,
      In lon lon_trajectories ->
      Admissible.passes flags IsValidLongitudinalTrajectory planning_target
        lon = true ->
      lat_trajectories <> [] ->
      TrajectoryEvaluator.create flags exp IsValidLongitudinalTrajectory fuel
        init_s planning_target lon_trajectories lat_trajectories
        path_time_graph = None).
Proof.
  intros Hdt HT.
  assert (Hguide : forall self,
             TrajectoryEvaluator.ComputeLongitudinalGuideVelocity flags fuel
               self planning_target = None).
  { intro self. rewrite ComputeLongitudinalGuideVelocity_samples.
    rewrite (samples_never_end _ _ _ _ Hdt (Qle_refl 0) HT). reflexivity. }
  assert (Heval : forall self lon lat cost_components,
             TrajectoryEvaluator.Evaluate flags exp fuel self planning_target
               lon lat cost_components = None).
  { intros. unfold TrajectoryEvaluator.Evaluate. rewrite Hguide.
    reflexivity. }
  split; [exact Hguide|]. split; [exact Heval|].
  intros init_s lons lats ptg lon Hin Hpass Hlats.
  unfold TrajectoryEvaluator.create.
  generalize ({| TrajectoryEvaluator.path_time_graph_ := ptg;
                 TrajectoryEvaluator.init_s_ := init_s;
                 TrajectoryEvaluator.path_time_intervals_ :=
                   PathTimeGraph.GetPathBlockingIntervals ptg 0
                     (FLAGS_trajectory_time_length flags)
                     (FLAGS_trajectory_time_resolution flags);
                 TrajectoryEvaluator.cost_queue_ := [];
                 TrajectoryEvaluator.cost_queue_with_components_ := [] |}).
  fold (Admissible.stop_cutoff planning_target).
  induction lons as [|lon0 rest IH]; intro self; simpl.
  - contradiction.
  - destruct (Curve1d.Evaluate lon0 0 (FLAGS_trajectory_time_length flags)
              >? Admissible.stop_cutoff planning_target) eqn:Eend.
    { destruct Hin as [->|Hin]; [|apply IH, Hin].
      unfold Admissible.passes in Hpass. rewrite Eend in Hpass.
      discriminate. }
    destruct (IsValidLongitudinalTrajectory lon0) eqn:Evalid; simpl.
    2:{ destruct Hin as [->|Hin]; [|apply IH, Hin].
        unfold Admissible.passes in Hpass. rewrite Evalid in Hpass.
        rewrite andb_false_r in Hpass. discriminate. }
    destruct lats as [|lat lats']; [contradiction Hlats; reflexivity|].
    simpl. destruct (negb (FLAGS_enable_auto_tuning flags));
      rewrite Heval; reflexivity.
Qed.

Lemma non_positive_time_resolution_diverges_witness :
  TrajectoryEvaluator.ComputeLongitudinalGuideVelocity
    (ScenarioMore.with_time_resolution 0 (Scenario.flags false)) 1000
    (Scenario.holding [] []) Scenario.cruise = None.
Proof.
  apply (non_positive_time_resolution_diverges
           (ScenarioMore.with_time_resolution 0 (Scenario.flags false))
           Scenario.exp Scenario.accept_all 1000 Scenario.cruise).
  - vm_compute. discriminate.
  - reflexivity.
Defined.

(** ** The ranking does not depend on the tracking mode *)

Lemma extract_map {A B : Type} (g : B -> A)
    (compA : A -> A -> bool) (compB : B -> B -> bool) (q : list B) :
  (forall x y, compB x y = compA (g x) (g y)) ->
  PriorityQueue.extract compA (map g q)
  = option_map (fun yq => (g (fst yq), map g (snd yq)))
      (PriorityQueue.extract compB q).
Proof.
  intro Hcomp. induction q as [|x rest IH]; simpl.
  - reflexivity.
  - rewrite IH.
    destruct (PriorityQueue.extract compB rest) as [[y rest']|]; simpl.
    + rewrite Hcomp. destruct (compA (g x) (g y)); reflexivity.
    + reflexivity.
Qed.

(** Both peeks and the retrieval, read on the entries of the store. *)
Lemma top_trajectory_pair_cost_entries (flags : Flags)
    (self : TrajectoryEvaluator.t) :
  TrajectoryEvaluator.top_trajectory_pair_cost flags self
  = match PriorityQueue.extract TrajectoryEvaluator.CostComparator
            (Store.entries flags self) with
    | Some (e, _) => Returns (snd e)
    | None => UndefinedBehaviour
    end.
Proof.
  unfold TrajectoryEvaluator.top_trajectory_pair_cost, Store.entries,
    PriorityQueue.top.
  destruct (negb (FLAGS_enable_auto_tuning flags)).
  - destruct (PriorityQueue.extract _ _) as [[e q']|]; reflexivity.
  - rewrite (extract_map
               (fun e : TrajectoryEvaluator.PairCostWithComponents =>
                  (fst e, snd (snd e)))
               TrajectoryEvaluator.CostComparator
               TrajectoryEvaluator.CostComponentComparator)
      by reflexivity.
    destruct (PriorityQueue.extract _ _) as [[e q']|]; reflexivity.
Qed.

Lemma next_top_trajectory_pair_entries (flags : Flags)
    (self : TrajectoryEvaluator.t) :
  match TrajectoryEvaluator.next_top_trajectory_pair flags self with
  | Returns (p, self') =>
      exists c,
        PriorityQueue.extract TrajectoryEvaluator.CostComparator
          (Store.entries flags self)
        = Some ((p, c), Store.entries flags self')
  | CheckFailure => Store.entries flags self = []
  | UndefinedBehaviour => False
  end.
Proof.
  unfold TrajectoryEvaluator.next_top_trajectory_pair,
    TrajectoryEvaluator.has_more_trajectory_pairs, Store.entries,
    PriorityQueue.top, PriorityQueue.pop.
  destruct (negb (FLAGS_enable_auto_tuning flags)) eqn:Eauto.
  - destruct (TrajectoryEvaluator.cost_queue_ self) as [|x q] eqn:Eq.
    + reflexivity.
    + simpl negb. cbv iota.
      destruct (PriorityQueue.extract TrajectoryEvaluator.CostComparator
                  (x :: q)) as [[[p c] q']|] eqn:E.
      * simpl. exists c. reflexivity.
      * apply extract_nil in E. discriminate.
  - destruct (TrajectoryEvaluator.cost_queue_with_components_ self)
      as [|x q] eqn:Eq.
    + reflexivity.
    + simpl negb. cbv iota.
      rewrite (extract_map
                 (fun e : TrajectoryEvaluator.PairCostWithComponents =>
                    (fst e, snd (snd e)))
                 TrajectoryEvaluator.CostComparator
                 TrajectoryEvaluator.CostComponentComparator)
        by reflexivity.
      destruct (PriorityQueue.extract
                  TrajectoryEvaluator.CostComponentComparator (x :: q))
        as [[[p [v c]] q']|] eqn:E.
      * simpl. exists c. reflexivity.
      * apply extract_nil in E. discriminate.
Qed.

(** The retrieval loop is a function of the entries alone. *)
Lemma retrieve_entries (flags flags' : Flags) (n : nat)
    (self self' : TrajectoryEvaluator.t) :
  Store.entries flags self = Store.entries flags' self' ->
  Store.retrieve flags n self = Store.retrieve flags' n self'.
Proof.
  revert self self'. induction n as [|n IH]; intros self self' He; simpl.
  - reflexivity.
  - rewrite 2 top_trajectory_pair_cost_entries.
    pose proof (next_top_trajectory_pair_entries flags self) as H1.
    pose proof (next_top_trajectory_pair_entries flags' self') as H2.
    rewrite <- He in *.
    destruct (TrajectoryEvaluator.next_top_trajectory_pair flags self)
      as [[p1 s1]| |];
      destruct (TrajectoryEvaluator.next_top_trajectory_pair flags' self')
        as [[p2 s2]| |]; try contradiction.
    + destruct H1 as [c1 E1]. destruct H2 as [c2 E2].
      rewrite E1 in E2 |- *. inversion E2; subst.
      simpl. f_equal. apply IH. congruence.
    + destruct H1 as [c1 E1]. rewrite H2 in E1. discriminate.
    + destruct H2 as [c2 E2]. rewrite H1 in E2. discriminate.
    + rewrite H1. reflexivity.
Qed.

Lemma Evaluate_total_any_vector (flags : Flags) (exp : double -> double)
    (fuel : nat) (self : TrajectoryEvaluator.t)
    (planning_target : PlanningTarget.t) (lon lat : Trajectory1d)
    (cost_components cost_components' : option (list double)) :
  option_map fst
    (TrajectoryEvaluator.Evaluate flags exp fuel self planning_target lon lat
       cost_components)
  = option_map fst
      (TrajectoryEvaluator.Evaluate flags exp fuel self planning_target lon
         lat cost_components').
Proof.
  unfold TrajectoryEvaluator.Evaluate.
  destruct (TrajectoryEvaluator.ComputeLongitudinalGuideVelocity _ _ _ _);
    simpl; [|reflexivity].
  destruct (TrajectoryEvaluator.LonComfortCost _ _ _); simpl; [|reflexivity].
  destruct (for_double _ _ _ _ _ _); simpl; [|reflexivity].
  destruct (TrajectoryEvaluator.LatComfortCost _ _ _ _); reflexivity.
Qed.

Lemma Evaluate_same_inputs (flags : Flags) (exp : double -> double)
    (fuel : nat) (self self' : TrajectoryEvaluator.t)
    (planning_target : PlanningTarget.t) (lon lat : Trajectory1d)
    (cost_components : option (list double)) :
  TrajectoryEvaluator.init_s_ self = TrajectoryEvaluator.init_s_ self' ->
  TrajectoryEvaluator.path_time_intervals_ self
  = TrajectoryEvaluator.path_time_intervals_ self' ->
  TrajectoryEvaluator.Evaluate flags exp fuel self planning_target lon lat
    cost_components
  = TrajectoryEvaluator.Evaluate flags exp fuel self' planning_target lon lat
      cost_components.
Proof.
  intros Hs Hp.
  unfold TrajectoryEvaluator.Evaluate,
    TrajectoryEvaluator.ComputeLongitudinalGuideVelocity,
    TrajectoryEvaluator.guide_profile, TrajectoryEvaluator.LonCollisionCost.
  rewrite Hs, Hp. reflexivity.
Qed.

Lemma Evaluate_with_auto_tuning (b : bool) (flags : Flags)
    (exp : double -> double) (fuel : nat) (self : TrajectoryEvaluator.t)
    (planning_target : PlanningTarget.t) (lon lat : Trajectory1d)
    (cost_components : option (list double)) :
  TrajectoryEvaluator.Evaluate (with_auto_tuning b flags) exp fuel self
    planning_target lon lat cost_components
  = TrajectoryEvaluator.Evaluate flags exp fuel self planning_target lon lat
      cost_components.
Proof. reflexivity. Qed.

Section Modes.
Import TrajectoryEvaluator Store.
Variable flags : Flags.
Variable exp : double -> double.
Variable IsValidLongitudinalTrajectory : Trajectory1d -> bool.
Variable fuel : nat.
Variable planning_target : PlanningTarget.t.

Local Abbreviation tracking := (with_auto_tuning true flags).
Local Abbreviation plain := (with_auto_tuning false flags).

Lemma construct_lat_in_step (lon : Trajectory1d) (lats : list Trajectory1d)
    (self1 self2 : t) :
  in_step flags (Some self1) (Some self2) ->
  in_step flags (construct_lat tracking exp fuel planning_target lon lats self1)
          (construct_lat plain exp fuel planning_target lon lats self2).
Proof.
  revert self1 self2.
  induction lats as [|lat rest IH]; intros self1 self2 Hstep.
  - exact Hstep.
  - destruct Hstep as [Hs [Hp He]].
    cbn [construct_lat with_auto_tuning FLAGS_enable_auto_tuning negb].
    rewrite 2 Evaluate_with_auto_tuning.
    rewrite (Evaluate_same_inputs flags exp fuel self1 self2 _ _ _ _ Hs Hp).
    pose proof (Evaluate_total_any_vector flags exp fuel self2 planning_target
                  lon lat (Some []) None) as Htot.
    destruct (Evaluate flags exp fuel self2 planning_target lon lat (Some []))
      as [r1|];
      destruct (Evaluate flags exp fuel self2 planning_target lon lat None)
        as [r2|]; cbn [option_map] in Htot; try discriminate.
    + cbn [bind]. apply IH.
      split; [exact Hs|]. split; [exact Hp|].
      assert (He' : map (fun e : PairCostWithComponents =>
                           (fst e, snd (snd e)))
                      (cost_queue_with_components_ self1)
                    = cost_queue_ self2) by exact He.
      change (map (fun e : PairCostWithComponents => (fst e, snd (snd e)))
                (PriorityQueue.push
                   (lon, lat,
                    (match snd r1 with Some v => v | None => [] end, fst r1))
                   (cost_queue_with_components_ self1))
              = PriorityQueue.push (lon, lat, fst r2) (cost_queue_ self2)).
      unfold PriorityQueue.push. rewrite map_app.
      f_equal; [exact He'|]. cbn [map fst snd].
      injection Htot as Hf. rewrite Hf. reflexivity.
    + exact I.
Qed.

Lemma construct_lon_in_step (end_time stop_point : double)
    (lons lats : list Trajectory1d) (self1 self2 : t) :
  in_step flags (Some self1) (Some self2) ->
  in_step flags (construct_lon tracking exp IsValidLongitudinalTrajectory fuel
             planning_target end_time stop_point lons lats self1)
          (construct_lon plain exp IsValidLongitudinalTrajectory fuel
             planning_target end_time stop_point lons lats self2).
Proof.
  revert self1 self2.
  induction lons as [|lon rest IH]; intros self1 self2 Hstep.
  - exact Hstep.
  - cbn [construct_lon].
    destruct (Curve1d.Evaluate lon 0 end_time >? stop_point);
      [apply IH, Hstep|].
    destruct (negb (IsValidLongitudinalTrajectory lon)); [apply IH, Hstep|].
    pose proof (construct_lat_in_step lon lats self1 self2 Hstep) as Hlat.
    destruct (construct_lat tracking exp fuel planning_target lon lats self1)
      as [s1|];
      destruct (construct_lat plain exp fuel planning_target lon lats self2)
        as [s2|]; try contradiction.
    + cbn [bind]. apply IH, Hlat.
    + exact I.
Qed.
End Modes.

(** X7.  Switching component tracking on or off changes neither whether
    the constructor returns nor the ranking: the two stores hold the same
    pairs with the same total costs, and the caller's retrieval loop
    obtains the same pairs and costs in the same order. *)
Theorem ranking_independent_of_tracking_mode
    (flags : Flags) (exp : double -> double)
    (IsValidLongitudinalTrajectory : Trajectory1d -> bool)
    (fuel : nat) (init_s : double * double * double)
    (planning_target : PlanningTarget.t)
    (lon_trajectories lat_trajectories : list Trajectory1d)
    (path_time_graph : PathTimeGraph.t) :
  match
    TrajectoryEvaluator.create (with_auto_tuning true flags) exp
      IsValidLongitudinalTrajectory fuel init_s planning_target
      lon_trajectories lat_trajectories path_time_graph,
    TrajectoryEvaluator.create (with_auto_tuning false flags) exp
      IsValidLongitudinalTrajectory fuel init_s planning_target
      lon_trajectories lat_trajectories path_time_graph
  with
  | Some tracking, Some plain =>
      Store.entries (with_auto_tuning true flags) tracking
      = Store.entries (with_auto_tuning false flags) plain /\
      forall n,
        Store.retrieve (with_auto_tuning true flags) n tracking
        = Store.retrieve (with_auto_tuning false flags) n plain
  | None, None => True
  | _, _ => False
  end.
Proof.
  pose proof (construct_lon_in_step flags exp IsValidLongitudinalTrajectory
                fuel planning_target (FLAGS_trajectory_time_length flags)
                match PlanningTarget.stop_point planning_target with
                | Some stop => PlanningTarget.s stop
                | None => DBL_MAX
                end
                lon_trajectories lat_trajectories
                {| TrajectoryEvaluator.path_time_graph_ := path_time_graph;
                   TrajectoryEvaluator.init_s_ := init_s;
                   TrajectoryEvaluator.path_time_intervals_ :=
                     PathTimeGraph.GetPathBlockingIntervals path_time_graph 0
                       (FLAGS_trajectory_time_length flags)
                       (FLAGS_trajectory_time_resolution flags);
                   TrajectoryEvaluator.cost_queue_ := [];
                   TrajectoryEvaluator.cost_queue_with_components_ := [] |}
                {| TrajectoryEvaluator.path_time_graph_ := path_time_graph;
                   TrajectoryEvaluator.init_s_ := init_s;
                   TrajectoryEvaluator.path_time_intervals_ :=
                     PathTimeGraph.GetPathBlockingIntervals path_time_graph 0
                       (FLAGS_trajectory_time_length flags)
                       (FLAGS_trajectory_time_resolution flags);
                   TrajectoryEvaluator.cost_queue_ := [];
                   TrajectoryEvaluator.cost_queue_with_components_ := [] |})
    as H.
  unfold TrajectoryEvaluator.create.
  cbn [with_auto_tuning FLAGS_trajectory_time_length
       FLAGS_trajectory_time_resolution].
  destruct (TrajectoryEvaluator.construct_lon (with_auto_tuning true flags)
              _ _ _ _ _ _ _ _ _) as [s1|];
    destruct (TrajectoryEvaluator.construct_lon (with_auto_tuning false flags)
                _ _ _ _ _ _ _ _ _) as [s2|].
  - destruct H as [_ [_ He]]; [repeat split; reflexivity|].
    split; [exact He|]. intro n. apply retrieve_entries, He.
  - apply H. repeat split; reflexivity.
  - apply H. repeat split; reflexivity.
  - exact I.
Qed.

(** The retrieval order of the scenario is the same in both modes. *)
Example ranking_independent_of_tracking_mode_run :
  option_map (fun self => map snd (Store.retrieve (Scenario.flags true) 4 self))
    (Scenario.constructed true)
  = option_map
      (fun self => map snd (Store.retrieve (Scenario.flags false) 4 self))
      (Scenario.constructed false).
Proof. vm_compute. reflexivity. Qed.

(** ** The three accessors agree on the top entry *)

(** X8.  In component-tracking mode with a non-empty store, the cost
    peek, the component peek and the retrieval all answer from one and the
    same entry of the queue: none of them is undefined, and the entry has
    the least total cost of the store. *)
Theorem accessors_agree_on_top_entry
    (flags : Flags) (self : TrajectoryEvaluator.t) :
  FLAGS_enable_auto_tuning flags = true ->
  TrajectoryEvaluator.has_more_trajectory_pairs flags self = true ->
  exists p components c self',
    In (p, (components, c))
       (TrajectoryEvaluator.cost_queue_with_components_ self) /\
    TrajectoryEvaluator.top_trajectory_pair_cost flags self = Returns c /\
    TrajectoryEvaluator.top_trajectory_pair_component_cost flags self
    = Returns components /\
    TrajectoryEvaluator.next_top_trajectory_pair flags self
    = Returns (p, self') /\
    forall e, In e (TrajectoryEvaluator.cost_queue_with_components_ self) ->
              c <= snd (snd e).
Proof.
  intros Hauto Hmore.
  unfold TrajectoryEvaluator.top_trajectory_pair_cost,
    TrajectoryEvaluator.top_trajectory_pair_component_cost,
    TrajectoryEvaluator.next_top_trajectory_pair, PriorityQueue.top,
    PriorityQueue.pop.
  rewrite Hmore.
  unfold TrajectoryEvaluator.has_more_trajectory_pairs in Hmore.
  rewrite Hauto in *. simpl in *.
  destruct (PriorityQueue.extract TrajectoryEvaluator.CostComponentComparator
              (TrajectoryEvaluator.cost_queue_with_components_ self))
    as [[[p [components c]] q']|] eqn:E.
  - simpl. exists p, components, c. eexists.
    split; [|split; [reflexivity|split; [reflexivity|split; [reflexivity|]]]].
    + apply extract_perm in E.
      apply (Permutation_in _ (Permutation_sym E)). left. reflexivity.
    + intros e He.
      apply (extract_least
               (fun e : TrajectoryEvaluator.PairCostWithComponents =>
                  snd (snd e))
               TrajectoryEvaluator.CostComponentComparator
               (fun _ _ => eq_refl) _ _ _ E e He).
  - apply extract_nil in E. rewrite E in Hmore. discriminate.
Qed.

Lemma accessors_agree_on_top_entry_witness :
  exists p components c self',
    TrajectoryEvaluator.top_trajectory_pair_cost (Scenario.flags true)
      ScenarioMore.tracked = Returns c /\
    TrajectoryEvaluator.top_trajectory_pair_component_cost
      (Scenario.flags true) ScenarioMore.tracked = Returns components /\
    TrajectoryEvaluator.next_top_trajectory_pair (Scenario.flags true)
      ScenarioMore.tracked = Returns (p, self').
Proof.
  destruct (accessors_agree_on_top_entry (Scenario.flags true)
              ScenarioMore.tracked eq_refl eq_refl)
    as [p [components [c [self' [_ [Hc [Hk [Hn _]]]]]]]].
  exists p, components, c, self'. auto.
Defined.

(** ** Ranges of the cost terms *)

Lemma Qsquare_abs (c : double) : c * c == Qabs c * Qabs c.
Proof.
  apply (Qabs_case c (fun a => c * c == a * a)); intros; ring.
Qed.

(** A ratio of a sum of squares to a sum of absolute values, as the
    comfort cost accumulates it: both sums stay non-negative and the first
    is at most [M] times the second when every term is within [M]. *)
Lemma ratio_sums_bounds (f : double -> double) (M : double)
    (ts : list double) (sums : double * double) :
  (forall t, In t ts -> Qabs (f t) <= M) ->
  0 <= fst sums -> fst sums <= M * snd sums -> 0 <= snd sums ->
  let sums' :=
    fold_left (fun (a : double * double) t =>
                 (fst a + f t * f t, snd a + Qabs (f t)))
      ts sums in
  0 <= fst sums' /\ fst sums' <= M * snd sums' /\ 0 <= snd sums'.
Proof.
  revert sums. induction ts as [|t rest IH]; intros [a b] HM Ha Hab Hb;
    cbn [fold_left fst snd] in *.
  - auto.
  - apply IH; cbn [fst snd].
    + intros t' Ht'. apply HM. right. exact Ht'.
    + pose proof (Qsquare_abs (f t)). pose proof (Qabs_nonneg (f t)). nra.
    + pose proof (Qsquare_abs (f t)). pose proof (Qabs_nonneg (f t)).
      assert (Qabs (f t) <= M) by (apply HM; left; reflexivity). nra.
    + pose proof (Qabs_nonneg (f t)). lra.
Qed.

Lemma ratio_le (a b M eps : double) :
  0 < eps -> 0 <= a -> a <= M * b -> 0 <= b -> 0 <= M ->
  0 <= a / (b + eps) /\ a / (b + eps) <= M.
Proof.
  intros Heps Ha Hab Hb HM. split.
  - apply Qle_shift_div_l; lra.
  - apply Qle_shift_div_r; [lra|]. nra.
Qed.

(** X9.  With a positive epsilon and a positive time resolution the
    longitudinal comfort cost is never negative, and it is at most [M]
    whenever the jerk of the candidate, divided by the jerk bound, stays
    within [M] over the horizon; a candidate that keeps its jerk within
    the configured bound has a comfort cost of at most 1. *)
Theorem LonComfortCost_range
    (flags : Flags) (fuel : nat) (lon_trajectory : Trajectory1d)
    (cost M : double) :
  0 < FLAGS_lattice_epsilon flags ->
  0 < FLAGS_trajectory_time_resolution flags ->
  TrajectoryEvaluator.LonComfortCost flags fuel lon_trajectory = Some cost ->
  (forall t, 0 <= t -> t < FLAGS_trajectory_time_length flags ->
     Qabs (Curve1d.Evaluate lon_trajectory 3 t /
           FLAGS_longitudinal_jerk_upper_bound flags) <= M) ->
  0 <= M ->
  0 <= cost /\ cost <= M.
Proof.
  intros Heps Hdt Hcost HM HM0.
  unfold TrajectoryEvaluator.LonComfortCost in Hcost.
  rewrite for_double_samples in Hcost.
  destruct (samples fuel 0 (FLAGS_trajectory_time_length flags)
              (FLAGS_trajectory_time_resolution flags)) as [ts|] eqn:Ets;
    cbn [option_map bind] in Hcost; [|discriminate].
  inversion Hcost; subst cost; clear Hcost.
  apply samples_range in Ets; [|lra|lra]. rewrite Forall_forall in Ets.
  destruct (ratio_sums_bounds
              (fun t => Curve1d.Evaluate lon_trajectory 3 t /
                        FLAGS_longitudinal_jerk_upper_bound flags)
              M ts (0, 0)) as [Ha [Hab Hb]]; cbn [fst snd]; try lra.
  { intros t Ht. destruct (Ets t Ht). apply HM; assumption. }
  apply ratio_le; assumption.
Qed.

Lemma LonComfortCost_range_witness :
  match
    TrajectoryEvaluator.LonComfortCost (Scenario.flags false) 2
      (Scenario.constant_speed 3)
  with
  | Some cost => 0 <= cost /\ cost <= 1
  | None => False
  end.
Proof.
  destruct (TrajectoryEvaluator.LonComfortCost (Scenario.flags false) 2
              (Scenario.constant_speed 3)) as [cost|] eqn:E.
  - apply (LonComfortCost_range (Scenario.flags false) 2
             (Scenario.constant_speed 3) cost 1).
    + reflexivity.
    + reflexivity.
    + exact E.
    + intros t _ _. vm_compute. discriminate.
    + vm_compute. discriminate.
  - vm_compute in E. discriminate E.
Defined.

(** ** The lateral comfort cost is a maximum *)

Lemma max_fold_spec (g : double -> double) (ts : list double) (m : double) :
  let r := fold_left (fun a t => Qmax a (Qabs (g t))) ts m in
  m <= r /\
  (forall t, In t ts -> Qabs (g t) <= r) /\
  (r == m \/ exists t, In t ts /\ r == Qabs (g t)).
Proof.
  revert m. induction ts as [|t rest IH]; intro m; cbn [fold_left].
  - split; [apply Qle_refl|]. split; [intros t []|]. left. reflexivity.
  - destruct (IH (Qmax m (Qabs (g t)))) as [Hle [Hall Hatt]].
    split; [|split].
    + apply Qle_trans with (Qmax m (Qabs (g t))); [apply Q.le_max_l|exact Hle].
    + intros t' [<-|Ht'].
      * apply Qle_trans with (Qmax m (Qabs (g t)));
          [apply Q.le_max_r|exact Hle].
      * apply Hall, Ht'.
    + destruct Hatt as [Heq|[t' [Ht' Heq]]].
      * destruct (Q.max_dec m (Qabs (g t))) as [Hm|Hm].
        -- left. rewrite Heq. exact Hm.
        -- right. exists t. split; [left; reflexivity|].
           rewrite Heq. exact Hm.
      * right. exists t'. split; [right; exact Ht'|exact Heq].
Qed.

(** X10.  The lateral comfort cost is the largest value of
    [|l'' * s_dot^2 + l' * s_dotdot|] over the sampled times, with the
    lateral derivatives taken at the longitudinal position [s(t)]: it
    bounds the term at every sample, it is attained at a sample unless it
    is 0, and it is never negative. *)
Theorem LatComfortCost_is_maximum
    (flags : Flags) (fuel : nat)
    (lon_trajectory lat_trajectory : Trajectory1d) (cost : double) :
  TrajectoryEvaluator.LatComfortCost flags fuel lon_trajectory lat_trajectory
    = Some cost ->
  let term t :=
    Curve1d.Evaluate lat_trajectory 2 (Curve1d.Evaluate lon_trajectory 0 t) *
      Curve1d.Evaluate lon_trajectory 1 t *
      Curve1d.Evaluate lon_trajectory 1 t +
    Curve1d.Evaluate lat_trajectory 1 (Curve1d.Evaluate lon_trajectory 0 t) *
      Curve1d.Evaluate lon_trajectory 2 t in
  exists ts,
    samples fuel 0 (FLAGS_trajectory_time_length flags)
      (FLAGS_trajectory_time_resolution flags) = Some ts /\
    0 <= cost /\
    (forall t, In t ts -> Qabs (term t) <= cost) /\
    (cost == 0 \/ exists t, In t ts /\ cost == Qabs (term t)).
Proof.
  intros Hcost term.
  unfold TrajectoryEvaluator.LatComfortCost in Hcost.
  rewrite for_double_samples in Hcost.
  destruct (samples fuel 0 (FLAGS_trajectory_time_length flags)
              (FLAGS_trajectory_time_resolution flags)) as [ts|];
    cbn [option_map] in Hcost; [|discriminate].
  inversion Hcost; subst cost; clear Hcost.
  exists ts. split; [reflexivity|].
  exact (max_fold_spec term ts 0).
Qed.

Lemma LatComfortCost_is_maximum_witness :
  match
    TrajectoryEvaluator.LatComfortCost (Scenario.flags false) 2
      (Scenario.constant_speed 3) Scenario.drifting_left
  with
  | Some cost => 0 <= cost
  | None => False
  end.
Proof.
  destruct (TrajectoryEvaluator.LatComfortCost (Scenario.flags false) 2
              (Scenario.constant_speed 3) Scenario.drifting_left)
    as [cost|] eqn:E.
  - destruct (LatComfortCost_is_maximum _ _ _ _ _ E) as [ts [_ [H _]]].
    exact H.
  - vm_compute in E. discriminate E.
Defined.

(** ** Range of the collision cost *)
Section CollisionRange.
Import TrajectoryEvaluator.
Variable flags : Flags.
Variable exp : double -> double.
Hypothesis exp_range : forall x, x <= 0 -> 0 < exp x /\ exp x <= 1.
Hypothesis sigma_nonzero : ~ FLAGS_lon_collision_cost_std flags == 0.

Lemma gaussian_argument_nonpositive (dist : double) :
  - dist * dist /
    (2 * FLAGS_lon_collision_cost_std flags *
     FLAGS_lon_collision_cost_std flags) <= 0.
Proof.
  set (sigma := FLAGS_lon_collision_cost_std flags) in *.
  assert (Hs : 0 < 2 * sigma * sigma).
  { assert (0 <= sigma * sigma) by nra.
    assert (~ sigma * sigma == 0).
    { intro H0. apply sigma_nonzero.
      destruct (Qmult_integral _ _ H0); assumption. }
    lra. }
  apply Qle_shift_div_r; [exact Hs|]. nra.
Qed.

Lemma LonCollisionCost_intervals_bounds (traj_s : double)
    (pt_interval : list (double * double)) (sums : double * double) :
  0 <= fst sums -> fst sums <= snd sums ->
  let sums' :=
    LonCollisionCost_intervals flags exp traj_s
      (FLAGS_lon_collision_cost_std flags) pt_interval sums in
  0 <= fst sums' /\ fst sums' <= snd sums'.
Proof.
  revert sums. induction pt_interval as [|m rest IH]; intros [a b] Ha Hab;
    cbn [LonCollisionCost_intervals fst snd] in *.
  - auto.
  - match goal with
    | |- context [exp ?x] =>
        destruct (exp_range x) as [Hpos Hle1]
    end.
    { apply gaussian_argument_nonpositive. }
    apply IH; cbn [fst snd]; nra.
Qed.

Lemma LonCollisionCost_loop_bounds (lon : Trajectory1d) (i : nat)
    (slices : list (list (double * double))) (sums : double * double) :
  0 <= fst sums -> fst sums <= snd sums ->
  let sums' := LonCollisionCost_loop flags exp lon i slices sums in
  0 <= fst sums' /\ fst sums' <= snd sums'.
Proof.
  revert i sums. induction slices as [|pt_interval rest IH];
    intros i sums Ha Hab; cbn [LonCollisionCost_loop].
  - auto.
  - destruct (vector_empty pt_interval).
    + apply IH; assumption.
    + destruct (LonCollisionCost_intervals_bounds
                  (Curve1d.Evaluate lon 0
                     (to_double i * FLAGS_trajectory_time_resolution flags))
                  pt_interval sums Ha Hab) as [Ha' Hab'].
      apply IH; assumption.
Qed.
End CollisionRange.

(** X11.  The longitudinal collision cost lies between 0 and 1, for any
    candidate and any table of blocking intervals, as long as the
    exponential takes values in (0, 1] on arguments that are not positive,
    the standard deviation flag is not zero and epsilon is positive. *)
Theorem LonCollisionCost_range
    (flags : Flags) (exp : double -> double)
    (self : TrajectoryEvaluator.t) (lon_trajectory : Trajectory1d) :
  (forall x, x <= 0 -> 0 < exp x /\ exp x <= 1) ->
  ~ FLAGS_lon_collision_cost_std flags == 0 ->
  0 < FLAGS_lattice_epsilon flags ->
  0 <= TrajectoryEvaluator.LonCollisionCost flags exp self lon_trajectory /\
  TrajectoryEvaluator.LonCollisionCost flags exp self lon_trajectory <= 1.
Proof.
  intros Hexp Hsigma Heps. unfold TrajectoryEvaluator.LonCollisionCost.
  destruct (LonCollisionCost_loop_bounds flags exp Hexp Hsigma lon_trajectory
              0 (TrajectoryEvaluator.path_time_intervals_ self) (0, 0))
    as [Ha Hab]; cbn [fst snd]; try lra.
  destruct (TrajectoryEvaluator.LonCollisionCost_loop flags exp lon_trajectory
              0 (TrajectoryEvaluator.path_time_intervals_ self) (0, 0))
    as [a b]; cbn [fst snd] in *.
  apply ratio_le; lra.
Qed.

Lemma LonCollisionCost_range_witness :
  0 <= TrajectoryEvaluator.LonCollisionCost (Scenario.flags false)
         Scenario.exp ScenarioMore.blocked (Scenario.constant_speed 3) /\
  TrajectoryEvaluator.LonCollisionCost (Scenario.flags false) Scenario.exp
    ScenarioMore.blocked (Scenario.constant_speed 3) <= 1.
Proof.
  apply (LonCollisionCost_range (Scenario.flags false) Scenario.exp
           ScenarioMore.blocked (Scenario.constant_speed 3)).
  - intros x _. split; [reflexivity|]. vm_compute. discriminate.
  - vm_compute. discriminate.
  - reflexivity.
Defined.

(** ** Range of the lateral offset cost *)

Lemma weighted_sums_bounds (f w : double -> double) (M : double)
    (ts : list double) (a b : double) :
  (forall t, In t ts -> Qabs (f t) <= M) ->
  (forall t, In t ts -> 0 <= w t) ->
  0 <= a -> a <= M * b -> 0 <= b ->
  let a' := fold_left (fun acc t => acc + f t * f t * w t) ts a in
  let b' := fold_left (fun acc t => acc + Qabs (f t) * w t) ts b in
  0 <= a' /\ a' <= M * b' /\ 0 <= b'.
Proof.
  revert a b. induction ts as [|t rest IH]; intros a b HM Hw Ha Hab Hb;
    cbn [fold_left].
  - auto.
  - assert (Ht : Qabs (f t) <= M) by (apply HM; left; reflexivity).
    assert (Hwt : 0 <= w t) by (apply Hw; left; reflexivity).
    pose proof (Qsquare_abs (f t)) as Hsq.
    pose proof (Qabs_nonneg (f t)) as Habs.
    assert (H1 : 0 <= Qabs (f t) * w t) by nra.
    assert (H2 : f t * f t * w t == Qabs (f t) * (Qabs (f t) * w t)).
    { rewrite Hsq. ring. }
    assert (H3 : Qabs (f t) * (Qabs (f t) * w t) <= M * (Qabs (f t) * w t)).
    { apply Qmult_le_compat_r; assumption. }
    apply IH.
    + intros t' Ht'. apply HM. right. exact Ht'.
    + intros t' Ht'. apply Hw. right. exact Ht'.
    + rewrite H2. nra.
    + rewrite H2. nra.
    + lra.
Qed.

(** X12.  With weights that are not negative and a positive epsilon the
    lateral offset cost is never negative, and it is at most [M] whenever
    every sampled offset, divided by the offset bound, is within [M]: a
    lateral candidate that stays within the configured bound at the
    sampled positions has an offset cost of at most 1.  Without samples
    the cost is 0. *)
Theorem LatOffsetCost_range
    (flags : Flags) (lat_trajectory : Trajectory1d)
    (s_values : list double) (M : double) :
  0 < FLAGS_lattice_epsilon flags ->
  0 <= FLAGS_weight_opposite_side_offset flags ->
  0 <= FLAGS_weight_same_side_offset flags ->
  (forall s', In s' s_values ->
     Qabs (Curve1d.Evaluate lat_trajectory 0 s' /
           FLAGS_lat_offset_bound flags) <= M) ->
  0 <= M ->
  0 <= TrajectoryEvaluator.LatOffsetCost flags lat_trajectory s_values /\
  TrajectoryEvaluator.LatOffsetCost flags lat_trajectory s_values <= M /\
  (s_values = [] ->
   TrajectoryEvaluator.LatOffsetCost flags lat_trajectory s_values == 0).
Proof.
  intros Heps Hopp Hsame HM HM0.
  unfold TrajectoryEvaluator.LatOffsetCost.
  rewrite LatOffsetCost_loop_weighted. cbn [fst snd].
  destruct (weighted_sums_bounds
              (fun s' => Curve1d.Evaluate lat_trajectory 0 s' /
                         FLAGS_lat_offset_bound flags)
              (WeightedOffset.side_weight flags lat_trajectory)
              M s_values 0 0 HM) as [Ha [Hab Hb]]; try lra.
  { intros t _. unfold WeightedOffset.side_weight.
    destruct (_ <? _); assumption. }
  destruct (ratio_le _ _ M _ Heps Ha Hab Hb HM0) as [R0 R1].
  split; [exact R0|]. split; [exact R1|].
  intros ->. cbn [fold_left]. unfold Qdiv. apply Qmult_0_l.
Qed.

Lemma LatOffsetCost_range_witness :
  0 <= TrajectoryEvaluator.LatOffsetCost (Scenario.flags false)
         (Scenario.constant_offset 1) [0; 1; 2] /\
  TrajectoryEvaluator.LatOffsetCost (Scenario.flags false)
    (Scenario.constant_offset 1) [0; 1; 2] <= 1.
Proof.
  destruct (LatOffsetCost_range (Scenario.flags false)
              (Scenario.constant_offset 1) [0; 1; 2] 1) as [H0 [H1 _]].
  - reflexivity.
  - vm_compute. discriminate.
  - vm_compute. discriminate.
  - intros s' _. vm_compute. discriminate.
  - vm_compute. discriminate.
  - split; assumption.
Defined.

(** ** The speed term of the objective cost *)
Section SpeedCost.
Import TrajectoryEvaluator.
Variable flags : Flags.
Variable lon : Trajectory1d.

Lemma LonObjectiveCost_loop_bounds (M : double) (refs : list double)
    (i : nat) (sums : double * double) :
  (forall k r, nth_error refs k = Some r ->
     Qabs (r - Curve1d.Evaluate lon 1
                 (to_double (i + k) * FLAGS_trajectory_time_resolution flags))
     <= M) ->
  0 <= fst sums -> fst sums <= M * snd sums -> 0 <= snd sums ->
  let sums' := LonObjectiveCost_loop flags lon i refs sums in
  0 <= fst sums' /\ fst sums' <= M * snd sums' /\ 0 <= snd sums'.
Proof.
  revert i sums. induction refs as [|r rest IH]; intros i [a b] HM Ha Hab Hb;
    cbn [LonObjectiveCost_loop fst snd] in *.
  - auto.
  - set (t := to_double i * FLAGS_trajectory_time_resolution flags).
    assert (Hc : Qabs (r - Curve1d.Evaluate lon 1 t) <= M).
    { specialize (HM 0%nat r eq_refl). rewrite Nat.add_0_r in HM. exact HM. }
    pose proof (Qabs_nonneg (r - Curve1d.Evaluate lon 1 t)) as Habs.
    assert (Htt : 0 <= t * t) by nra.
    assert (H1 : t * t * Qabs (r - Curve1d.Evaluate lon 1 t) <= t * t * M).
    { set (u := t * t) in *.
      set (c := Qabs (r - Curve1d.Evaluate lon 1 t)) in *. nra. }
    assert (H0 : 0 <= t * t * Qabs (r - Curve1d.Evaluate lon 1 t)) by nra.
    apply IH; cbn [fst snd].
    + intros k r' Hk. specialize (HM (S k) r' Hk).
      rewrite Nat.add_succ_r in HM. exact HM.
    + lra.
    + nra.
    + lra.
Qed.

Lemma LonObjectiveCost_loop_compat (refs : list double) (i : nat)
    (a b a' b' : double) :
  a == a' -> b == b' ->
  fst (LonObjectiveCost_loop flags lon i refs (a, b))
  == fst (LonObjectiveCost_loop flags lon i refs (a', b')) /\
  snd (LonObjectiveCost_loop flags lon i refs (a, b))
  == snd (LonObjectiveCost_loop flags lon i refs (a', b')).
Proof.
  revert i a b a' b'. induction refs as [|r rest IH]; intros i a b a' b' Ha Hb;
    cbn [LonObjectiveCost_loop fst snd].
  - auto.
  - apply IH; [rewrite Ha|rewrite Hb]; reflexivity.
Qed.
End SpeedCost.

(** X13.  With a positive epsilon the speed term of the objective cost
    is never negative, and it is at most [M] whenever every reference
    speed is within [M] of the speed of the candidate at the time of its
    index, [i * FLAGS_trajectory_time_resolution]: a candidate that
    follows the reference exactly has speed cost 0. *)
Theorem speed_cost_range
    (flags : Flags) (lon_trajectory : Trajectory1d)
    (ref_s_dots : list double) (M : double) :
  0 < FLAGS_lattice_epsilon flags ->
  (forall i ref_s_dot, nth_error ref_s_dots i = Some ref_s_dot ->
     Qabs (ref_s_dot -
           Curve1d.Evaluate lon_trajectory 1
             (to_double i * FLAGS_trajectory_time_resolution flags)) <= M) ->
  0 <= M ->
  0 <= TrajectoryEvaluator.speed_cost flags lon_trajectory ref_s_dots /\
  TrajectoryEvaluator.speed_cost flags lon_trajectory ref_s_dots <= M.
Proof.
  intros Heps HM HM0. unfold TrajectoryEvaluator.speed_cost.
  destruct (LonObjectiveCost_loop_bounds flags lon_trajectory M ref_s_dots
              0 (0, 0)) as [Ha [Hab Hb]]; cbn [fst snd]; try lra.
  { intros k r Hk. apply HM, Hk. }
  destruct (TrajectoryEvaluator.LonObjectiveCost_loop flags lon_trajectory 0
              ref_s_dots (0, 0)) as [a b]; cbn [fst snd] in *.
  apply ratio_le; assumption.
Qed.

Lemma speed_cost_range_witness :
  TrajectoryEvaluator.speed_cost (Scenario.flags false)
    (Scenario.constant_speed 3) [3; 3; 3] == 0.
Proof.
  destruct (speed_cost_range (Scenario.flags false)
              (Scenario.constant_speed 3) [3; 3; 3] 0) as [H0 H1].
  - reflexivity.
  - intros i r Hi.
    assert (Hr : r = 3).
    { destruct i as [|[|[|i]]]; simpl in Hi; try congruence.
      destruct i; discriminate Hi. }
    subst r. vm_compute. discriminate.
  - vm_compute. discriminate.
  - apply Qle_antisym; assumption.
Defined.

(** X14.  The first reference speed carries the weight [t * t] with
    [t = 0]: the objective cost does not depend on it. *)
Theorem LonObjectiveCost_ignores_first_reference
    (flags : Flags) (lon_trajectory : Trajectory1d)
    (planning_target : PlanningTarget.t)
    (ref_s_dot ref_s_dot' : double) (rest : list double) :
  TrajectoryEvaluator.speed_cost flags lon_trajectory (ref_s_dot :: rest)
  == TrajectoryEvaluator.speed_cost flags lon_trajectory (ref_s_dot' :: rest)
  /\
  TrajectoryEvaluator.LonObjectiveCost flags lon_trajectory planning_target
    (ref_s_dot :: rest)
  == TrajectoryEvaluator.LonObjectiveCost flags lon_trajectory planning_target
       (ref_s_dot' :: rest).
Proof.
  assert (Hs : TrajectoryEvaluator.speed_cost flags lon_trajectory
                 (ref_s_dot :: rest)
               == TrajectoryEvaluator.speed_cost flags lon_trajectory
                    (ref_s_dot' :: rest)).
  { unfold TrajectoryEvaluator.speed_cost.
    cbn [TrajectoryEvaluator.LonObjectiveCost_loop].
    set (t := to_double 0 * FLAGS_trajectory_time_resolution flags).
    assert (Ht : t == 0) by (unfold t, to_double; simpl; ring).
    set (L := TrajectoryEvaluator.LonObjectiveCost_loop flags lon_trajectory
                1 rest
                (0 + t * t * Qabs (ref_s_dot
                                   - Curve1d.Evaluate lon_trajectory 1 t),
                 0 + t * t)).
    set (L' := TrajectoryEvaluator.LonObjectiveCost_loop flags lon_trajectory
                 1 rest
                 (0 + t * t * Qabs (ref_s_dot'
                                    - Curve1d.Evaluate lon_trajectory 1 t),
                  0 + t * t)).
    assert (HL : fst L == fst L' /\ snd L == snd L').
    { apply LonObjectiveCost_loop_compat; [|reflexivity].
      assert (Hz : forall u A B : double,
                 u == 0 -> 0 + u * A == 0 + u * B).
      { intros u A B Hu. rewrite Hu. ring. }
      apply Hz. assert (Hm : forall u : double, u == 0 -> u * u == 0).
      { intros u Hu. rewrite Hu. ring. }
      apply Hm, Ht. }
    clearbody L L'. destruct L as [a b], L' as [a' b'].
    cbn [fst snd] in HL. destruct HL as [Hf Hsn].
    rewrite Hf, Hsn. reflexivity. }
  split; [exact Hs|].
  unfold TrajectoryEvaluator.LonObjectiveCost. rewrite Hs. reflexivity.
Qed.

(** ** A candidate that does not advance *)

Lemma for_double_skips {A : Type} (body : double -> A -> A) (fuel : nat)
    (x bound step : double) (acc : A) :
  bound <= x -> for_double fuel x bound step body acc = Some acc.
Proof.
  intro H. apply dlt_false in H. destruct fuel; simpl; rewrite H; reflexivity.
Qed.

(** X15.  When the decision horizon or the position the longitudinal
    candidate reaches at the end of its domain is not positive, no lateral
    position is sampled: the lateral offset component of the evaluation is
    the cost of no samples, which is 0 for a nonzero epsilon, whatever the
    lateral candidate. *)
Theorem Evaluate_without_lateral_samples
    (flags : Flags) (exp : double -> double) (fuel : nat)
    (self : TrajectoryEvaluator.t) (planning_target : PlanningTarget.t)
    (lon_trajectory lat_trajectory : Trajectory1d)
    (total : double) (components : list double) :
  FLAGS_decision_horizon flags <= 0 \/
  Curve1d.Evaluate lon_trajectory 0 (Curve1d.ParamLength lon_trajectory) <= 0 ->
  ~ FLAGS_lattice_epsilon flags == 0 ->
  TrajectoryEvaluator.Evaluate flags exp fuel self planning_target
    lon_trajectory lat_trajectory (Some []) = Some (total, Some components) ->
  nth_error components 3
  = Some (TrajectoryEvaluator.LatOffsetCost flags lat_trajectory []) /\
  TrajectoryEvaluator.LatOffsetCost flags lat_trajectory [] == 0.
Proof.
  intros Hreach Heps H. split.
  - unfold TrajectoryEvaluator.Evaluate in H.
    destruct (TrajectoryEvaluator.ComputeLongitudinalGuideVelocity flags fuel
                self planning_target) as [r|]; cbn [bind] in H;
      [|discriminate].
    destruct (TrajectoryEvaluator.LonComfortCost flags fuel lon_trajectory)
      as [j|]; cbn [bind] in H; [|discriminate].
    rewrite for_double_skips in H.
    2:{ destruct Hreach as [Hh|Hr].
        - apply Qle_trans with (FLAGS_decision_horizon flags);
            [apply Q.le_min_l|exact Hh].
        - apply Qle_trans with
            (Curve1d.Evaluate lon_trajectory 0
               (Curve1d.ParamLength lon_trajectory));
            [apply Q.le_min_r|exact Hr]. }
    cbn [bind] in H.
    destruct (TrajectoryEvaluator.LatComfortCost flags fuel lon_trajectory
                lat_trajectory) as [c|]; cbn [bind] in H; [|discriminate].
    inversion H; subst; clear H. reflexivity.
  - unfold TrajectoryEvaluator.LatOffsetCost. simpl. unfold Qdiv.
    apply Qmult_0_l.
Qed.

Lemma Evaluate_without_lateral_samples_witness :
  match
    TrajectoryEvaluator.Evaluate (Scenario.flags true) Scenario.exp 2
      (Scenario.holding [] []) Scenario.cruise Scenario.backing_up
      Scenario.drifting_left (Some [])
  with
  | Some (total, Some components) =>
      exists c, nth_error components 3 = Some c /\ c == 0
  | _ => False
  end.
Proof.
  destruct (TrajectoryEvaluator.Evaluate (Scenario.flags true) Scenario.exp 2
              (Scenario.holding [] []) Scenario.cruise Scenario.backing_up
              Scenario.drifting_left (Some []))
    as [[total [components|]]|] eqn:E.
  - assert (Hreach :
              FLAGS_decision_horizon (Scenario.flags true) <= 0 \/
              Curve1d.Evaluate Scenario.backing_up 0
                (Curve1d.ParamLength Scenario.backing_up) <= 0).
    { right. vm_compute. discriminate. }
    assert (Heps : ~ FLAGS_lattice_epsilon (Scenario.flags true) == 0).
    { intro H. vm_compute in H. discriminate H. }
    destruct (Evaluate_without_lateral_samples _ _ _ _ _ _ _ _ _
                Hreach Heps E) as [Hn Hz].
    eexists. split; [exact Hn|exact Hz].
  - vm_compute in E. discriminate E.
  - vm_compute in E. discriminate E.
Defined.

(** ** Draining the store *)

Lemma retrieve_all_permutation (flags : Flags) (n : nat)
    (self : TrajectoryEvaluator.t) :
  length (Store.entries flags self) = n ->
  Permutation (Store.retrieve flags n self) (Store.entries flags self) /\
  exists self',
    Store.reaches flags self self' /\ Store.entries flags self' = [].
Proof.
  revert self. induction n as [|n IH]; intros self Hn; simpl.
  - destruct (Store.entries flags self) eqn:E; [|discriminate].
    split; [constructor|]. exists self. split; [constructor|exact E].
  - destruct (next_top_succeeds flags self) as [p [self1 Hnext]].
    { intro E. rewrite E in Hn. discriminate. }
    destruct (next_top_spec flags _ _ _ Hnext) as [c [Hc [Hperm _]]].
    rewrite Hc, Hnext.
    destruct (IH self1) as [Hp [self' [Hreach Hempty]]].
    { apply Permutation_length in Hperm. simpl in Hperm. lia. }
    split.
    + rewrite Hperm. constructor. exact Hp.
    + exists self'. split; [|exact Hempty].
      apply (Store.reaches_step flags self p self1 self' Hnext Hreach).
Qed.

(** X16.  The caller's loop, run for as many rounds as
    [num_of_trajectory_pairs] reports, retrieves every pair of the store
    exactly once (with the cost it was stored with), and the evaluator it
    leaves reports no more pairs and a count of 0. *)
Theorem retrieval_drains_the_store
    (flags : Flags) (self : TrajectoryEvaluator.t) :
  Permutation
    (Store.retrieve flags
       (TrajectoryEvaluator.num_of_trajectory_pairs flags self) self)
    (Store.entries flags self) /\
  exists self',
    Store.reaches flags self self' /\
    TrajectoryEvaluator.has_more_trajectory_pairs flags self' = false /\
    TrajectoryEvaluator.num_of_trajectory_pairs flags self' = 0%nat /\
    TrajectoryEvaluator.next_top_trajectory_pair flags self' = CheckFailure.
Proof.
  destruct (retrieve_all_permutation flags
              (TrajectoryEvaluator.num_of_trajectory_pairs flags self) self)
    as [Hp [self' [Hreach Hempty]]].
  { symmetry. apply num_of_trajectory_pairs_entries. }
  split; [exact Hp|]. exists self'. split; [exact Hreach|].
  rewrite num_of_trajectory_pairs_entries, has_more_entries, Hempty.
  split; [reflexivity|]. split; [reflexivity|].
  pose proof (next_top_trajectory_pair_entries flags self') as H.
  destruct (TrajectoryEvaluator.next_top_trajectory_pair flags self')
    as [[p s]| |].
  - destruct H as [c Hc]. rewrite Hempty in Hc. discriminate.
  - reflexivity.
  - contradiction.
Qed.
